(** * A datagram endpoint of the network transport layer

    Shallow embedding of [pkg/tcpip/transport/internal/network/endpoint.go].

    The endpoint is a record; every method of the Go type [Endpoint] is a
    function that takes the endpoint (and, where the method talks to the
    stack or to a route, the [World]) and returns the new ones.  The
    endpoint's mutex serialises the methods, so each method is modelled as
    one atomic step.  A Go [panic] is the [Panic] outcome.

    The network stack, its routes and the helpers of package [header] are
    not part of this file: they are the fields of the class [Collaborators]. *)

From stdpp Require Import base numbers strings list gmap sets.

Local Open Scope Z_scope.

(** ** Values shared with package [tcpip] *)

(** [tcpip.Address] is a Go string of raw bytes, [""] when unset. *)
Abbreviation Address := string (only parsing).
(** [tcpip.NICID] (an int32); 0 means no interface. *)
Abbreviation NICID := Z (only parsing).
(** [tcpip.NetworkProtocolNumber] and [tcpip.TransportProtocolNumber]. *)
Abbreviation NetworkProtocolNumber := Z (only parsing).
Abbreviation TransportProtocolNumber := Z (only parsing).

(** [tcpip.Error]: the error kinds this file creates itself, and
    [ErrOther] for every other kind a collaborator may hand back.  A Go
    return value of type [tcpip.Error] is an [option Error], [None] for
    nil. *)
Inductive Error : Type :=
| ErrInvalidEndpointState
| ErrInvalidOptionValue
| ErrClosedForSend
| ErrDestinationRequired
| ErrNoRoute
| ErrBroadcastDisabled
| ErrNotConnected
| ErrNotSupported
| ErrBadLocalAddress
| ErrUnknownDevice
| ErrPortInUse
| ErrUnknownProtocolOption
| ErrOther (code : Z).

(** [tcpip.FullAddress]. *)
Record FullAddress : Type := mkFullAddress {
  NIC : NICID;
  Addr : Address;
  Port : Z
}.

(** [stack.TransportEndpointID]. *)
Record TransportEndpointID : Type := mkID {
  LocalPort : Z;
  LocalAddress : Address;
  RemotePort : Z;
  RemoteAddress : Address
}.

(** The zero value [stack.TransportEndpointID{}]. *)
Definition zeroID : TransportEndpointID := mkID 0 "" 0 "".

(** [stack.TransportEndpointInfo]. *)
Record TransportEndpointInfo : Type := mkInfo {
  NetProto : NetworkProtocolNumber;
  TransProto : TransportProtocolNumber;
  ID : TransportEndpointID;
  BindNICID : NICID;
  BindAddr : Address;
  RegisterNICID : NICID
}.

(** What the endpoint reads from its [*tcpip.SocketOptions]. *)
Record SocketOptions : Type := mkOps {
  GetBindToDevice : Z;
  GetV6Only : bool;
  GetBroadcast : bool;
  GetHeaderIncluded : bool;
  GetMulticastLoop : bool
}.

(** [tcpip.PacketOwner]: the uid and gid attributed to a packet. *)
Record PacketOwner : Type := mkOwner { KUID : Z; KGID : Z }.

(** [*stack.PacketBuffer], as far as the endpoint touches it. *)
Record PacketBuffer : Type := mkPkt {
  pktData : string;
  Owner : option PacketOwner
}.

(** [stack.NetworkHeaderParams]. *)
Record NetworkHeaderParams : Type := mkParams {
  Protocol : TransportProtocolNumber;
  TTL : Z;
  TOS : Z
}.

(** [tcpip.WriteOptions]: [To] is [None] for a nil destination. *)
Record WriteOptions : Type := mkWriteOptions {
  To : option FullAddress;
  More : bool
}.

(** What a [*stack.Route] answers to the endpoint: one field per method of
    the route that the endpoint calls. *)
Record RouteInfo : Type := mkRouteInfo {
  riNetProto : NetworkProtocolNumber;
  riLocalAddress : Address;
  riRemoteAddress : Address;
  riDefaultTTL : Z;
  riMaxHeaderLength : Z;
  riRequiresTXTransportChecksum : bool;
  riNICID : NICID;
  riIsOutboundBroadcast : bool
}.

(** A route object: [FindRoute] allocates a new one at every success, so
    the object is told apart from every other by [rid]. *)
Record Route : Type := mkRoute {
  rid : nat;
  rinfo : RouteInfo
}.

Definition Route_NetProto (r : Route) := riNetProto (rinfo r).
Definition Route_LocalAddress (r : Route) := riLocalAddress (rinfo r).
Definition Route_RemoteAddress (r : Route) := riRemoteAddress (rinfo r).
Definition Route_DefaultTTL (r : Route) := riDefaultTTL (rinfo r).
Definition Route_MaxHeaderLength (r : Route) := riMaxHeaderLength (rinfo r).
Definition Route_RequiresTXTransportChecksum (r : Route) :=
  riRequiresTXTransportChecksum (rinfo r).
Definition Route_NICID (r : Route) := riNICID (rinfo r).
Definition Route_IsOutboundBroadcast (r : Route) :=
  riIsOutboundBroadcast (rinfo r).

(** ** The endpoint *)

(** Modelled from the spec: the four values of
    [transport.DatagramEndpointState] (Initial, Bound, Connected, Closed),
    whose declaration is in a package outside this file.  They are numbered
    from 1 in this order; 0 is the state word of an endpoint that was never
    initialised.  The endpoint stores the state in a [uint32]. *)
Definition DatagramEndpointStateInitial : Z := 1.
Definition DatagramEndpointStateBound : Z := 2.
Definition DatagramEndpointStateConnected : Z := 3.
Definition DatagramEndpointStateClosed : Z := 4.

(** [multicastMembership]: the (NIC, group address) pair. *)
Abbreviation multicastMembership := (Z * string)%type (only parsing).

(** [Endpoint].  [route] is [None] for a nil pointer and
    [multicastMemberships] is [None] for a nil map. *)
Record Endpoint : Type := mkEndpoint {
  ops : SocketOptions;
  state : Z;
  writeShutdown : bool;
  info : TransportEndpointInfo;
  effectiveNetProto : NetworkProtocolNumber;
  route : option Route;
  ttl : Z;
  multicastTTL : Z;
  multicastAddr : Address;
  multicastNICID : NICID;
  multicastMemberships : option (gset multicastMembership);
  sendTOS : Z;
  owner : option PacketOwner
}.

(** The zero value [Endpoint{}], before [Init]. *)
Definition zeroEndpoint : Endpoint :=
  mkEndpoint (mkOps 0 false false false false) 0 false
             (mkInfo 0 0 zeroID 0 "" 0) 0 None 0 0 "" 0 None 0 None.

(** Assignments to one field. *)
Definition set_state (v : Z) (e : Endpoint) : Endpoint :=
  mkEndpoint (ops e) v (writeShutdown e) (info e) (effectiveNetProto e)
    (route e) (ttl e) (multicastTTL e) (multicastAddr e) (multicastNICID e)
    (multicastMemberships e) (sendTOS e) (owner e).
Definition set_writeShutdown (v : bool) (e : Endpoint) : Endpoint :=
  mkEndpoint (ops e) (state e) v (info e) (effectiveNetProto e)
    (route e) (ttl e) (multicastTTL e) (multicastAddr e) (multicastNICID e)
    (multicastMemberships e) (sendTOS e) (owner e).
Definition set_info (v : TransportEndpointInfo) (e : Endpoint) : Endpoint :=
  mkEndpoint (ops e) (state e) (writeShutdown e) v (effectiveNetProto e)
    (route e) (ttl e) (multicastTTL e) (multicastAddr e) (multicastNICID e)
    (multicastMemberships e) (sendTOS e) (owner e).
Definition set_effectiveNetProto (v : Z) (e : Endpoint) : Endpoint :=
  mkEndpoint (ops e) (state e) (writeShutdown e) (info e) v
    (route e) (ttl e) (multicastTTL e) (multicastAddr e) (multicastNICID e)
    (multicastMemberships e) (sendTOS e) (owner e).
Definition set_route (v : option Route) (e : Endpoint) : Endpoint :=
  mkEndpoint (ops e) (state e) (writeShutdown e) (info e) (effectiveNetProto e)
    v (ttl e) (multicastTTL e) (multicastAddr e) (multicastNICID e)
    (multicastMemberships e) (sendTOS e) (owner e).
Definition set_ttl (v : Z) (e : Endpoint) : Endpoint :=
  mkEndpoint (ops e) (state e) (writeShutdown e) (info e) (effectiveNetProto e)
    (route e) v (multicastTTL e) (multicastAddr e) (multicastNICID e)
    (multicastMemberships e) (sendTOS e) (owner e).
Definition set_multicastTTL (v : Z) (e : Endpoint) : Endpoint :=
  mkEndpoint (ops e) (state e) (writeShutdown e) (info e) (effectiveNetProto e)
    (route e) (ttl e) v (multicastAddr e) (multicastNICID e)
    (multicastMemberships e) (sendTOS e) (owner e).
Definition set_multicastAddr (v : Address) (e : Endpoint) : Endpoint :=
  mkEndpoint (ops e) (state e) (writeShutdown e) (info e) (effectiveNetProto e)
    (route e) (ttl e) (multicastTTL e) v (multicastNICID e)
    (multicastMemberships e) (sendTOS e) (owner e).
Definition set_multicastNICID (v : NICID) (e : Endpoint) : Endpoint :=
  mkEndpoint (ops e) (state e) (writeShutdown e) (info e) (effectiveNetProto e)
    (route e) (ttl e) (multicastTTL e) (multicastAddr e) v
    (multicastMemberships e) (sendTOS e) (owner e).
Definition set_multicastMemberships (v : option (gset multicastMembership))
    (e : Endpoint) : Endpoint :=
  mkEndpoint (ops e) (state e) (writeShutdown e) (info e) (effectiveNetProto e)
    (route e) (ttl e) (multicastTTL e) (multicastAddr e) (multicastNICID e)
    v (sendTOS e) (owner e).
Definition set_sendTOS (v : Z) (e : Endpoint) : Endpoint :=
  mkEndpoint (ops e) (state e) (writeShutdown e) (info e) (effectiveNetProto e)
    (route e) (ttl e) (multicastTTL e) (multicastAddr e) (multicastNICID e)
    (multicastMemberships e) v (owner e).
Definition set_owner (v : option PacketOwner) (e : Endpoint) : Endpoint :=
  mkEndpoint (ops e) (state e) (writeShutdown e) (info e) (effectiveNetProto e)
    (route e) (ttl e) (multicastTTL e) (multicastAddr e) (multicastNICID e)
    (multicastMemberships e) (sendTOS e) v.

Definition set_ID (v : TransportEndpointID) (i : TransportEndpointInfo) :=
  mkInfo (NetProto i) (TransProto i) v (BindNICID i) (BindAddr i)
    (RegisterNICID i).
Definition set_BindNICID (v : NICID) (i : TransportEndpointInfo) :=
  mkInfo (NetProto i) (TransProto i) (ID i) v (BindAddr i) (RegisterNICID i).
Definition set_BindAddr (v : Address) (i : TransportEndpointInfo) :=
  mkInfo (NetProto i) (TransProto i) (ID i) (BindNICID i) v (RegisterNICID i).
Definition set_RegisterNICID (v : NICID) (i : TransportEndpointInfo) :=
  mkInfo (NetProto i) (TransProto i) (ID i) (BindNICID i) (BindAddr i) v.

(** The Go conversion [uint8(v)] of an [int]: the low eight bits. *)
Definition uint8 (v : Z) : Z := v mod 256.

(** The result of a method that may panic. *)
Inductive Outcome (A : Type) : Type :=
| Done (a : A)
| Panic (msg : string).
Arguments Done {A} a.
Arguments Panic {A} msg.

(** ** Socket options *)

(** [tcpip.SockOptInt]: the options that the endpoint names, and
    [OtherSockOptInt] for every other value of the type. *)
Inductive SockOptInt : Type :=
| MTUDiscoverOption
| MulticastTTLOption
| TTLOption
| IPv4TOSOption
| IPv6TrafficClassOption
| OtherSockOptInt (code : Z).

(** [tcpip.MulticastInterfaceOption]. *)
Record MulticastInterfaceOption : Type := mkMulticastInterfaceOption {
  mioNIC : NICID;
  mioInterfaceAddr : Address
}.

(** [tcpip.MembershipOption], the body of [AddMembershipOption] and
    [RemoveMembershipOption]. *)
Record MembershipOption : Type := mkMembershipOption {
  moNIC : NICID;
  moInterfaceAddr : Address;
  moMulticastAddr : Address
}.

(** [tcpip.SettableSocketOption], by dynamic type: the four types the
    endpoint's type switch names, and [OtherSettableOption] for every
    other implementation of the interface. *)
Inductive SettableSocketOption : Type :=
| SetMulticastInterfaceOption (v : MulticastInterfaceOption)
| AddMembershipOption (v : MembershipOption)
| RemoveMembershipOption (v : MembershipOption)
| SocketDetachFilterOption
| OtherSettableOption (name : string).

(** [tcpip.GettableSocketOption], by dynamic type. *)
Inductive GettableSocketOption : Type :=
| GetMulticastInterfaceOption (v : MulticastInterfaceOption)
| OtherGettableOption (name : string).

(** ** The collaborators *)

(** One call of the endpoint into the stack or into a route.  The trace of
    a [World] lists them, the most recent first. *)
Inductive Event : Type :=
| EvFindRoute (nic : Z) (localAddr remoteAddr : string) (netProto : Z)
    (multicastLoop : bool) (res : Route + Error)
| EvAcquire (r : Route)
| EvRelease (r : Route)
| EvJoinGroup (netProto : Z) (nic : Z) (addr : string)
| EvLeaveGroup (netProto : Z) (nic : Z) (addr : string)
| EvWritePacket (r : Route) (params : NetworkHeaderParams) (pkt : PacketBuffer)
| EvWriteHeaderIncludedPacket (r : Route) (pkt : PacketBuffer).

(** The references held on the route object [n] after the calls of [tr]:
    one from the successful [FindRoute] that made it, one more for each [Acquire], one
    less for each [Release]. *)
Fixpoint refs (n : nat) (tr : list Event) : Z :=
  match tr with
  | [] => 0
  | EvFindRoute _ _ _ _ _ (inl r) :: tr' =>
      (if bool_decide (rid r = n) then 1 else 0) + refs n tr'
  | EvAcquire r :: tr' => (if bool_decide (rid r = n) then 1 else 0) + refs n tr'
  | EvRelease r :: tr' => refs n tr' - (if bool_decide (rid r = n) then 1 else 0)
  | _ :: tr' => refs n tr'
  end.

(** How many times [Release] was called on the route object [n]. *)
Definition is_release (n : nat) (ev : Event) : bool :=
  match ev with
  | EvRelease r => bool_decide (rid r = n)
  | _ => false
  end.
Definition releases (n : nat) (tr : list Event) : nat :=
  length (List.filter (is_release n) tr).

(** How many times the stack was asked to leave, or to join, the group
    [addr] on [nic]. *)
Definition is_leave (nic : Z) (addr : string) (ev : Event) : bool :=
  match ev with
  | EvLeaveGroup _ nic' addr' => bool_decide (nic' = nic) && bool_decide (addr' = addr)
  | _ => false
  end.
Definition is_join (nic : Z) (addr : string) (ev : Event) : bool :=
  match ev with
  | EvJoinGroup _ nic' addr' => bool_decide (nic' = nic) && bool_decide (addr' = addr)
  | _ => false
  end.
Definition leaves (nic : Z) (addr : string) (tr : list Event) : nat :=
  length (List.filter (is_leave nic addr) tr).
Definition joins (nic : Z) (addr : string) (tr : list Event) : nat :=
  length (List.filter (is_join nic addr) tr).

(** ** A small stack

    One interface, number 1, that owns the address [10.0.0.1]; every
    destination is reachable through it; groups can always be joined and
    left; packets are always accepted.  The addresses are the raw bytes the
    Go code compares. *)
Module Sample.

Definition ip4 (a b c d : nat) : string :=
  String (Ascii.ascii_of_nat a) (String (Ascii.ascii_of_nat b)
    (String (Ascii.ascii_of_nat c) (String (Ascii.ascii_of_nat d) EmptyString))).

Definition local1 : string := ip4 10 0 0 1.
Definition peer1 : string := ip4 10 0 0 2.
Definition peer2 : string := ip4 10 0 0 3.
Definition group1 : string := ip4 224 0 0 1.
Definition broadcast : string := ip4 255 255 255 255.

Definition IPv4 : Z := 2048.
Definition IPv6 : Z := 34525.

(** [header.IsV4MulticastAddress]: four bytes, the first in 224..239. *)
Definition isV4Multicast (a : string) : bool :=
  match a with
  | String c (String _ (String _ (String _ EmptyString))) =>
      (224 <=? Z.of_nat (Ascii.nat_of_ascii c)) && (Z.of_nat (Ascii.nat_of_ascii c) <=? 239)
  | _ => false
  end.

(** [header.IsV6MulticastAddress]: sixteen bytes, the first 255. *)
Definition isV6Multicast (a : string) : bool :=
  match a with
  | String c rest =>
      bool_decide (String.length rest = 15%nat)
      && bool_decide (Ascii.nat_of_ascii c = 255%nat)
  | _ => false
  end.

(** [Address.Unspecified]: every byte is zero. *)
Fixpoint unspecified (a : string) : bool :=
  match a with
  | EmptyString => true
  | String c rest => bool_decide (Ascii.nat_of_ascii c = 0%nat) && unspecified rest
  end.

Definition findRoute (_ : unit) (nic : Z) (localAddr remoteAddr : string)
    (netProto : Z) (_ : bool) : RouteInfo + Error :=
  if bool_decide (remoteAddr = "") then inr ErrNoRoute
  else inl (mkRouteInfo netProto
              (if bool_decide (localAddr = "") then local1 else localAddr)
              remoteAddr 64 20 true (if bool_decide (nic = 0) then 1 else nic)
              (bool_decide (remoteAddr = broadcast))).

Definition checkLocalAddress (_ : unit) (nic netProto : Z) (a : string) : Z :=
  if bool_decide (a = local1) then 1 else 0.

Definition checkNIC (_ : unit) (nic : Z) : bool := bool_decide (nic = 1).

Definition isSubnetBroadcast (_ : unit) (nic netProto : Z) (a : string) : bool :=
  false.

Definition joinGroup (_ : unit) (netProto nic : Z) (a : string)
    : option Error * unit := (None, tt).

Definition leaveGroup (_ : unit) (netProto nic : Z) (a : string)
    : option Error * unit := (None, tt).

Definition writePacket (_ : unit) (r : Route) (p : NetworkHeaderParams)
    (pkt : PacketBuffer) : option Error * unit := (None, tt).

Definition writeHeaderIncludedPacket (_ : unit) (r : Route)
    (pkt : PacketBuffer) : option Error * unit := (None, tt).

(** [AddrNetProtoLocked] on a stack with IPv4 only: the address as it is. *)
Definition addrNetProto (i : TransportEndpointInfo) (a : FullAddress)
    (v6only : bool) : FullAddress * Z + Error :=
  inl (a, NetProto i).

Definition ops0 : SocketOptions := mkOps 0 false false false true.

(** A packet builder that always succeeds, and hooks that always fail. *)
Definition pktf (netProto : Z) (src dst : string) (maxHeaderLength : Z)
    (requiresTXChecksum : bool) : PacketBuffer + Error :=
  inl (mkPkt "payload" None).

Definition failingHook (netProto : Z) (previousID nextID : TransportEndpointID)
    : option Error := Some ErrNoRoute.

End Sample.

(** The network stack and the helpers of packages [header] and [tcpip],
    as the endpoint uses them.  [Stack] is the state of the stack.
    [FindRoute] answers with the description of the route it found; the
    route object itself is made by [stack_FindRoute] below. *)
Class Collaborators : Type := {
  Stack : Type;
  FindRoute : Stack → Z → string → string → Z → bool → RouteInfo + Error;
  CheckLocalAddress : Stack → Z → Z → string → Z;
  CheckNIC : Stack → Z → bool;
  IsSubnetBroadcast : Stack → Z → Z → string → bool;
  JoinGroup : Stack → Z → Z → string → option Error * Stack;
  LeaveGroup : Stack → Z → Z → string → option Error * Stack;
  WritePacket :
    Stack → Route → NetworkHeaderParams → PacketBuffer → option Error * Stack;
  WriteHeaderIncludedPacket :
    Stack → Route → PacketBuffer → option Error * Stack;
  (* package header *)
  IPv4ProtocolNumber : Z;
  IPv6ProtocolNumber : Z;
  IPv4Broadcast : string;
  IsV4MulticastAddress : string → bool;
  IsV6MulticastAddress : string → bool;
  (* package tcpip *)
  Unspecified : string → bool;
  PMTUDiscoveryDont : Z;
  (* TransportEndpointInfo.AddrNetProtoLocked *)
  AddrNetProtoLocked :
    TransportEndpointInfo → FullAddress → bool → FullAddress * Z + Error
}.

Section Network.

Context {net : Collaborators}.

(** The world outside the endpoint: the stack, the number of route objects
    made so far, and the calls made so far. *)
Record World : Type := mkWorld {
  stk : Stack;
  nextRoute : nat;
  trace : list Event
}.

Definition emit (ev : Event) (w : World) : World :=
  mkWorld (stk w) (nextRoute w) (ev :: trace w).

Definition stack_FindRoute (nic : Z) (localAddr remoteAddr : string)
    (netProto : Z) (multicastLoop : bool) (w : World) : (Route + Error) * World :=
  match FindRoute (stk w) nic localAddr remoteAddr netProto multicastLoop with
  | inl ri =>
      let r := mkRoute (nextRoute w) ri in
      (inl r,
       mkWorld (stk w) (S (nextRoute w))
         (EvFindRoute nic localAddr remoteAddr netProto multicastLoop (inl r)
            :: trace w))
  | inr er =>
      (inr er,
       emit (EvFindRoute nic localAddr remoteAddr netProto multicastLoop (inr er)) w)
  end.

Definition Route_Acquire (r : Route) (w : World) : World := emit (EvAcquire r) w.
Definition Route_Release (r : Route) (w : World) : World := emit (EvRelease r) w.

Definition stack_JoinGroup (netProto nic : Z) (addr : string) (w : World)
    : option Error * World :=
  let '(res, s) := JoinGroup (stk w) netProto nic addr in
  (res, mkWorld s (nextRoute w) (EvJoinGroup netProto nic addr :: trace w)).

Definition stack_LeaveGroup (netProto nic : Z) (addr : string) (w : World)
    : option Error * World :=
  let '(res, s) := LeaveGroup (stk w) netProto nic addr in
  (res, mkWorld s (nextRoute w) (EvLeaveGroup netProto nic addr :: trace w)).

Definition Route_WritePacket (r : Route) (params : NetworkHeaderParams)
    (pkt : PacketBuffer) (w : World) : option Error * World :=
  let '(res, s) := WritePacket (stk w) r params pkt in
  (res, mkWorld s (nextRoute w) (EvWritePacket r params pkt :: trace w)).

Definition Route_WriteHeaderIncludedPacket (r : Route) (pkt : PacketBuffer)
    (w : World) : option Error * World :=
  let '(res, s) := WriteHeaderIncludedPacket (stk w) r pkt in
  (res, mkWorld s (nextRoute w) (EvWriteHeaderIncludedPacket r pkt :: trace w)).

(** ** The methods of [Endpoint] *)

Definition Init (ops0 : SocketOptions) (netProto transProto : Z)
    (e : Endpoint) : Outcome Endpoint :=
  match multicastMemberships e with
  | Some _ => Panic "endpoint is already initialized"
  | None =>
      if bool_decide (netProto ≠ IPv4ProtocolNumber)
         && bool_decide (netProto ≠ IPv6ProtocolNumber)
      then Panic "invalid protocols"
      else Done (mkEndpoint ops0 DatagramEndpointStateInitial false
                   (mkInfo netProto transProto zeroID 0 "" 0)
                   netProto None 0 1 "" 0 (Some ∅) 0 None)
  end.

Definition setEndpointState (s : Z) (e : Endpoint) : Endpoint := set_state s e.

Definition State (e : Endpoint) : Z := state e.

(** The keys of the membership map, in the order in which [Close] ranges
    over them.  Go leaves that order open; the model takes the order of
    [elements]. *)
Definition members (e : Endpoint) : list multicastMembership :=
  match multicastMemberships e with
  | Some m => elements m
  | None => []
  end.

(** The loop of [Close]: one [LeaveGroup] for each member, its result
    dropped. *)
Definition leaveAll (netProto : Z) (l : list multicastMembership) (w : World)
    : World :=
  foldl (λ w mem, (stack_LeaveGroup netProto mem.1 mem.2 w).2) w l.

Definition Close (e : Endpoint) (w : World) : Endpoint * World :=
  if bool_decide (State e = DatagramEndpointStateClosed) then (e, w)
  else
    let w := leaveAll (NetProto (info e)) (members e) w in
    let e := set_multicastMemberships (Some ∅) e in
    let '(e, w) :=
      match route e with
      | Some r => (set_route None e, Route_Release r w)
      | None => (e, w)
      end in
    (setEndpointState DatagramEndpointStateClosed e, w).

Definition SetOwner (o : option PacketOwner) (e : Endpoint) : Endpoint :=
  set_owner o e.

Definition Disconnect (e : Endpoint) (w : World) : Outcome (Endpoint * World) :=
  if bool_decide (State e ≠ DatagramEndpointStateConnected) then Done (e, w)
  else
    let e :=
      if bool_decide (BindNICID (info e) ≠ 0)
         || bool_decide (LocalAddress (ID (info e)) = "")
      then
        setEndpointState DatagramEndpointStateBound
          (set_info (set_ID (mkID 0 (LocalAddress (ID (info e))) 0 "") (info e)) e)
      else
        setEndpointState DatagramEndpointStateInitial
          (set_info (set_ID zeroID (info e)) e) in
    match route e with
    | None => Panic "nil pointer dereference"
    | Some r => Done (set_route None e, Route_Release r w)
    end.

Definition isBroadcastOrMulticast (w : World) (nicID netProto : Z)
    (addr : string) : bool :=
  bool_decide (addr = IPv4Broadcast)
  || IsV4MulticastAddress addr
  || IsV6MulticastAddress addr
  || IsSubnetBroadcast (stk w) nicID netProto addr.

Definition connectRoute (e : Endpoint) (nicID : Z) (addr : FullAddress)
    (netProto : Z) (w : World) : (Route * Z + Error) * World :=
  let localAddr := LocalAddress (ID (info e)) in
  let localAddr :=
    if isBroadcastOrMulticast w nicID netProto localAddr then "" else localAddr in
  let multicast :=
    IsV4MulticastAddress (Addr addr) || IsV6MulticastAddress (Addr addr) in
  let nicID :=
    if multicast && bool_decide (nicID = 0) then multicastNICID e else nicID in
  let localAddr :=
    if multicast && bool_decide (localAddr = "") && bool_decide (nicID = 0)
    then multicastAddr e else localAddr in
  match stack_FindRoute nicID localAddr (Addr addr) netProto
          (GetMulticastLoop (ops e)) w with
  | (inr er, w) => (inr er, w)
  | (inl r, w) => (inl (r, nicID), w)
  end.

Definition checkV4MappedLocked (e : Endpoint) (addr : FullAddress)
    : FullAddress * Z + Error :=
  match AddrNetProtoLocked (info e) addr (GetV6Only (ops e)) with
  | inr er => inr er
  | inl (unwrapped, netProto) => inl (unwrapped, netProto)
  end.

(** The hook of [ConnectAndThen]: network protocol, previous and next
    identity. *)
Abbreviation ConnectHook :=
  (Z → TransportEndpointID → TransportEndpointID → option Error) (only parsing).

Definition ConnectAndThen (addr : FullAddress) (f : ConnectHook)
    (e : Endpoint) (w : World) : option Error * Endpoint * World :=
  let addr := mkFullAddress (NIC addr) (Addr addr) 0 in
  let nicID := NIC addr in
  let checked : Z + Error :=
    if bool_decide (State e = DatagramEndpointStateInitial) then inl nicID
    else if bool_decide (State e = DatagramEndpointStateBound)
            || bool_decide (State e = DatagramEndpointStateConnected) then
      if bool_decide (BindNICID (info e) = 0) then inl nicID
      else if bool_decide (nicID ≠ 0) && bool_decide (nicID ≠ BindNICID (info e))
      then inr ErrInvalidEndpointState
      else inl (BindNICID (info e))
    else inr ErrInvalidEndpointState in
  match checked with
  | inr er => (Some er, e, w)
  | inl nicID =>
    match checkV4MappedLocked e addr with
    | inr er => (Some er, e, w)
    | inl (addr, netProto) =>
      match connectRoute e nicID addr netProto w with
      | (inr er, w) => (Some er, e, w)
      | (inl (r, nicID), w) =>
        let id :=
          mkID 0
            (if bool_decide (State e = DatagramEndpointStateInitial)
             then Route_LocalAddress r else LocalAddress (ID (info e)))
            0 (Route_RemoteAddress r) in
        match f (Route_NetProto r) (ID (info e)) id with
        | Some er => (Some er, e, w)
        | None =>
          let w := match route e with
                   | Some old => Route_Release old w
                   | None => w
                   end in
          let e := set_route (Some r) e in
          let e := set_info (set_ID id (info e)) e in
          let e := set_info (set_RegisterNICID nicID (info e)) e in
          let e := set_effectiveNetProto netProto e in
          (None, setEndpointState DatagramEndpointStateConnected e, w)
        end
      end
    end
  end.

Definition Connect (addr : FullAddress) (e : Endpoint) (w : World)
    : option Error * Endpoint * World :=
  ConnectAndThen addr (λ _ _ _, None) e w.

Definition Shutdown (e : Endpoint) : Outcome (option Error * Endpoint) :=
  let state := State e in
  if bool_decide (state = DatagramEndpointStateInitial)
     || bool_decide (state = DatagramEndpointStateClosed)
  then Done (Some ErrNotConnected, e)
  else if bool_decide (state = DatagramEndpointStateBound)
          || bool_decide (state = DatagramEndpointStateConnected)
  then Done (None, set_writeShutdown true e)
  else Panic "unhandled state".

(** The hook of [BindAndThen]: network protocol and bound address. *)
Abbreviation BindHook := (Z → string → option Error) (only parsing).

Definition BindAndThen (addr : FullAddress) (f : BindHook)
    (e : Endpoint) (w : World) : option Error * Endpoint :=
  let addr := mkFullAddress (NIC addr) (Addr addr) 0 in
  if bool_decide (State e ≠ DatagramEndpointStateInitial)
  then (Some ErrInvalidEndpointState, e)
  else
    match checkV4MappedLocked e addr with
    | inr er => (Some er, e)
    | inl (addr, netProto) =>
      let nicID := NIC addr in
      let checked : Z + Error :=
        if bool_decide (Addr addr ≠ "")
           && negb (isBroadcastOrMulticast w (NIC addr) netProto (Addr addr))
        then
          let nicID := CheckLocalAddress (stk w) nicID netProto (Addr addr) in
          if bool_decide (nicID = 0) then inr ErrBadLocalAddress else inl nicID
        else inl nicID in
      match checked with
      | inr er => (Some er, e)
      | inl nicID =>
        match f netProto (Addr addr) with
        | Some er => (Some er, e)
        | None =>
          let e := set_info (set_ID (mkID 0 (Addr addr) 0 "") (info e)) e in
          let e := set_info (set_BindNICID nicID (info e)) e in
          let e := set_info (set_RegisterNICID nicID (info e)) e in
          let e := set_info (set_BindAddr (Addr addr) (info e)) e in
          let e := set_effectiveNetProto netProto e in
          (None, setEndpointState DatagramEndpointStateBound e)
        end
      end
    end.

Definition Bind (addr : FullAddress) (e : Endpoint) (w : World)
    : option Error * Endpoint :=
  BindAndThen addr (λ _ _, None) e w.

(** The packet builder handed to [Write]. *)
Abbreviation PacketBuilder :=
  (Z → string → string → Z → bool → PacketBuffer + Error) (only parsing).

(** What the first part of [Write] hands to the second: route, owner, TTL
    and TOS. *)
Abbreviation WriteContext :=
  (Route * option PacketOwner * Z * Z)%type (only parsing).

(** The function literal at the head of [Write], run under the read lock. *)
Definition Write_locked (opts : WriteOptions) (e : Endpoint) (w : World)
    : Outcome ((WriteContext + Error) * World) :=
  if bool_decide (State e = DatagramEndpointStateClosed)
  then Done (inr ErrInvalidEndpointState, w)
  else if writeShutdown e then Done (inr ErrClosedForSend, w)
  else
    match To opts with
    | None =>
      if bool_decide (State e ≠ DatagramEndpointStateConnected)
      then Done (inr ErrDestinationRequired, w)
      else
        match route e with
        | None => Panic "nil pointer dereference"
        | Some r =>
          let w := Route_Acquire r w in
          let ttl0 := ttl e in
          let ttl0 :=
            if IsV4MulticastAddress (Route_RemoteAddress r)
               || IsV6MulticastAddress (Route_RemoteAddress r)
            then multicastTTL e
            else if bool_decide (ttl0 = 0) then Route_DefaultTTL r
            else ttl0 in
          Done (inl (r, owner e, ttl0, sendTOS e), w)
        end
    | Some to =>
      let nicID := NIC to in
      let nicID :=
        if bool_decide (nicID = 0) then GetBindToDevice (ops e) else nicID in
      let checked : Z + Error :=
        if bool_decide (BindNICID (info e) ≠ 0) then
          if bool_decide (nicID ≠ 0) && bool_decide (nicID ≠ BindNICID (info e))
          then inr ErrNoRoute
          else inl (BindNICID (info e))
        else inl nicID in
      match checked with
      | inr er => Done (inr er, w)
      | inl nicID =>
        match checkV4MappedLocked e to with
        | inr er => Done (inr er, w)
        | inl (dst, netProto) =>
          match connectRoute e nicID dst netProto w with
          | (inr er, w) => Done (inr er, w)
          | (inl (r, _), w) =>
            let ttl0 := ttl e in
            let ttl0 :=
              if IsV4MulticastAddress (Route_RemoteAddress r)
                 || IsV6MulticastAddress (Route_RemoteAddress r)
              then multicastTTL e
              else if bool_decide (ttl0 = 0) then Route_DefaultTTL r
              else ttl0 in
            Done (inl (r, owner e, ttl0, sendTOS e), w)
          end
        end
      end
    end.

Definition Write (pktf : PacketBuilder) (opts : WriteOptions)
    (e : Endpoint) (w : World) : Outcome (Z * option Error * World) :=
  if More opts then Done (0, Some ErrInvalidOptionValue, w)
  else
    match Write_locked opts e w with
    | Panic msg => Panic msg
    | Done (inr er, w) => Done (0, Some er, w)
    | Done (inl (r, own, ttl0, tos), w) =>
      (* every return below runs the deferred [route.Release()] last *)
      if negb (GetBroadcast (ops e)) && Route_IsOutboundBroadcast r
      then Done (0, Some ErrBroadcastDisabled, Route_Release r w)
      else
        match pktf (Route_NetProto r) (Route_LocalAddress r)
                (Route_RemoteAddress r) (Route_MaxHeaderLength r)
                (Route_RequiresTXTransportChecksum r) with
        | inr er => Done (0, Some er, Route_Release r w)
        | inl pkt =>
          if GetHeaderIncluded (ops e) then
            let '(res, w) := Route_WriteHeaderIncludedPacket r pkt w in
            Done (0, res, Route_Release r w)
          else
            let pkt := mkPkt (pktData pkt) own in
            let '(res, w) :=
              Route_WritePacket r
                (mkParams (TransProto (info e)) ttl0 tos) pkt w in
            Done (0, res, Route_Release r w)
        end
    end.

Definition GetLocalAddress (e : Endpoint) : Outcome FullAddress :=
  if bool_decide (State e = DatagramEndpointStateConnected) then
    match route e with
    | None => Panic "nil pointer dereference"
    | Some r => Done (mkFullAddress (RegisterNICID (info e)) (Route_LocalAddress r) 0)
    end
  else Done (mkFullAddress (RegisterNICID (info e)) (BindAddr (info e)) 0).

Definition GetRemoteAddress (e : Endpoint) : Outcome (FullAddress * bool) :=
  if bool_decide (State e ≠ DatagramEndpointStateConnected)
  then Done (mkFullAddress 0 "" 0, false)
  else
    match route e with
    | None => Panic "nil pointer dereference"
    | Some r =>
        Done (mkFullAddress (RegisterNICID (info e)) (Route_RemoteAddress r) 0, true)
    end.

Definition Info (e : Endpoint) : TransportEndpointInfo := info e.

Definition SetSockOptInt (opt : SockOptInt) (v : Z) (e : Endpoint)
    : option Error * Endpoint :=
  match opt with
  | MTUDiscoverOption =>
      if bool_decide (v ≠ PMTUDiscoveryDont) then (Some ErrNotSupported, e)
      else (None, e)
  | MulticastTTLOption => (None, set_multicastTTL (uint8 v) e)
  | TTLOption => (None, set_ttl (uint8 v) e)
  | IPv4TOSOption => (None, set_sendTOS (uint8 v) e)
  | IPv6TrafficClassOption => (None, set_sendTOS (uint8 v) e)
  | OtherSockOptInt _ => (None, e)
  end.

Definition GetSockOptInt (opt : SockOptInt) (e : Endpoint) : Z * option Error :=
  match opt with
  | MTUDiscoverOption => (PMTUDiscoveryDont, None)
  | MulticastTTLOption => (multicastTTL e, None)
  | TTLOption => (ttl e, None)
  | IPv4TOSOption => (sendTOS e, None)
  | IPv6TrafficClassOption => (sendTOS e, None)
  | OtherSockOptInt _ => (-1, Some ErrUnknownProtocolOption)
  end.

(** The lookup [_, ok := e.multicastMemberships[mem]]; a nil map has no
    entry. *)
Definition isMember (mem : multicastMembership) (e : Endpoint) : bool :=
  match multicastMemberships e with
  | Some m => bool_decide (mem ∈ m)
  | None => false
  end.

(** The interface on which a group is joined or left: the lines that the
    [AddMembershipOption] and [RemoveMembershipOption] cases share, from
    [nicID := v.NIC] to the test [nicID == 0]. *)
Definition membershipNIC (v : MembershipOption) (e : Endpoint) (w : World)
    : Z * World :=
  let nicID := moNIC v in
  if Unspecified (moInterfaceAddr v) then
    if bool_decide (nicID = 0) then
      match stack_FindRoute 0 "" (moMulticastAddr v) (NetProto (info e)) false w with
      | (inl r, w) => (Route_NICID r, Route_Release r w)
      | (inr _, w) => (nicID, w)
      end
    else (nicID, w)
  else
    (CheckLocalAddress (stk w) nicID (NetProto (info e)) (moInterfaceAddr v), w).

Definition SetSockOpt (opt : SettableSocketOption) (e : Endpoint) (w : World)
    : Outcome (option Error * Endpoint * World) :=
  match opt with
  | SetMulticastInterfaceOption v =>
    let fa := mkFullAddress 0 (mioInterfaceAddr v) 0 in
    match checkV4MappedLocked e fa with
    | inr er => Done (Some er, e, w)
    | inl (fa, netProto) =>
      let nic := mioNIC v in
      let addr := Addr fa in
      if bool_decide (nic = 0) && bool_decide (addr = "") then
        Done (None, set_multicastNICID 0 (set_multicastAddr "" e), w)
      else
        let checked : Z + Error :=
          if bool_decide (nic ≠ 0) then
            if negb (CheckNIC (stk w) nic) then inr ErrBadLocalAddress else inl nic
          else
            let nic := CheckLocalAddress (stk w) 0 netProto addr in
            if bool_decide (nic = 0) then inr ErrBadLocalAddress else inl nic in
        match checked with
        | inr er => Done (Some er, e, w)
        | inl nic =>
          if bool_decide (BindNICID (info e) ≠ 0)
             && bool_decide (BindNICID (info e) ≠ nic)
          then Done (Some ErrInvalidEndpointState, e, w)
          else Done (None, set_multicastAddr addr (set_multicastNICID nic e), w)
        end
    end
  | AddMembershipOption v =>
    if negb (IsV4MulticastAddress (moMulticastAddr v))
       && negb (IsV6MulticastAddress (moMulticastAddr v))
    then Done (Some ErrInvalidOptionValue, e, w)
    else
      let '(nicID, w) := membershipNIC v e w in
      if bool_decide (nicID = 0) then Done (Some ErrUnknownDevice, e, w)
      else
        let memToInsert := (nicID, moMulticastAddr v) in
        if isMember memToInsert e
        then Done (Some ErrPortInUse, e, w)
        else
          match stack_JoinGroup (NetProto (info e)) nicID (moMulticastAddr v) w with
          | (Some er, w) => Done (Some er, e, w)
          | (None, w) =>
            match multicastMemberships e with
            | None => Panic "assignment to entry in nil map"
            | Some m =>
                Done (None, set_multicastMemberships (Some ({[memToInsert]} ∪ m)) e, w)
            end
          end
  | RemoveMembershipOption v =>
    if negb (IsV4MulticastAddress (moMulticastAddr v))
       && negb (IsV6MulticastAddress (moMulticastAddr v))
    then Done (Some ErrInvalidOptionValue, e, w)
    else
      let '(nicID, w) := membershipNIC v e w in
      if bool_decide (nicID = 0) then Done (Some ErrUnknownDevice, e, w)
      else
        let memToRemove := (nicID, moMulticastAddr v) in
        if negb (isMember memToRemove e)
        then Done (Some ErrBadLocalAddress, e, w)
        else
          match stack_LeaveGroup (NetProto (info e)) nicID (moMulticastAddr v) w with
          | (Some er, w) => Done (Some er, e, w)
          | (None, w) =>
            Done (None,
                  set_multicastMemberships
                    (match multicastMemberships e with
                     | Some m => Some (m ∖ {[memToRemove]})
                     | None => None
                     end) e,
                  w)
          end
  | SocketDetachFilterOption => Done (None, e, w)
  | OtherSettableOption _ => Done (None, e, w)
  end.

(** [GetSockOpt] writes through the pointer it is given: the first
    component is the option value after the call. *)
Definition GetSockOpt (opt : GettableSocketOption) (e : Endpoint)
    : GettableSocketOption * option Error :=
  match opt with
  | GetMulticastInterfaceOption _ =>
      (GetMulticastInterfaceOption
         (mkMulticastInterfaceOption (multicastNICID e) (multicastAddr e)),
       None)
  | OtherGettableOption _ => (opt, Some ErrUnknownProtocolOption)
  end.

(** ** Sequences of calls *)

(** One call of a public method. *)
Inductive Op : Type :=
| OpInit (ops0 : SocketOptions) (netProto transProto : Z)
| OpBindAndThen (addr : FullAddress) (f : Z → string → option Error)
| OpBind (addr : FullAddress)
| OpConnectAndThen (addr : FullAddress)
    (f : Z → TransportEndpointID → TransportEndpointID → option Error)
| OpConnect (addr : FullAddress)
| OpDisconnect
| OpShutdown
| OpWrite (pktf : Z → string → string → Z → bool → PacketBuffer + Error)
    (opts : WriteOptions)
| OpClose
| OpSetOwner (o : option PacketOwner)
| OpSetSockOptInt (opt : SockOptInt) (v : Z)
| OpGetSockOptInt (opt : SockOptInt)
| OpSetSockOpt (opt : SettableSocketOption)
| OpGetSockOpt (opt : GettableSocketOption)
| OpGetLocalAddress
| OpGetRemoteAddress
| OpInfo.

(** The endpoint and the world after one call; [Panic] when the call
    panics. *)
Definition step (o : Op) (e : Endpoint) (w : World) : Outcome (Endpoint * World) :=
  match o with
  | OpInit ops0 netProto transProto =>
      match Init ops0 netProto transProto e with
      | Done e' => Done (e', w)
      | Panic msg => Panic msg
      end
  | OpBindAndThen addr f => Done ((BindAndThen addr f e w).2, w)
  | OpBind addr => Done ((Bind addr e w).2, w)
  | OpConnectAndThen addr f =>
      let '(_, e', w') := ConnectAndThen addr f e w in Done (e', w')
  | OpConnect addr => let '(_, e', w') := Connect addr e w in Done (e', w')
  | OpDisconnect => Disconnect e w
  | OpShutdown =>
      match Shutdown e with
      | Done (_, e') => Done (e', w)
      | Panic msg => Panic msg
      end
  | OpWrite pktf opts =>
      match Write pktf opts e w with
      | Done (_, _, w') => Done (e, w')
      | Panic msg => Panic msg
      end
  | OpClose => Done (Close e w)
  | OpSetOwner o => Done (SetOwner o e, w)
  | OpSetSockOptInt opt v => Done ((SetSockOptInt opt v e).2, w)
  | OpGetSockOptInt _ => Done (e, w)
  | OpSetSockOpt opt =>
      match SetSockOpt opt e w with
      | Done (_, e', w') => Done (e', w')
      | Panic msg => Panic msg
      end
  | OpGetSockOpt _ => Done (e, w)
  | OpGetLocalAddress =>
      match GetLocalAddress e with
      | Done _ => Done (e, w)
      | Panic msg => Panic msg
      end
  | OpGetRemoteAddress =>
      match GetRemoteAddress e with
      | Done _ => Done (e, w)
      | Panic msg => Panic msg
      end
  | OpInfo => Done (e, w)
  end.

(** The calls of [l] in order, from [(e, w)]; a panic ends the run. *)
Fixpoint run (l : list Op) (e : Endpoint) (w : World) : Outcome (Endpoint * World) :=
  match l with
  | [] => Done (e, w)
  | o :: l' =>
      match step o e w with
      | Done (e', w') => run l' e' w'
      | Panic msg => Panic msg
      end
  end.

(** [reachable e w]: the endpoint and world after [Init] on a zero
    endpoint and then any sequence of calls, none of which panicked. *)
Inductive reachable : Endpoint → World → Prop :=
| reachable_Init ops0 netProto transProto e w :
    Init ops0 netProto transProto zeroEndpoint = Done e →
    reachable e w
| reachable_step o e w e' w' :
    reachable e w → step o e w = Done (e', w') → reachable e' w'.

(** ** Invariants *)

(** The state word holds one of the four named states. *)
Definition state_ok (e : Endpoint) : Prop :=
  State e = DatagramEndpointStateInitial
  ∨ State e = DatagramEndpointStateBound
  ∨ State e = DatagramEndpointStateConnected
  ∨ State e = DatagramEndpointStateClosed.

(** The endpoint holds a route exactly when it is connected. *)
Definition route_iff_connected (e : Endpoint) : Prop :=
  route e ≠ None ↔ State e = DatagramEndpointStateConnected.

Definition inv (e : Endpoint) : Prop :=
  state_ok e ∧ route_iff_connected e ∧ multicastMemberships e ≠ None.

(** No call of [l] is [Init]. *)
Definition no_Init (l : list Op) : Prop :=
  Forall (λ o, match o with OpInit _ _ _ => False | _ => True end) l.

(** The four integer options stored in a [uint8] field. *)
Definition byteOptions : list SockOptInt :=
  [TTLOption; MulticastTTLOption; IPv4TOSOption; IPv6TrafficClassOption].

(** An integer option that [SetSockOptInt] and [GetSockOptInt] do not
    name, and likewise for the two other accessors. *)
Definition unknownSockOptInt (opt : SockOptInt) : Prop :=
  match opt with OtherSockOptInt _ => True | _ => False end.
Definition unknownSettable (opt : SettableSocketOption) : Prop :=
  match opt with OtherSettableOption _ => True | _ => False end.
Definition unknownGettable (opt : GettableSocketOption) : Prop :=
  match opt with OtherGettableOption _ => True | _ => False end.

(** The condition under which [Disconnect] keeps the endpoint bound, as
    the specification words it (a NIC pinning or a non-empty local address)
    and as the code tests it (a NIC pinning or an empty local address). *)
Definition keepsBinding_stated (e : Endpoint) : Prop :=
  BindNICID (info e) ≠ 0 ∨ LocalAddress (ID (info e)) ≠ "".
Definition keepsBinding (e : Endpoint) : Prop :=
  BindNICID (info e) ≠ 0 ∨ LocalAddress (ID (info e)) = "".

(** What is claimed of [Disconnect], for a given reading [keeps] of that
    condition. *)
Definition Disconnect_claim (keeps : Endpoint → Prop) (e : Endpoint)
    (w : World) : Prop :=
  (State e ≠ DatagramEndpointStateConnected → Disconnect e w = Done (e, w))
  ∧ (State e = DatagramEndpointStateConnected →
     ∀ r, route e = Some r →
     ∃ e', Disconnect e w = Done (e', Route_Release r w)
       ∧ route e' = None
       ∧ (keeps e →
          State e' = DatagramEndpointStateBound
          ∧ ID (info e') = mkID 0 (LocalAddress (ID (info e))) 0 "")
       ∧ (¬ keeps e →
          State e' = DatagramEndpointStateInitial
          ∧ ID (info e') = zeroID)).

(** The endpoint is bound or connected and pinned to an interface. *)
Definition pinned (e : Endpoint) : Prop :=
  (State e = DatagramEndpointStateBound
   ∨ State e = DatagramEndpointStateConnected)
  ∧ BindNICID (info e) ≠ 0.

Definition is_FindRoute (ev : Event) : bool :=
  match ev with
  | EvFindRoute _ _ _ _ _ _ => true
  | _ => false
  end.

(** The TTL of an outgoing packet in the specification's words: the
    multicast TTL for a multicast remote address, else the configured TTL
    when it is not zero, else the default TTL of the route. *)
Definition selectTTL (e : Endpoint) (r : Route) : Z :=
  if IsV4MulticastAddress (Route_RemoteAddress r)
     || IsV6MulticastAddress (Route_RemoteAddress r)
  then multicastTTL e
  else if bool_decide (ttl e ≠ 0) then ttl e
  else Route_DefaultTTL r.

(** What is true of every packet that one [Write] hands to
    [Route.WritePacket]: its TTL follows [selectTTL], and its route is the
    held route when no destination was given and a route found by this
    call otherwise. *)
Definition sent_with_selected_TTL (opts : WriteOptions) (e : Endpoint)
    (evs : list Event) (ev : Event) : Prop :=
  match ev with
  | EvWritePacket r params _ =>
      TTL params = selectTTL e r
      ∧ match To opts with
        | None => route e = Some r
        | Some _ =>
            ∃ nic la ra p loop, EvFindRoute nic la ra p loop (inl r) ∈ evs
        end
  | _ => True
  end.

Definition is_WritePacket (ev : Event) : bool :=
  match ev with
  | EvWritePacket _ _ _ => true
  | _ => false
  end.

(** C6 as it is stated: every accessor answers an option it does not
    name with unknown-protocol-option. *)
Definition unknown_options_rejected (iopt : SockOptInt)
    (sopt : SettableSocketOption) (gopt : GettableSocketOption) (v : Z)
    (e : Endpoint) (w : World) : Prop :=
  (GetSockOptInt iopt e).2 = Some ErrUnknownProtocolOption
  ∧ (SetSockOptInt iopt v e).1 = Some ErrUnknownProtocolOption
  ∧ (GetSockOpt gopt e).2 = Some ErrUnknownProtocolOption
  ∧ ∃ e' w', SetSockOpt sopt e w = Done (Some ErrUnknownProtocolOption, e', w').

(** ** Further invariants *)

(** An endpoint in the Initial state has no identity and no NIC pinning,
    and the remote address of a connected endpoint is that of its route. *)
Definition identity_ok (e : Endpoint) : Prop :=
  (State e = DatagramEndpointStateInitial →
   BindNICID (info e) = 0 ∧ ID (info e) = zeroID)
  ∧ (State e = DatagramEndpointStateConnected →
     ∃ r, route e = Some r
       ∧ RemoteAddress (ID (info e)) = Route_RemoteAddress r).

(** The errors with which [Write] turns a caller away before it asks
    anything of the stack. *)
Definition refused_before_routing (er : Error) : Prop :=
  er = ErrInvalidOptionValue ∨ er = ErrInvalidEndpointState
  ∨ er = ErrClosedForSend.




(** The interface that [Write] asks a route on for an explicit
    destination, before the pinning is applied: the one named by the
    destination or, when that is zero, the device the socket is bound to. *)
Definition writeNIC (e : Endpoint) (to : FullAddress) : Z :=
  if bool_decide (NIC to = 0) then GetBindToDevice (ops e) else NIC to.

(** What is true of every packet that one [Write] hands to a route:
    broadcast is allowed or the route is no broadcast route, the packet is
    the one the builder made for this route, sent as it is when the
    header is included and else tagged with the endpoint's owner and sent
    with the endpoint's transport protocol and TOS. *)
Definition written_as_built
    (pktf : Z → string → string → Z → bool → PacketBuffer + Error)
    (e : Endpoint) (ev : Event) : Prop :=
  match ev with
  | EvWritePacket r params pkt =>
      (GetBroadcast (ops e) = true ∨ Route_IsOutboundBroadcast r = false)
      ∧ GetHeaderIncluded (ops e) = false
      ∧ Protocol params = TransProto (info e)
      ∧ TOS params = sendTOS e
      ∧ ∃ built,
          pktf (Route_NetProto r) (Route_LocalAddress r) (Route_RemoteAddress r)
            (Route_MaxHeaderLength r) (Route_RequiresTXTransportChecksum r)
          = inl built
          ∧ pkt = mkPkt (pktData built) (owner e)
  | EvWriteHeaderIncludedPacket r pkt =>
      (GetBroadcast (ops e) = true ∨ Route_IsOutboundBroadcast r = false)
      ∧ GetHeaderIncluded (ops e) = true
      ∧ pktf (Route_NetProto r) (Route_LocalAddress r) (Route_RemoteAddress r)
          (Route_MaxHeaderLength r) (Route_RequiresTXTransportChecksum r)
        = inl pkt
  | _ => True
  end.

Definition is_write (ev : Event) : bool :=
  match ev with
  | EvWritePacket _ _ _ | EvWriteHeaderIncludedPacket _ _ => true
  | _ => false
  end.

(** The address handed to [Bind] is one that a NIC must own: it is not
    empty and neither broadcast nor multicast. *)
Definition mustBeOwned (w : World) (a : FullAddress) (netProto : Z) : Prop :=
  Addr a ≠ "" ∧ isBroadcastOrMulticast w (NIC a) netProto (Addr a) = false.

(** Two integer options are stored in the same field of the endpoint. *)
Definition shareField (opt opt' : SockOptInt) : bool :=
  match opt, opt' with
  | TTLOption, TTLOption => true
  | MulticastTTLOption, MulticastTTLOption => true
  | (IPv4TOSOption | IPv6TrafficClassOption),
    (IPv4TOSOption | IPv6TrafficClassOption) => true
  | _, _ => false
  end.

(** The call [o] sets an integer option stored where [opt] is. *)
Definition sets_field (opt : SockOptInt) (o : Op) : Prop :=
  match o with
  | OpSetSockOptInt opt' _ => shareField opt' opt = true
  | _ => False
  end.

End Network.

(** ** The sample stack as collaborator *)

Definition sample_stack : Collaborators := {|
  Stack := unit;
  FindRoute := Sample.findRoute;
  CheckLocalAddress := Sample.checkLocalAddress;
  CheckNIC := Sample.checkNIC;
  IsSubnetBroadcast := Sample.isSubnetBroadcast;
  JoinGroup := Sample.joinGroup;
  LeaveGroup := Sample.leaveGroup;
  WritePacket := Sample.writePacket;
  WriteHeaderIncludedPacket := Sample.writeHeaderIncludedPacket;
  IPv4ProtocolNumber := Sample.IPv4;
  IPv6ProtocolNumber := Sample.IPv6;
  IPv4Broadcast := Sample.broadcast;
  IsV4MulticastAddress := Sample.isV4Multicast;
  IsV6MulticastAddress := Sample.isV6Multicast;
  Unspecified := Sample.unspecified;
  PMTUDiscoveryDont := 1;
  AddrNetProtoLocked := Sample.addrNetProto
|}.

(** The world before any call. *)
Definition sample_world : World := mkWorld (net := sample_stack) tt 0 [].

(** The endpoint that [Init] makes for UDP (17) over IPv4. *)
Definition sample_initial : Endpoint :=
  mkEndpoint Sample.ops0 DatagramEndpointStateInitial false
    (mkInfo Sample.IPv4 17 zeroID 0 "" 0) Sample.IPv4 None 0 1 "" 0
    (Some ∅) 0 None.

(** The first route object that the sample stack makes, to [peer1]. *)
Definition sample_route : Route :=
  mkRoute 0 (mkRouteInfo Sample.IPv4 Sample.local1 Sample.peer1 64 20 true 1 false).

(** The endpoint after [Connect] to [peer1] with no interface given, and
    the world then. *)
Definition sample_connected : Endpoint :=
  (Connect (mkFullAddress 0 Sample.peer1 53) sample_initial sample_world).1.2.
Definition sample_connected_world : World (net := sample_stack) :=
  (Connect (mkFullAddress 0 Sample.peer1 53) sample_initial sample_world).2.

(** The endpoint and the world after [Connect] to [peer1] on interface 5. *)
Definition sample_connected5 : Endpoint :=
  (Connect (mkFullAddress 5 Sample.peer1 53) sample_initial sample_world).1.2.
Definition sample_connected5_world : World (net := sample_stack) :=
  (Connect (mkFullAddress 5 Sample.peer1 53) sample_initial sample_world).2.

(** The second route object, to [peer2] on interface 6. *)
Definition sample_route6 : Route :=
  mkRoute 1 (mkRouteInfo Sample.IPv4 Sample.local1 Sample.peer2 64 20 true 6 false).

(** Membership of [group1] on interface 1. *)
Definition sample_membership : MembershipOption :=
  mkMembershipOption 1 "" Sample.group1.

(** The endpoint after joining [group1] on interface 1, and the connected
    endpoint with the same membership. *)
Definition sample_joined : Endpoint :=
  set_multicastMemberships (Some {[ (1, Sample.group1) ]}) sample_initial.
Definition sample_open : Endpoint :=
  set_multicastMemberships (Some {[ (1, Sample.group1) ]}) sample_connected.

(** A sequence of calls that goes through every state. *)
Definition sample_calls : list Op :=
  [ OpSetSockOptInt TTLOption 42;
    OpBind (mkFullAddress 0 Sample.local1 68);
    OpConnect (mkFullAddress 0 Sample.peer1 53);
    OpSetSockOpt (AddMembershipOption sample_membership);
    OpWrite Sample.pktf (mkWriteOptions None false);
    OpWrite Sample.pktf (mkWriteOptions (Some (mkFullAddress 0 Sample.group1 53)) false);
    OpDisconnect;
    OpConnect (mkFullAddress 1 Sample.peer2 53);
    OpShutdown;
    OpClose;
    OpClose ].

(** The endpoint and the world after the calls of [l], and those before
    them if a call panics. *)
Definition sample_after (l : list Op) (e : Endpoint)
    (w : World (net := sample_stack)) : Endpoint * World (net := sample_stack) :=
  match run l e w with
  | Done p => p
  | Panic _ => (e, w)
  end.

(** The endpoint bound to [local1], which interface 1 owns. *)
Definition sample_bound : Endpoint :=
  (Bind (mkFullAddress 0 Sample.local1 68) sample_initial sample_world).2.

(** The endpoint bound to [local1] and then connected to [peer1], and the
    world then. *)
Definition sample_bound_connected : Endpoint :=
  (Connect (mkFullAddress 0 Sample.peer1 53) sample_bound sample_world).1.2.
Definition sample_bound_connected_world : World (net := sample_stack) :=
  (Connect (mkFullAddress 0 Sample.peer1 53) sample_bound sample_world).2.

(** The connected endpoint after [Shutdown], and after [Close]. *)
Definition sample_shut : Endpoint := set_writeShutdown true sample_connected.
Definition sample_closed : Endpoint :=
  (Close sample_open sample_connected_world).1.
Definition sample_closed_world : World (net := sample_stack) :=
  (Close sample_open sample_connected_world).2.

(** Calls that try to revive an endpoint. *)
Definition sample_revival : list Op :=
  [ OpBind (mkFullAddress 0 Sample.local1 68);
    OpConnect (mkFullAddress 0 Sample.peer1 53);
    OpSetSockOptInt MulticastTTLOption 9;
    OpDisconnect;
    OpConnect (mkFullAddress 0 Sample.peer2 53);
    OpWrite Sample.pktf (mkWriteOptions None false);
    OpShutdown;
    OpClose ].

(** A write to [peer2] with no interface named. *)
Definition sample_write_to : WriteOptions :=
  mkWriteOptions (Some (mkFullAddress 0 Sample.peer2 53)) false.

(** The multicast interface given by its address [local1]. *)
Definition sample_interface : MulticastInterfaceOption :=
  mkMulticastInterfaceOption 0 Sample.local1.

Section Properties.

Context {net : Collaborators}.

(** ** Properties *)

Ltac cases :=
  repeat match goal with
         | |- context [if ?b then _ else _] => destruct b eqn:?
         | |- context [match ?x with _ => _ end] => destruct x eqn:?
         end.

(** What [BindAndThen] may do to the fields of the invariant. *)
Lemma BindAndThen_fields addr f e w :
  let e' := (BindAndThen addr f e w).2 in
  e' = e
  ∨ (State e = DatagramEndpointStateInitial
     ∧ State e' = DatagramEndpointStateBound
     ∧ route e' = route e
     ∧ multicastMemberships e' = multicastMemberships e).
Proof.
  unfold BindAndThen.
  destruct (bool_decide (State e ≠ _)) eqn:Hst; [by left|].
  apply bool_decide_eq_false in Hst. apply dec_stable in Hst.
  cases; simpl; auto.
Qed.

Lemma ConnectAndThen_fields addr f e w :
  let e' := (ConnectAndThen addr f e w).1.2 in
  e' = e
  ∨ (State e' = DatagramEndpointStateConnected
     ∧ route e' ≠ None
     ∧ multicastMemberships e' = multicastMemberships e).
Proof.
  unfold ConnectAndThen. cases; simpl; auto.
Qed.

Lemma Disconnect_fields e w e' w' :
  Disconnect e w = Done (e', w') →
  e' = e
  ∨ (State e = DatagramEndpointStateConnected
     ∧ (State e' = DatagramEndpointStateBound
        ∨ State e' = DatagramEndpointStateInitial)
     ∧ route e' = None
     ∧ multicastMemberships e' = multicastMemberships e).
Proof.
  unfold Disconnect.
  destruct (bool_decide (State e ≠ _)) eqn:Hst; [intros; simplify_eq; by left|].
  apply bool_decide_eq_false in Hst. apply dec_stable in Hst.
  cases; simpl in *; intros; simplify_eq; right; simpl; auto.
Qed.

Lemma Shutdown_fields e er e' :
  Shutdown e = Done (er, e') →
  State e' = State e ∧ route e' = route e
  ∧ multicastMemberships e' = multicastMemberships e.
Proof.
  unfold Shutdown. cases; intros; by simplify_eq.
Qed.

Lemma Close_fields e w :
  let e' := (Close e w).1 in
  e' = e
  ∨ (State e' = DatagramEndpointStateClosed
     ∧ route e' = None
     ∧ multicastMemberships e' = Some ∅).
Proof.
  unfold Close.
  destruct (bool_decide _); [by left|]. right.
  destruct (route e) eqn:Hr; simpl; by rewrite ?Hr.
Qed.

Lemma SetSockOptInt_fields opt v e :
  let e' := (SetSockOptInt opt v e).2 in
  State e' = State e ∧ route e' = route e
  ∧ multicastMemberships e' = multicastMemberships e.
Proof.
  unfold SetSockOptInt. cases; by simpl.
Qed.

Lemma SetSockOpt_fields opt e w er e' w' :
  SetSockOpt opt e w = Done (er, e', w') →
  State e' = State e ∧ route e' = route e
  ∧ (multicastMemberships e ≠ None → multicastMemberships e' ≠ None).
Proof.
  unfold SetSockOpt. cases; intros; by simplify_eq.
Qed.

Lemma inv_fields e e' :
  inv e →
  State e' = State e → route e' = route e →
  (multicastMemberships e ≠ None → multicastMemberships e' ≠ None) →
  inv e'.
Proof.
  unfold inv, state_ok, route_iff_connected.
  intros (Hs & Hr & Hm) -> -> Him. auto.
Qed.

Lemma Init_inv ops0 netProto transProto e :
  Init ops0 netProto transProto zeroEndpoint = Done e → inv e.
Proof.
  unfold Init; simpl. intros H.
  destruct (_ && _); simplify_eq.
  unfold inv, state_ok, route_iff_connected, State; simpl.
  split_and!; [by left | | done].
  split; [done | discriminate].
Qed.

Lemma step_inv o e w e' w' :
  inv e → step o e w = Done (e', w') → inv e'.
Proof.
  intros Hi Hstep.
  assert (Hsame : ∀ e1, e1 = e → inv e1) by (by intros ? ->).
  destruct o; simpl in Hstep.
  - unfold Init in Hstep. destruct Hi as (_ & _ & Hm).
    destruct (multicastMemberships e); [done | congruence].
  - pose proof (BindAndThen_fields addr f e w) as H. simplify_eq/=.
    destruct H as [->|(H1 & H2 & H3 & H4)]; [done|].
    destruct Hi as (Hs & Hr & Hm).
    unfold inv, state_ok, route_iff_connected. rewrite H2, H3, H4.
    split_and!; [auto | | done].
    split; [|discriminate]. intros Hne. apply Hr in Hne. rewrite H1 in Hne. discriminate.
  - pose proof (BindAndThen_fields addr (λ _ _, None) e w) as H.
    unfold Bind in Hstep. simplify_eq/=.
    destruct H as [->|(H1 & H2 & H3 & H4)]; [done|].
    destruct Hi as (Hs & Hr & Hm).
    unfold inv, state_ok, route_iff_connected. rewrite H2, H3, H4.
    split_and!; [auto | | done].
    split; [|discriminate]. intros Hne. apply Hr in Hne. rewrite H1 in Hne. discriminate.
  - pose proof (ConnectAndThen_fields addr f e w) as H.
    destruct (ConnectAndThen addr f e w) as [[? e1] ?]. simplify_eq/=.
    destruct H as [->|(H1 & H2 & H3)]; [done|].
    destruct Hi as (Hs & Hr & Hm).
    unfold inv, state_ok, route_iff_connected. rewrite H1, H3.
    split_and!; [auto | split; auto | done].
  - unfold Connect in Hstep.
    pose proof (ConnectAndThen_fields addr (λ _ _ _, None) e w) as H.
    destruct (ConnectAndThen addr _ e w) as [[? e1] ?]. simplify_eq/=.
    destruct H as [->|(H1 & H2 & H3)]; [done|].
    destruct Hi as (Hs & Hr & Hm).
    unfold inv, state_ok, route_iff_connected. rewrite H1, H3.
    split_and!; [auto | split; auto | done].
  - destruct (Disconnect_fields _ _ _ _ Hstep) as [->|(H1 & H2 & H3 & H4)]; [done|].
    destruct Hi as (Hs & Hr & Hm).
    unfold inv, state_ok, route_iff_connected. rewrite H3, H4.
    split_and!; [tauto | | done].
    split; [done|]. destruct H2 as [-> | ->]; discriminate.
  - destruct (Shutdown e) as [[? ?]|] eqn:Hs; simplify_eq.
    destruct (Shutdown_fields _ _ _ Hs) as (H1 & H2 & H3).
    eapply inv_fields; [done..|]. by rewrite H3.
  - destruct (Write pktf opts e w) as [[[? ?] ?]|]; by simplify_eq.
  - pose proof (Close_fields e w) as H.
    destruct (Close e w) as [e1 ?]. simplify_eq/=.
    destruct H as [->|(H1 & H2 & H3)]; [done|].
    unfold inv, state_ok, route_iff_connected. rewrite H1, H2, H3.
    split_and!; [auto | | done].
    split; [done | discriminate].
  - simplify_eq. by eapply inv_fields.
  - simplify_eq.
    destruct (SetSockOptInt_fields opt v e) as (H1 & H2 & H3).
    eapply inv_fields; [done..|]. by rewrite H3.
  - by simplify_eq.
  - destruct (SetSockOpt opt e w) as [[[? ?] ?]|] eqn:Hs; simplify_eq.
    destruct (SetSockOpt_fields _ _ _ _ _ _ Hs) as (H1 & H2 & H3).
    by eapply inv_fields.
  - by simplify_eq.
  - destruct (GetLocalAddress e); by simplify_eq.
  - destruct (GetRemoteAddress e); by simplify_eq.
  - by simplify_eq.
Qed.

Lemma reachable_inv e w : reachable e w → inv e.
Proof.
  induction 1 as [? ? ? ? ? H | o e w e' w' _ IH Hstep].
  - by eapply Init_inv.
  - by eapply step_inv.
Qed.

Lemma run_inv l : ∀ e w e' w', inv e → run l e w = Done (e', w') → inv e'.
Proof.
  induction l as [|o l IH]; intros e w e' w' Hi Hrun; simpl in Hrun.
  - by simplify_eq.
  - destruct (step o e w) as [[e1 w1]|] eqn:Hs; [|done].
    eapply IH; [|done]. by eapply step_inv.
Qed.

(** *** Integer options *)

(** C10. For every integer [v], setting [TTLOption], [MulticastTTLOption],
    [IPv4TOSOption] or [IPv6TrafficClassOption] succeeds and the same
    option then reads back as [v mod 2^8]; that is [v] itself exactly when
    [0 <= v <= 255]; and the two ToS/traffic-class options share one
    field: what is set through one is read through the other. *)
Theorem SetSockOptInt_stores_low_byte (v : Z) (e : Endpoint) :
  Forall (λ opt,
            (SetSockOptInt opt v e).1 = None
            ∧ GetSockOptInt opt (SetSockOptInt opt v e).2 = (v mod 2 ^ 8, None))
         byteOptions
  ∧ (v mod 2 ^ 8 = v ↔ 0 ≤ v ≤ 255)
  ∧ GetSockOptInt IPv6TrafficClassOption (SetSockOptInt IPv4TOSOption v e).2
    = (v mod 2 ^ 8, None)
  ∧ GetSockOptInt IPv4TOSOption (SetSockOptInt IPv6TrafficClassOption v e).2
    = (v mod 2 ^ 8, None).
Proof.
  split_and!; [| | done | done].
  - unfold byteOptions. repeat constructor.
  - split; intros H.
    + rewrite <- H. pose proof (Z.mod_pos_bound v (2 ^ 8)). lia.
    + apply Z.mod_small. lia.
Qed.

(** *** Unknown options *)

(** C6, as the code has it. For an option that the accessor does not
    name, [GetSockOptInt] returns -1 with unknown-protocol-option and
    [GetSockOpt] returns unknown-protocol-option and leaves the option
    value alone, whereas [SetSockOptInt] and [SetSockOpt] return no error
    and change neither the endpoint nor the world. *)
Theorem unknown_option_get_fails_set_succeeds
    (iopt : SockOptInt) (sopt : SettableSocketOption)
    (gopt : GettableSocketOption) (v : Z) (e : Endpoint) (w : World) :
  unknownSockOptInt iopt → unknownSettable sopt → unknownGettable gopt →
  GetSockOptInt iopt e = (-1, Some ErrUnknownProtocolOption)
  ∧ GetSockOpt gopt e = (gopt, Some ErrUnknownProtocolOption)
  ∧ SetSockOptInt iopt v e = (None, e)
  ∧ SetSockOpt sopt e w = Done (None, e, w).
Proof.
  destruct iopt, sopt, gopt; simpl; try done.
Qed.

(** *** Shutdown *)

(** C9. [Shutdown] from Initial or Closed returns not-connected and
    leaves the endpoint as it is; from Bound or Connected it sets the
    write-shutdown flag and returns no error; on any other state word it
    panics; and after [Init] and any sequence of calls the state word is
    one of the four, so that [Shutdown] does not panic. *)
Theorem Shutdown_by_state (e : Endpoint) :
  (State e = DatagramEndpointStateInitial ∨ State e = DatagramEndpointStateClosed →
   Shutdown e = Done (Some ErrNotConnected, e))
  ∧ (State e = DatagramEndpointStateBound ∨ State e = DatagramEndpointStateConnected →
     Shutdown e = Done (None, set_writeShutdown true e))
  ∧ (¬ state_ok e → ∃ msg, Shutdown e = Panic msg)
  ∧ (∀ w, reachable e w → state_ok e ∧ ∃ res, Shutdown e = Done res).
Proof.
  unfold Shutdown, state_ok. split_and!.
  - intros [-> | ->]; done.
  - intros [-> | ->]; done.
  - intros Hn. repeat case_bool_decide; simpl; try tauto. eauto.
  - intros w Hr. apply reachable_inv in Hr as (Hs & _ & _).
    split; [done|]. unfold state_ok in Hs.
    destruct Hs as [-> | [-> | [-> | ->]]]; simpl; eauto.
Qed.


(** *** Disconnect *)

(** C3, as the code has it. [Disconnect] does nothing unless the state is
    Connected. From Connected, with a NIC pinning or an EMPTY local
    address the identity is reduced to the local address and the state
    becomes Bound; otherwise (no pinning, non-empty local address) the
    identity is cleared and the state becomes Initial; in both cases the
    held route is released and the route field set to nil. *)
Theorem Disconnect_keeps_explicit_binding (e : Endpoint) (w : World) :
  Disconnect_claim keepsBinding e w.
Proof.
  unfold Disconnect_claim, Disconnect, keepsBinding. split.
  - intros Hs. by rewrite bool_decide_eq_true_2.
  - intros Hs r Hr. rewrite bool_decide_eq_false_2 by (by intros ?).
    destruct (bool_decide (BindNICID (info e) ≠ 0)) eqn:Hb;
      destruct (bool_decide (LocalAddress (ID (info e)) = "")) eqn:Hl;
      simpl; rewrite Hr; eexists; (split; [reflexivity|]); simpl;
      try apply bool_decide_eq_true in Hb; try apply bool_decide_eq_true in Hl;
      try apply bool_decide_eq_false in Hb; try apply bool_decide_eq_false in Hl;
      split_and!; try done; intros; try done; tauto.
Qed.


(** *** Connect *)

(** [connectRoute] makes one call of [FindRoute]; an interface that is
    given is the one the call names. *)
Lemma connectRoute_calls_FindRoute e nic a p w :
  ∃ nic' la res w',
    connectRoute e nic a p w
    = (match res with inl r => inl (r, nic') | inr er => inr er end, w')
    ∧ (nic ≠ 0 → nic' = nic)
    ∧ trace w'
      = EvFindRoute nic' la (Addr a) p (GetMulticastLoop (ops e)) res :: trace w.
Proof.
  unfold connectRoute, stack_FindRoute.
  match goal with
  | |- context [FindRoute (stk w) ?n ?l (Addr a) p _] =>
      exists n, l; destruct (FindRoute (stk w) n l (Addr a) p _) as [ri|er] eqn:Hf
  end.
  - eexists (inl _), _. split_and!; [reflexivity | | reflexivity].
    intros Hn. by rewrite (bool_decide_eq_false_2 _ Hn), andb_false_r.
  - eexists (inr _), _. split_and!; [reflexivity | | reflexivity].
    intros Hn. by rewrite (bool_decide_eq_false_2 _ Hn), andb_false_r.
Qed.

(** [ConnectAndThen] never writes the NIC pinning. *)
Lemma ConnectAndThen_BindNICID addr f e w :
  BindNICID (info (ConnectAndThen addr f e w).1.2) = BindNICID (info e).
Proof. unfold ConnectAndThen. cases; done. Qed.

(** Past the test of the state, and with a route found and the hook
    content, [ConnectAndThen] commits. *)
Lemma ConnectAndThen_commits addr f e w a p r n w1 :
  State e = DatagramEndpointStateInitial
  ∨ ((State e = DatagramEndpointStateBound
      ∨ State e = DatagramEndpointStateConnected)
     ∧ BindNICID (info e) = 0) →
  checkV4MappedLocked e (mkFullAddress (NIC addr) (Addr addr) 0) = inl (a, p) →
  connectRoute e (NIC addr) a p w = (inl (r, n), w1) →
  f (Route_NetProto r) (ID (info e))
    (mkID 0 (if bool_decide (State e = DatagramEndpointStateInitial)
             then Route_LocalAddress r else LocalAddress (ID (info e)))
       0 (Route_RemoteAddress r)) = None →
  ∃ e' w', ConnectAndThen addr f e w = (None, e', w')
    ∧ State e' = DatagramEndpointStateConnected
    ∧ route e' = Some r
    ∧ RemoteAddress (ID (info e')) = Route_RemoteAddress r
    ∧ RegisterNICID (info e') = n.
Proof.
  intros Hst Hc Hr Hf. unfold ConnectAndThen. simpl.
  assert ((if bool_decide (State e = DatagramEndpointStateInitial)
           then inl (NIC addr)
           else if bool_decide (State e = DatagramEndpointStateBound)
                   || bool_decide (State e = DatagramEndpointStateConnected)
           then if bool_decide (BindNICID (info e) = 0) then inl (NIC addr)
                else if bool_decide (NIC addr ≠ 0)
                        && bool_decide (NIC addr ≠ BindNICID (info e))
                then inr ErrInvalidEndpointState
                else inl (BindNICID (info e))
           else inr ErrInvalidEndpointState) = (inl (NIC addr) : Z + Error)) as ->.
  { destruct Hst as [-> | [[-> | ->] ->]]; done. }
  rewrite Hc, Hr, Hf. eexists _, _. split; [reflexivity|]. done.
Qed.


(** C4. [ConnectAndThen] (and so [Connect]) from Closed fails with
    invalid-endpoint-state. From Bound or Connected with a NIC pinning, a
    destination NIC that is given and differs from the pinning fails with
    invalid-endpoint-state; otherwise, once the address is normalised, the
    route is looked up on the pinned NIC. [ConnectAndThen] never sets the
    pinning: after [Init], a [Connect] with NIC 5 that succeeds, a second
    [Connect] with NIC 6 for which a route is found succeeds and the
    remote identity becomes that route's remote address. *)
Theorem ConnectAndThen_state_and_pinning
    (addr : FullAddress)
    (f : Z → TransportEndpointID → TransportEndpointID → option Error)
    (e : Endpoint) (w : World) :
  (State e = DatagramEndpointStateClosed →
   ConnectAndThen addr f e w = (Some ErrInvalidEndpointState, e, w))
  ∧ (pinned e → NIC addr ≠ 0 → NIC addr ≠ BindNICID (info e) →
     ConnectAndThen addr f e w = (Some ErrInvalidEndpointState, e, w))
  ∧ (pinned e → NIC addr = 0 ∨ NIC addr = BindNICID (info e) →
     ∀ a p,
       checkV4MappedLocked e (mkFullAddress (NIC addr) (Addr addr) 0) = inl (a, p) →
       ∃ la res evs,
         trace (ConnectAndThen addr f e w).2
         = evs ++ EvFindRoute (BindNICID (info e)) la (Addr a) p
                    (GetMulticastLoop (ops e)) res :: trace w
         ∧ Forall (λ ev, is_FindRoute ev = false) evs)
  ∧ BindNICID (info (ConnectAndThen addr f e w).1.2) = BindNICID (info e)
  ∧ (∀ ops0 netProto transProto e0 a1 e1 w1 a2 a p r n w2,
       Init ops0 netProto transProto zeroEndpoint = Done e0 →
       NIC a1 = 5 → Connect a1 e0 w = (None, e1, w1) →
       NIC a2 = 6 →
       checkV4MappedLocked e1 (mkFullAddress 6 (Addr a2) 0) = inl (a, p) →
       connectRoute e1 6 a p w1 = (inl (r, n), w2) →
       ∃ e2 w3, Connect a2 e1 w1 = (None, e2, w3)
         ∧ State e2 = DatagramEndpointStateConnected
         ∧ route e2 = Some r
         ∧ RemoteAddress (ID (info e2)) = Route_RemoteAddress r).
Proof.
  split_and!.
  - intros Hs. unfold ConnectAndThen. rewrite Hs. done.
  - intros [Hs Hb] Hn Hd. unfold ConnectAndThen. simpl.
    rewrite (bool_decide_eq_false_2 (BindNICID (info e) = 0)) by done.
    rewrite (bool_decide_eq_true_2 (NIC addr ≠ 0)) by done.
    rewrite (bool_decide_eq_true_2 (NIC addr ≠ BindNICID (info e))) by done.
    destruct Hs as [-> | ->]; done.
  - intros [Hs Hb] Hn a p Hc. unfold ConnectAndThen. simpl.
    assert ((if bool_decide (State e = DatagramEndpointStateInitial)
             then inl (NIC addr)
             else if bool_decide (State e = DatagramEndpointStateBound)
                     || bool_decide (State e = DatagramEndpointStateConnected)
             then if bool_decide (BindNICID (info e) = 0) then inl (NIC addr)
                  else if bool_decide (NIC addr ≠ 0)
                          && bool_decide (NIC addr ≠ BindNICID (info e))
                  then inr ErrInvalidEndpointState
                  else inl (BindNICID (info e))
             else inr ErrInvalidEndpointState)
            = (inl (BindNICID (info e)) : Z + Error)) as ->.
    { rewrite (bool_decide_eq_false_2 (BindNICID (info e) = 0)) by done.
      assert (bool_decide (NIC addr ≠ 0)
              && bool_decide (NIC addr ≠ BindNICID (info e)) = false) as ->.
      { destruct Hn as [-> | ->].
        - by rewrite (bool_decide_eq_false_2 (0 ≠ 0)) by (by intros ?).
        - rewrite (bool_decide_eq_false_2 (_ ≠ BindNICID (info e)))
            by (by intros ?).
          apply andb_false_r. }
      destruct Hs as [-> | ->]; done. }
    rewrite Hc.
    destruct (connectRoute_calls_FindRoute e (BindNICID (info e)) a p w)
      as (nic' & la & res & w' & -> & Hnic & Htr).
    rewrite (Hnic Hb) in Htr.
    exists la, res. destruct res as [r|er]; simpl.
    + destruct (f _ _ _); simpl.
      * exists []. by rewrite Htr.
      * destruct (route e) as [old|]; simpl.
        -- exists [EvRelease old]. rewrite Htr. split; [done|]. by repeat constructor.
        -- exists []. by rewrite Htr.
    + exists []. by rewrite Htr.
  - apply ConnectAndThen_BindNICID.
  - intros ops0 netProto transProto e0 a1 e1 w1 a2 a p r n w2
      Hi H5 Hc1 H6 Hc Hr.
    assert (Hb0 : BindNICID (info e0) = 0).
    { unfold Init in Hi; simpl in Hi. destruct (_ && _); by simplify_eq. }
    pose proof (ConnectAndThen_BindNICID a1 (λ _ _ _, None) e0 w) as Hb1.
    pose proof (ConnectAndThen_fields a1 (λ _ _ _, None) e0 w) as Hf1.
    unfold Connect in Hc1. rewrite Hc1 in Hb1, Hf1. simpl in Hb1, Hf1.
    assert (Hs1 : State e1 = DatagramEndpointStateInitial
                  ∨ State e1 = DatagramEndpointStateConnected).
    { destruct Hf1 as [-> | (? & _)]; [left | by right].
      unfold Init in Hi; simpl in Hi. destruct (_ && _); by simplify_eq. }
    destruct (ConnectAndThen_commits a2 (λ _ _ _, None) e1 w1 a p r n w2)
      as (e2 & w3 & Heq & H1 & H2 & H3 & _).
    + destruct Hs1 as [? | ?]; [by left | right].
      split; [by right | congruence].
    + by rewrite H6.
    + by rewrite H6.
    + done.
    + exists e2, w3. done.
Qed.


(** *** Write *)

Lemma Write_locked_context opts e w res w1 :
  Write_locked opts e w = Done (res, w1) →
  ∃ evs, trace w1 = evs ++ trace w
    ∧ Forall (λ ev, is_WritePacket ev = false) evs
    ∧ ∀ r own t tos, res = inl (r, own, t, tos) →
        t = selectTTL e r ∧ own = owner e ∧ tos = sendTOS e
        ∧ match To opts with
          | None => route e = Some r
          | Some _ =>
              ∃ nic la ra p loop, EvFindRoute nic la ra p loop (inl r) ∈ evs
          end.
Proof.
  unfold Write_locked.
  destruct (bool_decide (State e = _)); [intros; simplify_eq; by exists []|].
  destruct (writeShutdown e); [intros; simplify_eq; by exists []|].
  destruct (To opts) as [to|].
  - match goal with
    | |- context [match ?c with inl _ => _ | inr _ => _ end] =>
        destruct c as [nic|er]
    end; [|intros; simplify_eq; by exists []].
    destruct (checkV4MappedLocked e to) as [[dst p]|er];
      [|intros; simplify_eq; by exists []].
    destruct (connectRoute_calls_FindRoute e nic dst p w)
      as (nic' & la & res' & w' & -> & _ & Htr).
    destruct res' as [r|er]; intros; simplify_eq.
    + eexists [_]. split; [exact Htr|]. split; [by repeat constructor|].
      intros ? ? ? ? ?; simplify_eq. split_and!; try done.
      * unfold selectTTL. destruct (_ || _); [done|].
        destruct (bool_decide (ttl e = 0)) eqn:Ht.
        -- apply bool_decide_eq_true in Ht.
           by rewrite bool_decide_eq_false_2 by (by intros ?).
        -- apply bool_decide_eq_false in Ht.
           by rewrite bool_decide_eq_true_2.
      * do 5 eexists. apply list_elem_of_singleton. reflexivity.
    + eexists [_]. split; [exact Htr|]. split; [by repeat constructor|]. done.
  - destruct (bool_decide (State e ≠ _)); [intros; simplify_eq; by exists []|].
    destruct (route e) as [r|] eqn:Hr; [|done].
    intros; simplify_eq. exists [EvAcquire r].
    split; [done|]. split; [by repeat constructor|].
    intros ? ? ? ? ?; simplify_eq. split_and!; try done.
    unfold selectTTL. destruct (_ || _); [done|].
    destruct (bool_decide (ttl e = 0)) eqn:Ht.
    + apply bool_decide_eq_true in Ht.
      by rewrite bool_decide_eq_false_2 by (by intros ?).
    + apply bool_decide_eq_false in Ht.
      by rewrite bool_decide_eq_true_2.
Qed.

(** C5. Every packet that a [Write] hands to the route for transmission
    carries the TTL [selectTTL]: the multicast TTL when the remote address
    of the route is an IPv4 or IPv6 multicast address, else the configured
    TTL when it is not zero, else the route's default TTL; the route being
    the held one when no destination is given and the one found for the
    destination otherwise. *)
Theorem Write_selects_TTL
    (pktf : Z → string → string → Z → bool → PacketBuffer + Error)
    (opts : WriteOptions) (e : Endpoint) (w : World)
    (n : Z) (er : option Error) (w' : World) :
  Write pktf opts e w = Done (n, er, w') →
  ∃ evs, trace w' = evs ++ trace w
    ∧ Forall (sent_with_selected_TTL opts e evs) evs.
Proof.
  unfold Write. destruct (More opts); [intros; simplify_eq; by exists []|].
  destruct (Write_locked opts e w) as [[res w1]|] eqn:Hl; [|done].
  destruct (Write_locked_context _ _ _ _ _ Hl) as (evs & Htr & Hnw & Hctx).
  assert (Hold : ∀ evs', Forall (sent_with_selected_TTL opts e evs') evs).
  { intros evs'. eapply Forall_impl; [exact Hnw|].
    intros [] ?; simpl in *; done. }
  destruct res as [[[[r own] t] tos]|er']; [|intros; simplify_eq; by exists evs].
  destruct (Hctx r own t tos eq_refl) as (-> & -> & -> & Hroute).
  destruct (_ && _).
  { intros; simplify_eq. exists (EvRelease r :: evs). simpl.
    split; [by rewrite Htr|]. constructor; [done|]. apply Hold. }
  destruct (pktf _ _ _ _ _) as [pkt|er'].
  2:{ intros; simplify_eq. exists (EvRelease r :: evs). simpl.
      split; [by rewrite Htr|]. constructor; [done|]. apply Hold. }
  destruct (GetHeaderIncluded (ops e)).
  - unfold Route_WriteHeaderIncludedPacket.
    destruct (WriteHeaderIncludedPacket _ _ _) as [res s].
    intros; simplify_eq. eexists (_ :: _ :: evs). simpl.
    split; [by rewrite Htr|]. repeat (constructor; [done|]). apply Hold.
  - unfold Route_WritePacket.
    destruct (WritePacket _ _ _ _) as [res s].
    intros; simplify_eq. eexists (_ :: _ :: evs). simpl.
    split; [by rewrite Htr|].
    constructor; [done|]. constructor; [|apply Hold].
    simpl. split; [done|].
    destruct (To opts); [|done].
    destruct Hroute as (nic & la & ra & p & loop & Hin).
    exists nic, la, ra, p, loop. by do 2 apply list_elem_of_further.
Qed.


(** *** The hook of ConnectAndThen *)

(** C2, as the code has it. When a route was found and the hook of
    [ConnectAndThen] refuses, the call returns the hook's error and the
    endpoint is unchanged, but the route just found is not released: the
    only call the world has seen is the [FindRoute] that made it, so the
    route keeps its one reference although no field of the endpoint holds
    it. *)
Theorem ConnectAndThen_hook_error_keeps_route_reference
    (addr : FullAddress)
    (f : Z → TransportEndpointID → TransportEndpointID → option Error)
    (e : Endpoint) (w : World) (a : FullAddress) (p : Z) (r : Route) (n : Z)
    (w1 : World) (er : Error) :
  State e = DatagramEndpointStateInitial
  ∨ ((State e = DatagramEndpointStateBound
      ∨ State e = DatagramEndpointStateConnected)
     ∧ BindNICID (info e) = 0) →
  checkV4MappedLocked e (mkFullAddress (NIC addr) (Addr addr) 0) = inl (a, p) →
  connectRoute e (NIC addr) a p w = (inl (r, n), w1) →
  f (Route_NetProto r) (ID (info e))
    (mkID 0 (if bool_decide (State e = DatagramEndpointStateInitial)
             then Route_LocalAddress r else LocalAddress (ID (info e)))
       0 (Route_RemoteAddress r)) = Some er →
  ConnectAndThen addr f e w = (Some er, e, w1)
  ∧ releases (rid r) (trace w1) = releases (rid r) (trace w)
  ∧ refs (rid r) (trace w1) = 1 + refs (rid r) (trace w).
Proof.
  intros Hst Hc Hr Hf. split.
  - unfold ConnectAndThen. simpl.
    assert ((if bool_decide (State e = DatagramEndpointStateInitial)
             then inl (NIC addr)
             else if bool_decide (State e = DatagramEndpointStateBound)
                     || bool_decide (State e = DatagramEndpointStateConnected)
             then if bool_decide (BindNICID (info e) = 0) then inl (NIC addr)
                  else if bool_decide (NIC addr ≠ 0)
                          && bool_decide (NIC addr ≠ BindNICID (info e))
                  then inr ErrInvalidEndpointState
                  else inl (BindNICID (info e))
             else inr ErrInvalidEndpointState) = (inl (NIC addr) : Z + Error)) as ->.
    { destruct Hst as [-> | [[-> | ->] ->]]; done. }
    by rewrite Hc, Hr, Hf.
  - destruct (connectRoute_calls_FindRoute e (NIC addr) a p w)
      as (nic' & la & res & w' & Heq & _ & Htr).
    rewrite Hr in Heq. destruct res as [r'|]; simplify_eq.
    rewrite Htr. unfold releases. simpl.
    split; [done|]. by rewrite bool_decide_eq_true_2.
Qed.

(** *** Multicast membership *)

Lemma membershipNIC_no_join_leave v e w :
  ∀ n a,
    joins n a (trace (membershipNIC v e w).2) = joins n a (trace w)
    ∧ leaves n a (trace (membershipNIC v e w).2) = leaves n a (trace w).
Proof.
  intros n a. unfold membershipNIC, stack_FindRoute, joins, leaves.
  destruct (Unspecified _); [|done].
  destruct (bool_decide _); [|done].
  destruct (FindRoute _ _ _ _ _ _); done.
Qed.

(** C7. With the group address a multicast address and the interface
    resolved to [nic]: joining a pair that is in the set fails with
    port-in-use and leaving a pair that is not fails with bad-local-address,
    in both cases without any call of [JoinGroup] or [LeaveGroup] and with
    the endpoint unchanged; when the stack accepts, a join adds exactly
    that pair and a leave removes exactly that pair; the members of the
    set are pairwise distinct. *)
Theorem membership_join_leave
    (v : MembershipOption) (e : Endpoint) (w : World) (nic : Z) (w1 : World)
    (m : gset (Z * string)) :
  IsV4MulticastAddress (moMulticastAddr v)
  || IsV6MulticastAddress (moMulticastAddr v) = true →
  membershipNIC v e w = (nic, w1) →
  nic ≠ 0 →
  multicastMemberships e = Some m →
  let mem := (nic, moMulticastAddr v) in
  (∀ n a, joins n a (trace w1) = joins n a (trace w)
          ∧ leaves n a (trace w1) = leaves n a (trace w))
  ∧ (mem ∈ m →
     SetSockOpt (AddMembershipOption v) e w = Done (Some ErrPortInUse, e, w1))
  ∧ (mem ∉ m →
     SetSockOpt (RemoveMembershipOption v) e w
     = Done (Some ErrBadLocalAddress, e, w1))
  ∧ (mem ∉ m → ∀ w2,
       stack_JoinGroup (NetProto (info e)) nic (moMulticastAddr v) w1 = (None, w2) →
       ∃ e', SetSockOpt (AddMembershipOption v) e w = Done (None, e', w2)
         ∧ ∃ m', multicastMemberships e' = Some m'
           ∧ (∀ x, x ∈ m' ↔ x = mem ∨ x ∈ m)
           ∧ NoDup (members e'))
  ∧ (mem ∈ m → ∀ w2,
       stack_LeaveGroup (NetProto (info e)) nic (moMulticastAddr v) w1 = (None, w2) →
       ∃ e', SetSockOpt (RemoveMembershipOption v) e w = Done (None, e', w2)
         ∧ ∃ m', multicastMemberships e' = Some m'
           ∧ (∀ x, x ∈ m' ↔ x ∈ m ∧ x ≠ mem)
           ∧ NoDup (members e'))
  ∧ NoDup (members e).
Proof.
  intros Hmc Hn Hnz Hm mem.
  assert (Hneg : negb (IsV4MulticastAddress (moMulticastAddr v))
                 && negb (IsV6MulticastAddress (moMulticastAddr v)) = false).
  { destruct (IsV4MulticastAddress _), (IsV6MulticastAddress _); done. }
  split_and!.
  - intros n a. pose proof (membershipNIC_no_join_leave v e w n a) as H.
    by rewrite Hn in H.
  - intros Hin. unfold SetSockOpt. rewrite Hneg, Hn.
    rewrite (bool_decide_eq_false_2 _ Hnz).
    unfold isMember. rewrite Hm. by rewrite bool_decide_eq_true_2.
  - intros Hin. unfold SetSockOpt. rewrite Hneg, Hn.
    rewrite (bool_decide_eq_false_2 _ Hnz).
    unfold isMember. rewrite Hm. by rewrite bool_decide_eq_false_2.
  - intros Hin w2 Hj. unfold SetSockOpt. rewrite Hneg, Hn.
    rewrite (bool_decide_eq_false_2 _ Hnz).
    unfold isMember. rewrite Hm. rewrite bool_decide_eq_false_2 by done.
    rewrite Hj. eexists. split; [reflexivity|]. simpl.
    eexists. split; [reflexivity|]. split; [set_solver|].
    unfold members; simpl. apply NoDup_elements.
  - intros Hin w2 Hl. unfold SetSockOpt. rewrite Hneg, Hn.
    rewrite (bool_decide_eq_false_2 _ Hnz).
    unfold isMember. rewrite Hm. rewrite bool_decide_eq_true_2 by done.
    simpl. rewrite Hl. eexists. split; [reflexivity|]. simpl.
    eexists. split; [reflexivity|]. split; [set_solver|].
    unfold members; simpl. apply NoDup_elements.
  - unfold members. rewrite Hm. apply NoDup_elements.
Qed.


(** *** Close *)









(** *** The route invariant *)

(** With the invariant, no call but a second [Init] panics. *)
Lemma step_total o e w :
  inv e →
  match o with OpInit _ _ _ => False | _ => True end →
  ∃ e' w', step o e w = Done (e', w').
Proof.
  intros (Hs & Hr & Hm) Ho.
  assert (Hconn : State e = DatagramEndpointStateConnected → ∃ r, route e = Some r).
  { intros Hc. apply Hr in Hc. destruct (route e); [eauto | done]. }
  destruct o; simpl; try done; try (by eauto).
  - destruct (ConnectAndThen addr f e w) as [[? ?] ?]. eauto.
  - destruct (Connect addr e w) as [[? ?] ?]. eauto.
  - unfold Disconnect. case_bool_decide as Hc; [eauto|].
    destruct (Hconn Hc) as [r Hroute].
    destruct (_ || _); simpl; rewrite Hroute; eauto.
  - unfold Shutdown. unfold state_ok in Hs.
    destruct Hs as [-> | [-> | [-> | ->]]]; simpl; eauto.
  - assert (∃ res, Write pktf opts e w = Done res) as [[[? ?] ?] ->]; [|eauto].
    unfold Write. destruct (More opts); [eauto|].
    assert (∃ res, Write_locked opts e w = Done res) as [[res w1] ->].
    { unfold Write_locked. cases; eauto.
      all: match goal with
      | H : bool_decide (State _ ≠ _) = false |- _ =>
          apply bool_decide_eq_false in H; apply dec_stable in H;
          destruct (Hconn H); congruence
      end. }
    destruct res as [[[[r own] t] tos]|er]; [|eauto].
    unfold Route_WriteHeaderIncludedPacket, Route_WritePacket. cases; eauto.
  - destruct (Close e w). eauto.
  - assert (∃ res, SetSockOpt opt e w = Done res) as [[[? ?] ?] ->]; [|eauto].
    unfold SetSockOpt. cases; eauto. done.
  - unfold GetLocalAddress. case_bool_decide as Hc; [|eauto].
    destruct (Hconn Hc) as [r ->]. eauto.
  - unfold GetRemoteAddress. case_bool_decide as Hc; [eauto|].
    destruct (Hconn Hc) as [r ->]. eauto.
Qed.

Lemma run_total l : ∀ e w,
  inv e → no_Init l → ∃ e' w', run l e w = Done (e', w').
Proof.
  induction l as [|o l IH]; intros e w Hi Hn; simpl; [eauto|].
  apply Forall_cons in Hn as [Ho Hn].
  destruct (step_total o e w Hi Ho) as (e1 & w1 & Hstep).
  rewrite Hstep. apply IH; [|done]. by eapply step_inv.
Qed.

(** C1. From an endpoint that [Init] has just set up, after every
    sequence of calls of the public methods the route field is non-nil if
    and only if the state is Connected; and such a sequence runs to its
    end whenever it does not call [Init] a second time. *)
Theorem route_nonnil_iff_connected
    (ops0 : SocketOptions) (netProto transProto : Z) (e0 : Endpoint)
    (w0 : World) (l : list Op) :
  Init ops0 netProto transProto zeroEndpoint = Done e0 →
  (∀ e w, run l e0 w0 = Done (e, w) →
     (route e ≠ None ↔ State e = DatagramEndpointStateConnected))
  ∧ (no_Init l → ∃ e w, run l e0 w0 = Done (e, w)).
Proof.
  intros Hi. apply Init_inv in Hi. split.
  - intros e w Hrun. by destruct (run_inv _ _ _ _ _ Hi Hrun) as (_ & ? & _).
  - intros Hn. by apply run_total.
Qed.

(** ** Further properties of the endpoint *)

(** *** What each call leaves alone *)

Lemma BindAndThen_frame addr f e w :
  let e' := (BindAndThen addr f e w).2 in
  ops e' = ops e ∧ writeShutdown e' = writeShutdown e ∧ route e' = route e
  ∧ multicastMemberships e' = multicastMemberships e
  ∧ NetProto (info e') = NetProto (info e)
  ∧ TransProto (info e') = TransProto (info e)
  ∧ ttl e' = ttl e ∧ multicastTTL e' = multicastTTL e ∧ sendTOS e' = sendTOS e
  ∧ owner e' = owner e
  ∧ (State e ≠ DatagramEndpointStateInitial → e' = e).
Proof.
  unfold BindAndThen.
  destruct (bool_decide (State e ≠ _)) eqn:Hst; [by split_and!|].
  apply bool_decide_eq_false in Hst. apply dec_stable in Hst.
  cases; simpl; split_and!; done.
Qed.

Lemma ConnectAndThen_frame addr f e w :
  let e' := (ConnectAndThen addr f e w).1.2 in
  ops e' = ops e ∧ writeShutdown e' = writeShutdown e
  ∧ multicastMemberships e' = multicastMemberships e
  ∧ NetProto (info e') = NetProto (info e)
  ∧ TransProto (info e') = TransProto (info e)
  ∧ BindNICID (info e') = BindNICID (info e)
  ∧ BindAddr (info e') = BindAddr (info e)
  ∧ ttl e' = ttl e ∧ multicastTTL e' = multicastTTL e ∧ sendTOS e' = sendTOS e
  ∧ owner e' = owner e
  ∧ multicastNICID e' = multicastNICID e ∧ multicastAddr e' = multicastAddr e
  ∧ (State e = DatagramEndpointStateClosed → e' = e).
Proof.
  unfold ConnectAndThen.
  destruct (bool_decide (State e = DatagramEndpointStateClosed)) eqn:Hc.
  - apply bool_decide_eq_true in Hc. rewrite Hc. simpl. by split_and!.
  - apply bool_decide_eq_false in Hc. cases; simpl; split_and!; done.
Qed.

Lemma Disconnect_frame e w e' w' :
  Disconnect e w = Done (e', w') →
  ops e' = ops e ∧ writeShutdown e' = writeShutdown e
  ∧ multicastMemberships e' = multicastMemberships e
  ∧ NetProto (info e') = NetProto (info e)
  ∧ TransProto (info e') = TransProto (info e)
  ∧ BindNICID (info e') = BindNICID (info e)
  ∧ BindAddr (info e') = BindAddr (info e)
  ∧ ttl e' = ttl e ∧ multicastTTL e' = multicastTTL e ∧ sendTOS e' = sendTOS e
  ∧ owner e' = owner e
  ∧ (State e ≠ DatagramEndpointStateConnected → e' = e).
Proof.
  unfold Disconnect.
  destruct (bool_decide (State e ≠ _)) eqn:Hst;
    [intros; simplify_eq; by split_and!|].
  apply bool_decide_eq_false in Hst. apply dec_stable in Hst.
  cases; simpl in *; intros; simplify_eq; split_and!; done.
Qed.

Lemma Shutdown_frame e er e' :
  Shutdown e = Done (er, e') →
  e' = e ∨ (er = None ∧ e' = set_writeShutdown true e).
Proof. unfold Shutdown. cases; intros; simplify_eq; auto. Qed.

Lemma Close_frame e w :
  let e' := (Close e w).1 in
  ops e' = ops e ∧ writeShutdown e' = writeShutdown e ∧ info e' = info e
  ∧ ttl e' = ttl e ∧ multicastTTL e' = multicastTTL e ∧ sendTOS e' = sendTOS e
  ∧ owner e' = owner e
  ∧ State e' = DatagramEndpointStateClosed
  ∧ (State e = DatagramEndpointStateClosed → Close e w = (e, w)).
Proof.
  unfold Close.
  destruct (bool_decide _) eqn:Hc.
  - apply bool_decide_eq_true in Hc. by split_and!.
  - apply bool_decide_eq_false in Hc.
    destruct (route e) eqn:Hr; simpl; rewrite ?Hr; by split_and!.
Qed.

Lemma SetSockOptInt_frame opt v e :
  let e' := (SetSockOptInt opt v e).2 in
  ops e' = ops e ∧ writeShutdown e' = writeShutdown e ∧ info e' = info e
  ∧ State e' = State e ∧ route e' = route e
  ∧ multicastMemberships e' = multicastMemberships e
  ∧ owner e' = owner e.
Proof. unfold SetSockOptInt. cases; by split_and!. Qed.

Lemma SetSockOpt_frame opt e w er e' w' :
  SetSockOpt opt e w = Done (er, e', w') →
  ops e' = ops e ∧ writeShutdown e' = writeShutdown e ∧ info e' = info e
  ∧ State e' = State e ∧ route e' = route e
  ∧ ttl e' = ttl e ∧ multicastTTL e' = multicastTTL e ∧ sendTOS e' = sendTOS e
  ∧ owner e' = owner e
  ∧ (er ≠ None → e' = e).
Proof.
  unfold SetSockOpt. cases; intros; simplify_eq; by split_and!.
Qed.

(** *** Failure leaves the endpoint as it was *)

(** X1. A call of [BindAndThen], [ConnectAndThen], [Shutdown],
    [SetSockOptInt] or [SetSockOpt] that returns an error returns the
    endpoint with every field as it was. *)
Theorem error_leaves_endpoint_unchanged (e : Endpoint) (w : World) (er : Error) :
  (∀ addr f e', BindAndThen addr f e w = (Some er, e') → e' = e)
  ∧ (∀ addr f e' w', ConnectAndThen addr f e w = (Some er, e', w') → e' = e)
  ∧ (∀ e', Shutdown e = Done (Some er, e') → e' = e)
  ∧ (∀ opt v e', SetSockOptInt opt v e = (Some er, e') → e' = e)
  ∧ (∀ opt e' w', SetSockOpt opt e w = Done (Some er, e', w') → e' = e).
Proof.
  split_and!.
  - intros addr f e'. unfold BindAndThen. cases; intros; by simplify_eq.
  - intros addr f e' w'. unfold ConnectAndThen. cases; intros; by simplify_eq.
  - intros e' H. by destruct (Shutdown_frame _ _ _ H) as [-> | [? _]].
  - intros opt v e'. unfold SetSockOptInt. cases; intros; by simplify_eq.
  - intros opt e' w' H. by apply (SetSockOpt_frame _ _ _ _ _ _ H).
Qed.

(** *** What holds along every sequence of calls *)

Lemma ConnectAndThen_identity addr f e w :
  let e' := (ConnectAndThen addr f e w).1.2 in
  e' = e
  ∨ (State e' = DatagramEndpointStateConnected
     ∧ ∃ r, route e' = Some r
         ∧ RemoteAddress (ID (info e')) = Route_RemoteAddress r).
Proof. unfold ConnectAndThen. cases; simpl; eauto. Qed.

Lemma Disconnect_identity e w e' w' :
  Disconnect e w = Done (e', w') →
  e' = e
  ∨ (State e = DatagramEndpointStateConnected
     ∧ (State e' = DatagramEndpointStateBound
        ∨ (State e' = DatagramEndpointStateInitial
           ∧ BindNICID (info e) = 0 ∧ ID (info e') = zeroID))).
Proof.
  unfold Disconnect.
  destruct (bool_decide (State e ≠ _)) eqn:Hst; [intros; simplify_eq; by left|].
  apply bool_decide_eq_false in Hst. apply dec_stable in Hst.
  destruct (bool_decide (BindNICID (info e) ≠ 0)) eqn:Hb; simpl.
  - destruct (route e); intros; simplify_eq. right. split; [done|]. by left.
  - apply bool_decide_eq_false in Hb. apply dec_stable in Hb.
    destruct (bool_decide (LocalAddress (ID (info e)) = "")); simpl;
      destruct (route e); intros; simplify_eq; right; (split; [done|]);
      [by left | by right].
Qed.

(** One call keeps: the socket options object and the protocols, a set
    write-shutdown flag, a non-nil membership map, and everything about a
    Closed endpoint that [Close] settled. *)
Lemma step_keeps o e w e' w' :
  multicastMemberships e ≠ None →
  step o e w = Done (e', w') →
  multicastMemberships e' ≠ None
  ∧ ops e' = ops e
  ∧ NetProto (info e') = NetProto (info e)
  ∧ TransProto (info e') = TransProto (info e)
  ∧ (writeShutdown e = true → writeShutdown e' = true)
  ∧ (State e = DatagramEndpointStateClosed →
     State e' = DatagramEndpointStateClosed ∧ info e' = info e
     ∧ route e' = route e ∧ writeShutdown e' = writeShutdown e).
Proof.
  intros Hm Hstep.
  assert (Hsame : e' = e →
    multicastMemberships e' ≠ None ∧ ops e' = ops e
    ∧ NetProto (info e') = NetProto (info e)
    ∧ TransProto (info e') = TransProto (info e)
    ∧ (writeShutdown e = true → writeShutdown e' = true)
    ∧ (State e = DatagramEndpointStateClosed →
       State e' = DatagramEndpointStateClosed ∧ info e' = info e
       ∧ route e' = route e ∧ writeShutdown e' = writeShutdown e)).
  { intros ->. by split_and!. }
  destruct o; simpl in Hstep.
  - unfold Init in Hstep. destruct (multicastMemberships e); [done | congruence].
  - pose proof (BindAndThen_frame addr f e w) as H. simplify_eq/=.
    destruct H as (H1 & H2 & H3 & H4 & H5 & H6 & _ & _ & _ & _ & H7).
    split_and!; try congruence.
    intros Hc. rewrite H7; [done|]. rewrite Hc. done.
  - pose proof (BindAndThen_frame addr (λ _ _, None) e w) as H.
    unfold Bind in Hstep. simplify_eq/=.
    destruct H as (H1 & H2 & H3 & H4 & H5 & H6 & _ & _ & _ & _ & H7).
    split_and!; try congruence.
    intros Hc. rewrite H7; [done|]. rewrite Hc. done.
  - pose proof (ConnectAndThen_frame addr f e w) as H.
    destruct (ConnectAndThen addr f e w) as [[? e1] ?]. simplify_eq/=.
    destruct H as (H1 & H2 & H3 & H4 & H5 & _ & _ & _ & _ & _ & _ & _ & _ & H7).
    split_and!; try congruence. intros Hc. by rewrite (H7 Hc).
  - unfold Connect in Hstep.
    pose proof (ConnectAndThen_frame addr (λ _ _ _, None) e w) as H.
    destruct (ConnectAndThen addr _ e w) as [[? e1] ?]. simplify_eq/=.
    destruct H as (H1 & H2 & H3 & H4 & H5 & _ & _ & _ & _ & _ & _ & _ & _ & H7).
    split_and!; try congruence. intros Hc. by rewrite (H7 Hc).
  - destruct (Disconnect_frame _ _ _ _ Hstep)
      as (H1 & H2 & H3 & H4 & H5 & _ & _ & _ & _ & _ & _ & H7).
    split_and!; try congruence.
    intros Hc. rewrite H7; [done|]. rewrite Hc. done.
  - destruct (Shutdown e) as [[er e1]|] eqn:Hs; simplify_eq.
    destruct (Shutdown_frame _ _ _ Hs) as [-> | [-> ->]]; [by apply Hsame|].
    simpl. split_and!; try done.
    intros Hc. unfold Shutdown in Hs. rewrite Hc in Hs. simpl in Hs. discriminate.
  - destruct (Write pktf opts e w) as [[[? ?] ?]|]; simplify_eq. by apply Hsame.
  - pose proof (Close_frame e w) as H.
    destruct (Close e w) as [e1 w1] eqn:Hcl. simplify_eq/=.
    destruct H as (H1 & H2 & H3 & _ & _ & _ & _ & H4 & H5).
    split_and!; try congruence.
    + unfold Close in Hcl. destruct (bool_decide _); [by simplify_eq|].
      simpl in Hcl. destruct (route e); by simplify_eq.
    + intros Hc. specialize (H5 Hc). by simplify_eq.
  - simplify_eq. by split_and!.
  - pose proof (SetSockOptInt_frame opt v e) as H. simplify_eq/=.
    destruct H as (H1 & H2 & H3 & H4 & H5 & H6 & _).
    split_and!; try congruence. intros Hc. split_and!; congruence.
  - simplify_eq. by apply Hsame.
  - destruct (SetSockOpt opt e w) as [[[? ?] ?]|] eqn:Hs; simplify_eq.
    destruct (SetSockOpt_frame _ _ _ _ _ _ Hs) as (H1 & H2 & H3 & H4 & H5 & _).
    destruct (SetSockOpt_fields _ _ _ _ _ _ Hs) as (_ & _ & H6).
    split_and!; try congruence; [by apply H6|].
    intros Hc. split_and!; congruence.
  - simplify_eq. by apply Hsame.
  - destruct (GetLocalAddress e); simplify_eq. by apply Hsame.
  - destruct (GetRemoteAddress e); simplify_eq. by apply Hsame.
  - simplify_eq. by apply Hsame.
Qed.

Lemma run_keeps l : ∀ e w e' w',
  multicastMemberships e ≠ None →
  run l e w = Done (e', w') →
  multicastMemberships e' ≠ None
  ∧ ops e' = ops e
  ∧ NetProto (info e') = NetProto (info e)
  ∧ TransProto (info e') = TransProto (info e)
  ∧ (writeShutdown e = true → writeShutdown e' = true)
  ∧ (State e = DatagramEndpointStateClosed →
     State e' = DatagramEndpointStateClosed ∧ info e' = info e
     ∧ route e' = route e ∧ writeShutdown e' = writeShutdown e).
Proof.
  induction l as [|o l IH]; intros e w e' w' Hm Hrun; simpl in Hrun.
  - simplify_eq. by split_and!.
  - destruct (step o e w) as [[e1 w1]|] eqn:Hs; [|done].
    destruct (step_keeps _ _ _ _ _ Hm Hs) as (K1 & K2 & K3 & K4 & K5 & K6).
    destruct (IH _ _ _ _ K1 Hrun) as (J1 & J2 & J3 & J4 & J5 & J6).
    split_and!; try congruence; [tauto|].
    intros Hc. destruct (K6 Hc) as (A1 & A2 & A3 & A4).
    destruct (J6 A1) as (B1 & B2 & B3 & B4). split_and!; congruence.
Qed.

(** X2. Closed is final. Whatever is called on an initialised endpoint
    that is Closed, the state stays Closed and the identity, the route
    field and the write-shutdown flag stay as they are; and there
    [BindAndThen] and [ConnectAndThen] fail with invalid-endpoint-state,
    [Shutdown] with not-connected, [Write] with invalid-endpoint-state or,
    asked for more-to-come, invalid-option-value, and [Disconnect] and
    [Close] do nothing. *)
Theorem Closed_is_final (l : list Op) (e : Endpoint) (w : World)
    (e' : Endpoint) (w' : World) :
  multicastMemberships e ≠ None →
  State e = DatagramEndpointStateClosed →
  run l e w = Done (e', w') →
  State e' = DatagramEndpointStateClosed
  ∧ info e' = info e ∧ route e' = route e
  ∧ writeShutdown e' = writeShutdown e
  ∧ (∀ addr f, BindAndThen addr f e' w' = (Some ErrInvalidEndpointState, e'))
  ∧ (∀ addr f, ConnectAndThen addr f e' w' = (Some ErrInvalidEndpointState, e', w'))
  ∧ Shutdown e' = Done (Some ErrNotConnected, e')
  ∧ (∀ pktf opts,
       Write pktf opts e' w'
       = Done (0, Some (if More opts then ErrInvalidOptionValue
                        else ErrInvalidEndpointState), w'))
  ∧ Disconnect e' w' = Done (e', w')
  ∧ Close e' w' = (e', w').
Proof.
  intros Hm Hc Hrun.
  destruct (run_keeps _ _ _ _ _ Hm Hrun) as (_ & _ & _ & _ & _ & H).
  destruct (H Hc) as (H1 & H2 & H3 & H4).
  split_and!; try done.
  - intros addr f. unfold BindAndThen. by rewrite H1.
  - intros addr f. unfold ConnectAndThen. by rewrite H1.
  - unfold Shutdown. by rewrite H1.
  - intros pktf opts. unfold Write, Write_locked. rewrite H1.
    by destruct (More opts).
  - unfold Disconnect. by rewrite H1.
  - unfold Close. by rewrite H1.
Qed.

(** X3. Shutdown is for good. Once the write-shutdown flag is set on an
    initialised endpoint, it stays set whatever is called, and every later
    [Write] is turned away (invalid-option-value, invalid-endpoint-state or
    closed-for-send) without a call to the stack or to a route; no later
    [Connect] or [Disconnect] opens the endpoint for sending again. *)
Theorem write_shutdown_is_permanent (l : list Op) (e : Endpoint) (w : World)
    (e' : Endpoint) (w' : World) :
  multicastMemberships e ≠ None →
  writeShutdown e = true →
  run l e w = Done (e', w') →
  writeShutdown e' = true
  ∧ ∀ pktf opts, ∃ er,
      Write pktf opts e' w' = Done (0, Some er, w')
      ∧ refused_before_routing er.
Proof.
  intros Hm Hsh Hrun.
  destruct (run_keeps _ _ _ _ _ Hm Hrun) as (_ & _ & _ & _ & H & _).
  specialize (H Hsh). split; [done|].
  intros pktf opts. unfold Write, Write_locked, refused_before_routing.
  destruct (More opts); [eauto|].
  destruct (bool_decide _); [eauto|]. rewrite H. eauto 6.
Qed.

Lemma identity_ok_fields e e' :
  State e' = State e → info e' = info e → route e' = route e →
  identity_ok e → identity_ok e'.
Proof. unfold identity_ok. by intros -> -> ->. Qed.

Lemma step_identity o e w e' w' :
  multicastMemberships e ≠ None → identity_ok e →
  step o e w = Done (e', w') →
  identity_ok e'
  ∧ (BindNICID (info e) ≠ 0 → BindNICID (info e') = BindNICID (info e)).
Proof.
  intros Hm Hid Hstep.
  assert (Hsame : e' = e → identity_ok e'
            ∧ (BindNICID (info e) ≠ 0 → BindNICID (info e') = BindNICID (info e)))
    by (by intros ->).
  assert (Hbind : ∀ e1, e1 = e
            ∨ (State e = DatagramEndpointStateInitial
               ∧ State e1 = DatagramEndpointStateBound
               ∧ route e1 = route e
               ∧ multicastMemberships e1 = multicastMemberships e) →
            identity_ok e1
            ∧ (BindNICID (info e) ≠ 0 → BindNICID (info e1) = BindNICID (info e))).
  { intros e1 [-> | (H1 & H2 & _)]; [done|]. split.
    - unfold identity_ok. rewrite H2. split; intros; discriminate.
    - intros Hb. destruct Hid as [Hi _]. destruct (Hi H1) as [? _]. done. }
  assert (Hconn : ∀ e1 : Endpoint,
            BindNICID (info e1) = BindNICID (info e) →
            e1 = e
            ∨ (State e1 = DatagramEndpointStateConnected
               ∧ ∃ r, route e1 = Some r
                   ∧ RemoteAddress (ID (info e1)) = Route_RemoteAddress r) →
            identity_ok e1
            ∧ (BindNICID (info e) ≠ 0 → BindNICID (info e1) = BindNICID (info e))).
  { intros e1 Hb [-> | (H1 & H2)]; [done|]. split; [|done].
    unfold identity_ok. rewrite H1. split; [intros; discriminate | done]. }
  destruct o; simpl in Hstep.
  - unfold Init in Hstep. destruct (multicastMemberships e); [done | congruence].
  - pose proof (BindAndThen_fields addr f e w) as H. simplify_eq/=. by apply Hbind.
  - pose proof (BindAndThen_fields addr (λ _ _, None) e w) as H.
    unfold Bind in Hstep. simplify_eq/=. by apply Hbind.
  - pose proof (ConnectAndThen_identity addr f e w) as H.
    pose proof (ConnectAndThen_BindNICID addr f e w) as Hb.
    destruct (ConnectAndThen addr f e w) as [[? e1] ?]. simplify_eq/=.
    by apply Hconn.
  - unfold Connect in Hstep.
    pose proof (ConnectAndThen_identity addr (λ _ _ _, None) e w) as H.
    pose proof (ConnectAndThen_BindNICID addr (λ _ _ _, None) e w) as Hb.
    destruct (ConnectAndThen addr _ e w) as [[? e1] ?]. simplify_eq/=.
    by apply Hconn.
  - destruct (Disconnect_frame _ _ _ _ Hstep)
      as (_ & _ & _ & _ & _ & Hb & _).
    destruct (Disconnect_identity _ _ _ _ Hstep) as [-> | (Hc & Hs)]; [done|].
    split; [|done]. unfold identity_ok.
    destruct Hs as [-> | (-> & Hz & Hi)].
    + split; intros; discriminate.
    + split; [|intros; discriminate]. intros _. split; [congruence | done].
  - destruct (Shutdown e) as [[er e1]|] eqn:Hs; simplify_eq.
    destruct (Shutdown_frame _ _ _ Hs) as [-> | [_ ->]]; [done|].
    split; [|done]. by eapply identity_ok_fields.
  - destruct (Write pktf opts e w) as [[[? ?] ?]|]; simplify_eq. by apply Hsame.
  - pose proof (Close_frame e w) as H.
    destruct (Close e w) as [e1 w1]. simplify_eq/=.
    destruct H as (_ & _ & H3 & _ & _ & _ & _ & H4 & _).
    split; [|by rewrite H3]. unfold identity_ok. rewrite H4.
    split; intros; discriminate.
  - simplify_eq. split; [|done]. by eapply identity_ok_fields.
  - pose proof (SetSockOptInt_frame opt v e) as H. simplify_eq/=.
    destruct H as (_ & _ & H3 & H4 & H5 & _).
    split; [|by rewrite H3]. by eapply identity_ok_fields.
  - simplify_eq. by apply Hsame.
  - destruct (SetSockOpt opt e w) as [[[? ?] ?]|] eqn:Hs; simplify_eq.
    destruct (SetSockOpt_frame _ _ _ _ _ _ Hs) as (_ & _ & H3 & H4 & H5 & _).
    split; [|by rewrite H3]. by eapply identity_ok_fields.
  - simplify_eq. by apply Hsame.
  - destruct (GetLocalAddress e); simplify_eq. by apply Hsame.
  - destruct (GetRemoteAddress e); simplify_eq. by apply Hsame.
  - simplify_eq. by apply Hsame.
Qed.

Lemma run_identity l : ∀ e w e' w',
  multicastMemberships e ≠ None → identity_ok e →
  run l e w = Done (e', w') →
  identity_ok e'
  ∧ (BindNICID (info e) ≠ 0 → BindNICID (info e') = BindNICID (info e)).
Proof.
  induction l as [|o l IH]; intros e w e' w' Hm Hid Hrun; simpl in Hrun.
  - by simplify_eq.
  - destruct (step o e w) as [[e1 w1]|] eqn:Hs; [|done].
    destruct (step_keeps _ _ _ _ _ Hm Hs) as (Hm1 & _).
    destruct (step_identity _ _ _ _ _ Hm Hid Hs) as (Hid1 & Hb1).
    destruct (IH _ _ _ _ Hm1 Hid1 Hrun) as (Hid' & Hb').
    split; [done|]. intros Hb. rewrite Hb', Hb1; [done..|]. by rewrite Hb1.
Qed.

Lemma Init_identity ops0 netProto transProto e :
  Init ops0 netProto transProto zeroEndpoint = Done e →
  multicastMemberships e ≠ None ∧ identity_ok e.
Proof.
  unfold Init; simpl. intros H. destruct (_ && _); simplify_eq.
  split; [done|]. unfold identity_ok, State; simpl.
  split; [done | discriminate].
Qed.

(** X4. A NIC pinning is never changed or dropped. On an endpoint reached
    from [Init] by calls of the public methods, the Initial state means no
    identity and no pinning, and a pinning that is there (bound NIC not
    zero) is the same after every further sequence of calls: [Connect],
    [Disconnect] and [Close] keep it and a second [Bind] cannot replace
    it. *)
Theorem NIC_pinning_is_permanent
    (ops0 : SocketOptions) (netProto transProto : Z) (e0 : Endpoint)
    (w0 : World) (l1 l2 : list Op) (e : Endpoint) (w : World)
    (e' : Endpoint) (w' : World) :
  Init ops0 netProto transProto zeroEndpoint = Done e0 →
  run l1 e0 w0 = Done (e, w) →
  run l2 e w = Done (e', w') →
  (State e = DatagramEndpointStateInitial →
   BindNICID (info e) = 0 ∧ ID (info e) = zeroID)
  ∧ (BindNICID (info e) ≠ 0 → BindNICID (info e') = BindNICID (info e)).
Proof.
  intros Hi H1 H2. apply Init_identity in Hi as [Hm0 Hid0].
  destruct (run_keeps _ _ _ _ _ Hm0 H1) as (Hm & _).
  destruct (run_identity _ _ _ _ _ Hm0 Hid0 H1) as ([Hini _] & _).
  destruct (run_identity _ _ _ _ _ Hm (conj Hini
              (proj2 (proj1 (run_identity _ _ _ _ _ Hm0 Hid0 H1)))) H2)
    as (_ & Hb).
  done.
Qed.

(** X5. The addresses an endpoint reports. On an endpoint reached from
    [Init], [GetRemoteAddress] answers false with an empty address unless
    the state is Connected, and then the remote address of the identity,
    which is that of the held route; [GetLocalAddress] answers the bound
    address unless Connected, and then the local address of the held
    route; both with the registration NIC, and neither panics. *)
Theorem reported_addresses
    (ops0 : SocketOptions) (netProto transProto : Z) (e0 : Endpoint)
    (w0 : World) (l : list Op) (e : Endpoint) (w : World) :
  Init ops0 netProto transProto zeroEndpoint = Done e0 →
  run l e0 w0 = Done (e, w) →
  (State e ≠ DatagramEndpointStateConnected →
   GetRemoteAddress e = Done (mkFullAddress 0 "" 0, false)
   ∧ GetLocalAddress e
     = Done (mkFullAddress (RegisterNICID (info e)) (BindAddr (info e)) 0))
  ∧ (State e = DatagramEndpointStateConnected →
     ∃ r, route e = Some r
       ∧ Route_RemoteAddress r = RemoteAddress (ID (info e))
       ∧ GetRemoteAddress e
         = Done (mkFullAddress (RegisterNICID (info e))
                   (RemoteAddress (ID (info e))) 0, true)
       ∧ GetLocalAddress e
         = Done (mkFullAddress (RegisterNICID (info e))
                   (Route_LocalAddress r) 0)).
Proof.
  intros Hi Hrun. apply Init_identity in Hi as [Hm0 Hid0].
  destruct (run_identity _ _ _ _ _ Hm0 Hid0 Hrun) as ([_ Hc] & _).
  unfold GetRemoteAddress, GetLocalAddress. split.
  - intros Hn. rewrite bool_decide_eq_true_2 by done.
    by rewrite bool_decide_eq_false_2 by done.
  - intros Hs. destruct (Hc Hs) as (r & Hr & Hrem).
    exists r. rewrite bool_decide_eq_false_2 by (by intros ?).
    rewrite bool_decide_eq_true_2 by done. rewrite Hr, Hrem. done.
Qed.

(** *** Write *)

(** X6. Whom [Write] turns away before it asks for a route, in this
    order: a caller asking for more-to-come (invalid-option-value), a
    Closed endpoint (invalid-endpoint-state), an endpoint shut down for
    writing (closed-for-send), a caller without destination on an endpoint
    that is not Connected (destination-required), and a destination whose
    interface (its own or else the bound device) is not the pinned one
    (no-route). In each case nothing is asked of the stack. *)
Theorem Write_refusals
    (pktf : Z → string → string → Z → bool → PacketBuffer + Error)
    (opts : WriteOptions) (e : Endpoint) (w : World) :
  (More opts = true →
   Write pktf opts e w = Done (0, Some ErrInvalidOptionValue, w))
  ∧ (More opts = false → State e = DatagramEndpointStateClosed →
     Write pktf opts e w = Done (0, Some ErrInvalidEndpointState, w))
  ∧ (More opts = false → State e ≠ DatagramEndpointStateClosed →
     writeShutdown e = true →
     Write pktf opts e w = Done (0, Some ErrClosedForSend, w))
  ∧ (More opts = false → State e ≠ DatagramEndpointStateClosed →
     writeShutdown e = false → To opts = None →
     State e ≠ DatagramEndpointStateConnected →
     Write pktf opts e w = Done (0, Some ErrDestinationRequired, w))
  ∧ (More opts = false → State e ≠ DatagramEndpointStateClosed →
     writeShutdown e = false →
     ∀ to, To opts = Some to →
     BindNICID (info e) ≠ 0 → writeNIC e to ≠ 0 →
     writeNIC e to ≠ BindNICID (info e) →
     Write pktf opts e w = Done (0, Some ErrNoRoute, w)).
Proof.
  unfold Write, Write_locked, writeNIC. split_and!.
  - by intros ->.
  - intros -> ->. done.
  - intros -> Hc ->. by rewrite bool_decide_eq_false_2.
  - intros -> Hc -> -> Hn. rewrite bool_decide_eq_false_2 by done.
    by rewrite bool_decide_eq_true_2.
  - intros -> Hc -> to -> Hb Hz Hd. rewrite bool_decide_eq_false_2 by done.
    rewrite (bool_decide_eq_true_2 (BindNICID (info e) ≠ 0)) by done.
    destruct (bool_decide (NIC to = 0));
      rewrite !bool_decide_eq_true_2 by done; done.
Qed.

Lemma refs_cons_FindRoute k nic la ra p loop res tr :
  refs k (EvFindRoute nic la ra p loop res :: tr)
  = match res with
    | inl r => (if bool_decide (rid r = k) then 1 else 0) + refs k tr
    | inr _ => refs k tr
    end.
Proof. by destruct res. Qed.

(** What the first part of [Write] does to the references: one more on
    the route it hands on, none otherwise. *)
Lemma Write_locked_refs opts e w res w1 :
  Write_locked opts e w = Done (res, w1) →
  ∀ k, refs k (trace w1)
       = match res with
         | inl (r, _, _, _) => if bool_decide (rid r = k) then 1 else 0
         | inr _ => 0
         end + refs k (trace w).
Proof.
  unfold Write_locked.
  destruct (bool_decide (State e = _)); [intros; by simplify_eq|].
  destruct (writeShutdown e); [intros; by simplify_eq|].
  destruct (To opts) as [to|].
  - match goal with
    | |- context [match ?c with inl _ => _ | inr _ => _ end] =>
        destruct c as [nic|er]
    end; [|intros; by simplify_eq].
    destruct (checkV4MappedLocked e to) as [[dst p]|er];
      [|intros; by simplify_eq].
    destruct (connectRoute_calls_FindRoute e nic dst p w)
      as (nic' & la & res' & w' & -> & _ & Htr).
    destruct res' as [r|er]; intros; simplify_eq; rewrite Htr; simpl; done.
  - destruct (bool_decide (State e ≠ _)); [intros; by simplify_eq|].
    destruct (route e) as [r|] eqn:Hr; [|done].
    intros; simplify_eq. done.
Qed.

Lemma Write_refs
    (pktf : Z → string → string → Z → bool → PacketBuffer + Error)
    (opts : WriteOptions) (e : Endpoint) (w : World)
    (n : Z) (er : option Error) (w' : World) :
  Write pktf opts e w = Done (n, er, w') →
  n = 0 ∧ ∀ k, refs k (trace w') = refs k (trace w).
Proof.
  unfold Write. destruct (More opts); [intros; by simplify_eq|].
  destruct (Write_locked opts e w) as [[res w1]|] eqn:Hl; [|done].
  pose proof (Write_locked_refs _ _ _ _ _ Hl) as Hrefs.
  destruct res as [[[[r own] t] tos]|er'].
  2:{ intros; simplify_eq. split; [done|]. intros k. by rewrite Hrefs. }
  assert (Hrel : ∀ k tr, tr = trace w1 ∨ (∃ ev, is_write ev = true ∧ tr = ev :: trace w1) →
                 refs k (EvRelease r :: tr) = refs k (trace w)).
  { intros k tr [-> | (ev & Hev & ->)].
    - simpl. rewrite Hrefs. destruct (bool_decide _); lia.
    - destruct ev; try done; simpl; rewrite Hrefs; destruct (bool_decide _); lia. }
  destruct (_ && _).
  { intros; simplify_eq. split; [done|]. intros k.
    apply (Hrel k (trace w1)). by left. }
  destruct (pktf _ _ _ _ _) as [pkt|er'].
  2:{ intros; simplify_eq. split; [done|]. intros k.
    apply (Hrel k (trace w1)). by left. }
  destruct (GetHeaderIncluded (ops e)).
  - unfold Route_WriteHeaderIncludedPacket.
    destruct (WriteHeaderIncludedPacket _ _ _) as [res s].
    intros; simplify_eq. split; [done|]. intros k.
    apply (Hrel k (EvWriteHeaderIncludedPacket r pkt :: trace w1)).
    right. eexists. split; [|reflexivity]. reflexivity.
  - unfold Route_WritePacket.
    destruct (WritePacket _ _ _ _) as [res s].
    intros; simplify_eq. split; [done|]. intros k.
    apply (Hrel k (EvWritePacket r _ _ :: trace w1)).
    right. eexists. split; [|reflexivity]. reflexivity.
Qed.

(** X7. [Write] takes no reference away and leaves none behind. Whatever
    it returns, the count it returns is 0 and every route object has as
    many references after the call as before: the reference taken on the
    held route, or the route found for the destination, is released on
    every path. *)
Theorem Write_keeps_reference_counts
    (pktf : Z → string → string → Z → bool → PacketBuffer + Error)
    (opts : WriteOptions) (e : Endpoint) (w : World)
    (n : Z) (er : option Error) (w' : World) :
  Write pktf opts e w = Done (n, er, w') →
  n = 0 ∧ ∀ k, refs k (trace w') = refs k (trace w).
Proof. apply Write_refs. Qed.

(** The first part of [Write] hands nothing to a route, and what it hands
    on are the endpoint's owner and TOS. *)
Lemma Write_locked_quiet opts e w res w1 :
  Write_locked opts e w = Done (res, w1) →
  ∃ evs, trace w1 = evs ++ trace w
    ∧ Forall (λ ev, is_write ev = false) evs
    ∧ ∀ r own t tos, res = inl (r, own, t, tos) →
        own = owner e ∧ tos = sendTOS e.
Proof.
  unfold Write_locked.
  destruct (bool_decide (State e = _)); [intros; simplify_eq; by exists []|].
  destruct (writeShutdown e); [intros; simplify_eq; by exists []|].
  destruct (To opts) as [to|].
  - match goal with
    | |- context [match ?c with inl _ => _ | inr _ => _ end] =>
        destruct c as [nic|er]
    end; [|intros; simplify_eq; by exists []].
    destruct (checkV4MappedLocked e to) as [[dst p]|er];
      [|intros; simplify_eq; by exists []].
    destruct (connectRoute_calls_FindRoute e nic dst p w)
      as (nic' & la & res' & w' & -> & _ & Htr).
    destruct res' as [r|er]; intros; simplify_eq.
    + eexists [_]. split; [exact Htr|]. split; [by repeat constructor|].
      by intros ? ? ? ? ?; simplify_eq.
    + eexists [_]. split; [exact Htr|]. split; [by repeat constructor|]. done.
  - destruct (bool_decide (State e ≠ _)); [intros; simplify_eq; by exists []|].
    destruct (route e) as [r|] eqn:Hr; [|done].
    intros; simplify_eq. exists [EvAcquire r].
    split; [done|]. split; [by repeat constructor|].
    by intros ? ? ? ? ?; simplify_eq.
Qed.

(** X8. What [Write] hands to a route. One [Write] hands at most one
    packet to a route, and such a packet satisfies [written_as_built]:
    the route is no broadcast route unless the broadcast option is on, the
    packet is the one the builder made from this route's protocol,
    addresses, header length and checksum flag, and it goes out unchanged
    when the header is included and else with the endpoint's owner,
    transport protocol and TOS. *)
Theorem Write_sends_what_was_built
    (pktf : Z → string → string → Z → bool → PacketBuffer + Error)
    (opts : WriteOptions) (e : Endpoint) (w : World)
    (n : Z) (er : option Error) (w' : World) :
  Write pktf opts e w = Done (n, er, w') →
  ∃ evs, trace w' = evs ++ trace w
    ∧ Forall (written_as_built pktf e) evs
    ∧ (length (List.filter is_write evs) ≤ 1)%nat.
Proof.
  unfold Write. destruct (More opts).
  { intros; simplify_eq. exists []. split_and!; [done | constructor | simpl; lia]. }
  destruct (Write_locked opts e w) as [[res w1]|] eqn:Hl; [|done].
  destruct (Write_locked_quiet _ _ _ _ _ Hl) as (evs & Htr & Hnw & Hctx).
  assert (Hold : Forall (written_as_built pktf e) evs
                 ∧ List.filter is_write evs = []).
  { clear -Hnw. induction Hnw as [|ev evs Hev _ [IH1 IH2]]; [done|].
    split.
    - constructor; [|done]. by destruct ev.
    - simpl. destruct ev; try done. }
  destruct Hold as [Hold Hnone].
  destruct res as [[[[r own] t] tos]|er'].
  2:{ intros; simplify_eq. exists evs. split_and!; [done..|]. rewrite Hnone. simpl; lia. }
  destruct (Hctx r own t tos eq_refl) as (-> & ->).
  destruct (negb (GetBroadcast (ops e)) && Route_IsOutboundBroadcast r) eqn:Hb.
  { intros; simplify_eq. exists (EvRelease r :: evs). simpl.
    split_and!; [by rewrite Htr | by constructor | rewrite Hnone; simpl; lia]. }
  assert (Hallowed : GetBroadcast (ops e) = true
                     ∨ Route_IsOutboundBroadcast r = false).
  { destruct (GetBroadcast (ops e)), (Route_IsOutboundBroadcast r); auto. }
  destruct (pktf _ _ _ _ _) as [pkt|er'] eqn:Hp.
  2:{ intros; simplify_eq. exists (EvRelease r :: evs). simpl.
      split_and!; [by rewrite Htr | by constructor | rewrite Hnone; simpl; lia]. }
  destruct (GetHeaderIncluded (ops e)) eqn:Hh.
  - unfold Route_WriteHeaderIncludedPacket.
    destruct (WriteHeaderIncludedPacket _ _ _) as [res s].
    intros; simplify_eq. eexists (_ :: _ :: evs). simpl.
    split_and!; [by rewrite Htr | | rewrite Hnone; simpl; lia].
    constructor; [done|]. constructor; [|done]. simpl. by rewrite Hh.
  - unfold Route_WritePacket.
    destruct (WritePacket _ _ _ _) as [res s].
    intros; simplify_eq. eexists (_ :: _ :: evs). simpl.
    split_and!; [by rewrite Htr | | rewrite Hnone; simpl; lia].
    constructor; [done|]. constructor; [|done]. simpl. rewrite Hh.
    split_and!; try done. eauto.
Qed.

(** *** Bind *)

(** X9. Whom [BindAndThen] turns away. An endpoint that is not Initial
    gets invalid-endpoint-state, so a second [Bind] after a successful one
    always fails; from Initial, an address that a NIC must own and that
    the stack finds on no NIC gets bad-local-address, whatever the hook.
    The endpoint is returned as it was. *)
Theorem BindAndThen_refusals (addr : FullAddress) (f : Z → string → option Error)
    (e : Endpoint) (w : World) :
  (State e ≠ DatagramEndpointStateInitial →
   BindAndThen addr f e w = (Some ErrInvalidEndpointState, e))
  ∧ (∀ e1, BindAndThen addr f e w = (None, e1) →
     ∀ addr2 f2 w2,
       BindAndThen addr2 f2 e1 w2 = (Some ErrInvalidEndpointState, e1))
  ∧ (State e = DatagramEndpointStateInitial →
     ∀ a p,
       checkV4MappedLocked e (mkFullAddress (NIC addr) (Addr addr) 0) = inl (a, p) →
       mustBeOwned w a p →
       CheckLocalAddress (stk w) (NIC a) p (Addr a) = 0 →
       BindAndThen addr f e w = (Some ErrBadLocalAddress, e)).
Proof.
  split_and!.
  - intros Hs. unfold BindAndThen. by rewrite bool_decide_eq_true_2.
  - intros e1 H1 addr2 f2 w2.
    assert (State e1 = DatagramEndpointStateBound) as Hb.
    { unfold BindAndThen in H1. revert H1. cases; intros [= <-]; done. }
    unfold BindAndThen. rewrite Hb. done.
  - intros Hs a p Hc [Hne Hbm] Hz. unfold BindAndThen.
    rewrite bool_decide_eq_false_2 by (by intros ?).
    rewrite Hc. simpl. rewrite (bool_decide_eq_true_2 _ Hne), Hbm. simpl.
    by rewrite Hz.
Qed.

(** X10. What a successful [BindAndThen] leaves. The state is Bound; the
    identity is the normalised address alone; pinning and registration NIC
    are the NIC that owns the address when one must own it (and so not
    zero), and the NIC given otherwise; [GetLocalAddress] then reports
    that address and NIC; route and options are untouched. *)
Theorem BindAndThen_binds (addr : FullAddress) (f : Z → string → option Error)
    (e : Endpoint) (w : World) (e' : Endpoint) :
  BindAndThen addr f e w = (None, e') →
  ∃ a p,
    checkV4MappedLocked e (mkFullAddress (NIC addr) (Addr addr) 0) = inl (a, p)
    ∧ f p (Addr a) = None
    ∧ State e = DatagramEndpointStateInitial
    ∧ State e' = DatagramEndpointStateBound
    ∧ ID (info e') = mkID 0 (Addr a) 0 ""
    ∧ BindAddr (info e') = Addr a
    ∧ effectiveNetProto e' = p
    ∧ RegisterNICID (info e') = BindNICID (info e')
    ∧ (mustBeOwned w a p →
       BindNICID (info e') = CheckLocalAddress (stk w) (NIC a) p (Addr a)
       ∧ BindNICID (info e') ≠ 0)
    ∧ (¬ mustBeOwned w a p → BindNICID (info e') = NIC a)
    ∧ GetLocalAddress e' = Done (mkFullAddress (BindNICID (info e')) (Addr a) 0)
    ∧ route e' = route e.
Proof.
  unfold BindAndThen, mustBeOwned.
  destruct (bool_decide (State e ≠ _)) eqn:Hst; [done|].
  apply bool_decide_eq_false in Hst. apply dec_stable in Hst.
  destruct (checkV4MappedLocked e _) as [[a p]|]; [|done].
  exists a, p.
  match goal with H : _ = (None, e') |- _ => revert H end.
  destruct (bool_decide (Addr a ≠ "")) eqn:Hne; simpl.
  - apply bool_decide_eq_true in Hne.
    destruct (isBroadcastOrMulticast w (NIC a) p (Addr a)) eqn:Hbm; simpl.
    + destruct (f p (Addr a)) eqn:Hf; [done|]. intros; simplify_eq.
      unfold GetLocalAddress; simpl. split_and!; try done.
      * by intros [_ ?].
    + destruct (bool_decide (CheckLocalAddress _ _ _ _ = 0)) eqn:Hz; [done|].
      apply bool_decide_eq_false in Hz.
      destruct (f p (Addr a)) eqn:Hf; [done|]. intros; simplify_eq.
      unfold GetLocalAddress; simpl. split_and!; try done.
      intros Hn. destruct Hn. done.
  - apply bool_decide_eq_false in Hne.
    destruct (f p (Addr a)) eqn:Hf; [done|]. intros; simplify_eq.
    unfold GetLocalAddress; simpl. split_and!; try done.
    by intros [? _].
Qed.

(** *** Connect and Disconnect *)

Lemma ConnectAndThen_success addr f e w e' w' :
  ConnectAndThen addr f e w = (None, e', w') →
  ∃ a p nic r n w1,
    checkV4MappedLocked e (mkFullAddress (NIC addr) (Addr addr) 0) = inl (a, p)
    ∧ connectRoute e nic a p w = (inl (r, n), w1)
    ∧ State e ≠ DatagramEndpointStateClosed
    ∧ State e' = DatagramEndpointStateConnected
    ∧ route e' = Some r
    ∧ ID (info e')
      = mkID 0 (if bool_decide (State e = DatagramEndpointStateInitial)
                then Route_LocalAddress r else LocalAddress (ID (info e)))
          0 (Route_RemoteAddress r)
    ∧ RegisterNICID (info e') = n
    ∧ effectiveNetProto e' = p
    ∧ w' = match route e with
           | Some old => Route_Release old w1
           | None => w1
           end.
Proof.
  unfold ConnectAndThen. simpl.
  match goal with
  | |- context [match ?c with inl _ => _ | inr _ => _ end] =>
      destruct c as [nic|er] eqn:Hchk
  end; [|done].
  assert (State e ≠ DatagramEndpointStateClosed) as Hnc.
  { intros Hc. rewrite Hc in Hchk. done. }
  destruct (checkV4MappedLocked e _) as [[a p]|]; [|done].
  destruct (connectRoute e nic a p w) as [[[r n]|] w1] eqn:Hr; [|done].
  destruct (f _ _ _); [done|].
  intros; simplify_eq. exists a, p, nic, r, n, w1. by split_and!.
Qed.

(** X11. What a successful [ConnectAndThen] leaves. The state is
    Connected and the route found is held; the local address of the
    identity is the route's when the endpoint was Initial and is the one
    it had otherwise, the remote address is the route's, the ports are
    zero; the world has seen one successful [FindRoute] for the normalised
    destination, with a new route object, and after it the release of
    the route held before, if there was one. *)
Theorem ConnectAndThen_connects
    (addr : FullAddress)
    (f : Z → TransportEndpointID → TransportEndpointID → option Error)
    (e : Endpoint) (w : World) (e' : Endpoint) (w' : World) :
  ConnectAndThen addr f e w = (None, e', w') →
  ∃ a p r nic la,
    checkV4MappedLocked e (mkFullAddress (NIC addr) (Addr addr) 0) = inl (a, p)
    ∧ State e' = DatagramEndpointStateConnected
    ∧ route e' = Some r
    ∧ rid r = nextRoute w
    ∧ nextRoute w' = S (nextRoute w)
    ∧ ID (info e')
      = mkID 0 (if bool_decide (State e = DatagramEndpointStateInitial)
                then Route_LocalAddress r else LocalAddress (ID (info e)))
          0 (Route_RemoteAddress r)
    ∧ RegisterNICID (info e') = nic
    ∧ effectiveNetProto e' = p
    ∧ trace w'
      = match route e with Some old => [EvRelease old] | None => [] end
        ++ EvFindRoute nic la (Addr a) p (GetMulticastLoop (ops e)) (inl r)
        :: trace w.
Proof.
  intros H.
  destruct (ConnectAndThen_success _ _ _ _ _ _ H)
    as (a & p & nic & r & n & w1 & Hc & Hr & _ & H1 & H2 & H3 & H4 & H5 & ->).
  exists a, p, r, n.
  unfold connectRoute, stack_FindRoute in Hr.
  match type of Hr with
  | context [FindRoute (stk w) ?n' ?l (Addr a) p _] =>
      exists l; destruct (FindRoute (stk w) n' l (Addr a) p _) as [ri|er] eqn:Hf
  end; [|done].
  injection Hr as <- <- <-. destruct (route e); simpl; by split_and!.
Qed.

(** X12. Bind, connect, disconnect. After a successful [BindAndThen], a
    successful [ConnectAndThen] and then [Disconnect], the endpoint is
    Bound again with the identity, pinning and bound address that
    [BindAndThen] gave it and no route, provided the binding has a NIC
    pinning or an empty address; a binding with neither (an address that
    no NIC must own, bound with no NIC) is dropped instead: the state is
    Initial and the identity empty. *)
Theorem Bind_Connect_Disconnect
    (addr1 addr2 : FullAddress) (f1 : Z → string → option Error)
    (f2 : Z → TransportEndpointID → TransportEndpointID → option Error)
    (e : Endpoint) (w w1 w2' : World) (e1 e2 : Endpoint) (w2 : World) :
  BindAndThen addr1 f1 e w = (None, e1) →
  ConnectAndThen addr2 f2 e1 w1 = (None, e2, w2) →
  ∃ e3 r,
    route e2 = Some r
    ∧ Disconnect e2 w2' = Done (e3, Route_Release r w2')
    ∧ route e3 = None
    ∧ BindNICID (info e3) = BindNICID (info e1)
    ∧ BindAddr (info e3) = BindAddr (info e1)
    ∧ (keepsBinding e1 →
       State e3 = DatagramEndpointStateBound ∧ ID (info e3) = ID (info e1))
    ∧ (¬ keepsBinding e1 →
       State e3 = DatagramEndpointStateInitial ∧ ID (info e3) = zeroID).
Proof.
  intros Hb Hc.
  assert (Hb1 : State e1 = DatagramEndpointStateBound
                ∧ ∃ a, ID (info e1) = mkID 0 a 0 "").
  { unfold BindAndThen in Hb. revert Hb. cases; intros [= <-]; simpl; eauto. }
  destruct Hb1 as (Hs1 & a & Hid1).
  pose proof (ConnectAndThen_frame addr2 f2 e1 w1) as Hfr.
  rewrite Hc in Hfr. simpl in Hfr.
  destruct Hfr as (_ & _ & _ & _ & _ & Hpin & Hba & _).
  destruct (ConnectAndThen_success _ _ _ _ _ _ Hc)
    as (a2 & p & nic & r & n & w3 & _ & _ & _ & H1 & H2 & H3 & _).
  rewrite Hs1 in H3. simpl in H3. rewrite Hid1 in H3. simpl in H3.
  unfold Disconnect, keepsBinding.
  rewrite bool_decide_eq_false_2 by (by intros ?).
  rewrite Hpin, H3, Hid1. simpl.
  destruct (bool_decide (BindNICID (info e1) ≠ 0)) eqn:Hn;
    destruct (bool_decide (a = "")) eqn:Ha; simpl; rewrite H2;
    try apply bool_decide_eq_true in Hn; try apply bool_decide_eq_true in Ha;
    try apply bool_decide_eq_false in Hn; try apply bool_decide_eq_false in Ha;
    eexists _, r; (split; [done|]); (split; [reflexivity|]); simpl;
    split_and!; try done; intros; try done; tauto.
Qed.

(** *** Init and the options *)

(** X13. [Init] works once and sets the defaults. With a network protocol
    that is neither IPv4 nor IPv6 it panics, on any endpoint; on the zero
    endpoint with one of the two it gives an endpoint in the Initial state
    with TTL 0, multicast TTL 1, TOS 0, no multicast interface, no
    membership, no addresses and writing not shut down; and on every
    endpoint reached from there it panics. *)
Theorem Init_once_with_defaults (ops0 : SocketOptions) (netProto transProto : Z) :
  (netProto ≠ IPv4ProtocolNumber → netProto ≠ IPv6ProtocolNumber →
   ∀ e, ∃ msg, Init ops0 netProto transProto e = Panic msg)
  ∧ (netProto = IPv4ProtocolNumber ∨ netProto = IPv6ProtocolNumber →
     ∃ e, Init ops0 netProto transProto zeroEndpoint = Done e
       ∧ State e = DatagramEndpointStateInitial
       ∧ ops e = ops0
       ∧ Info e = mkInfo netProto transProto zeroID 0 "" 0
       ∧ GetSockOptInt TTLOption e = (0, None)
       ∧ GetSockOptInt MulticastTTLOption e = (1, None)
       ∧ GetSockOptInt IPv4TOSOption e = (0, None)
       ∧ (∀ o, GetSockOpt (GetMulticastInterfaceOption o) e
               = (GetMulticastInterfaceOption (mkMulticastInterfaceOption 0 ""),
                  None))
       ∧ GetRemoteAddress e = Done (mkFullAddress 0 "" 0, false)
       ∧ GetLocalAddress e = Done (mkFullAddress 0 "" 0)
       ∧ members e = []
       ∧ writeShutdown e = false)
  ∧ (∀ e w ops1 netProto1 transProto1,
       reachable e w → ∃ msg, Init ops1 netProto1 transProto1 e = Panic msg).
Proof.
  split_and!.
  - intros H4 H6 e. unfold Init. destruct (multicastMemberships e); [eauto|].
    rewrite !bool_decide_eq_true_2 by done. simpl. eauto.
  - intros Hp. unfold Init. simpl.
    assert (bool_decide (netProto ≠ IPv4ProtocolNumber)
            && bool_decide (netProto ≠ IPv6ProtocolNumber) = false) as ->.
    { destruct Hp as [-> | ->].
      - by rewrite (bool_decide_eq_false_2 (_ ≠ IPv4ProtocolNumber)) by (by intros ?).
      - rewrite (bool_decide_eq_false_2 (_ ≠ IPv6ProtocolNumber)) by (by intros ?).
        apply andb_false_r. }
    eexists. split; [reflexivity|]. by split_and!.
  - intros e w ops1 netProto1 transProto1 Hr.
    apply reachable_inv in Hr as (_ & _ & Hm). unfold Init.
    destruct (multicastMemberships e); [eauto | done].
Qed.

(** X14. The path-MTU-discovery option is fixed. [GetSockOptInt] always
    reads "don't"; [SetSockOptInt] accepts that value and no other, with
    not-supported, and the endpoint is unchanged either way. *)
Theorem MTUDiscoverOption_is_fixed (v : Z) (e : Endpoint) :
  GetSockOptInt MTUDiscoverOption e = (PMTUDiscoveryDont, None)
  ∧ (v = PMTUDiscoveryDont → SetSockOptInt MTUDiscoverOption v e = (None, e))
  ∧ (v ≠ PMTUDiscoveryDont →
     SetSockOptInt MTUDiscoverOption v e = (Some ErrNotSupported, e))
  ∧ GetSockOptInt MTUDiscoverOption (SetSockOptInt MTUDiscoverOption v e).2
    = (PMTUDiscoveryDont, None).
Proof.
  unfold SetSockOptInt, GetSockOptInt. split_and!; try done.
  - intros ->. by rewrite bool_decide_eq_false_2 by (by intros ?).
  - intros Hn. by rewrite bool_decide_eq_true_2.
Qed.

Lemma step_keeps_option opt o e w e' w' :
  multicastMemberships e ≠ None →
  ¬ sets_field opt o →
  step o e w = Done (e', w') →
  GetSockOptInt opt e' = GetSockOptInt opt e.
Proof.
  intros Hm Hn Hstep.
  assert (Hfields : ttl e' = ttl e → multicastTTL e' = multicastTTL e →
                    sendTOS e' = sendTOS e →
                    GetSockOptInt opt e' = GetSockOptInt opt e).
  { intros H1 H2 H3. unfold GetSockOptInt. destruct opt; congruence. }
  destruct o; simpl in Hstep.
  - unfold Init in Hstep. destruct (multicastMemberships e); [done | congruence].
  - pose proof (BindAndThen_frame addr f e w) as H. simplify_eq/=.
    apply Hfields; apply H.
  - pose proof (BindAndThen_frame addr (λ _ _, None) e w) as H.
    unfold Bind in Hstep. simplify_eq/=. apply Hfields; apply H.
  - pose proof (ConnectAndThen_frame addr f e w) as H.
    destruct (ConnectAndThen addr f e w) as [[? e1] ?]. simplify_eq/=.
    apply Hfields; apply H.
  - unfold Connect in Hstep.
    pose proof (ConnectAndThen_frame addr (λ _ _ _, None) e w) as H.
    destruct (ConnectAndThen addr _ e w) as [[? e1] ?]. simplify_eq/=.
    apply Hfields; apply H.
  - apply Hfields; apply (Disconnect_frame _ _ _ _ Hstep).
  - destruct (Shutdown e) as [[er e1]|] eqn:Hs; simplify_eq.
    by destruct (Shutdown_frame _ _ _ Hs) as [-> | [_ ->]].
  - destruct (Write pktf opts e w) as [[[? ?] ?]|]; by simplify_eq.
  - pose proof (Close_frame e w) as H.
    destruct (Close e w) as [e1 w1]. simplify_eq/=. apply Hfields; apply H.
  - by simplify_eq.
  - simplify_eq. simpl in Hn. unfold SetSockOptInt, GetSockOptInt.
    destruct opt0, opt; simpl in *; try done; by destruct (bool_decide _).
  - by simplify_eq.
  - destruct (SetSockOpt opt0 e w) as [[[? ?] ?]|] eqn:Hs; simplify_eq.
    apply Hfields; apply (SetSockOpt_frame _ _ _ _ _ _ Hs).
  - by simplify_eq.
  - destruct (GetLocalAddress e); by simplify_eq.
  - destruct (GetRemoteAddress e); by simplify_eq.
  - by simplify_eq.
Qed.

(** X15. An integer option changes only when it is set. Along a sequence
    of calls on an initialised endpoint in which no [SetSockOptInt] names
    an option stored in the same field, [GetSockOptInt] reads the same
    before and after: binding, connecting, disconnecting, writing,
    shutting down, closing and the other options leave TTL, multicast TTL
    and TOS alone, and setting one of the three leaves the other two. *)
Theorem integer_option_changes_only_when_set
    (opt : SockOptInt) (l : list Op) (e : Endpoint) (w : World)
    (e' : Endpoint) (w' : World) :
  multicastMemberships e ≠ None →
  Forall (λ o, ¬ sets_field opt o) l →
  run l e w = Done (e', w') →
  GetSockOptInt opt e' = GetSockOptInt opt e.
Proof.
  revert e w. induction l as [|o l IH]; intros e w Hm Hn Hrun; simpl in Hrun.
  - by simplify_eq.
  - apply Forall_cons in Hn as [Ho Hn].
    destruct (step o e w) as [[e1 w1]|] eqn:Hs; [|done].
    destruct (step_keeps _ _ _ _ _ Hm Hs) as (Hm1 & _).
    rewrite (IH _ _ Hm1 Hn Hrun). by eapply step_keeps_option.
Qed.

(** *** The multicast interface *)

(** X16. Setting and reading the multicast interface. [SetSockOpt] with a
    [MulticastInterfaceOption] asks nothing that changes the world, and on
    an error leaves the endpoint as it was. On success [GetSockOpt] reads
    back the normalised interface address and a NIC: zero when neither a
    NIC nor an address was given, the NIC given when the stack knows it,
    and else the nonzero NIC on which the stack finds the address; and a
    NIC that is kept never differs from an existing NIC pinning. *)
Theorem multicast_interface_round_trip
    (v : MulticastInterfaceOption) (e : Endpoint) (w : World)
    (er : option Error) (e' : Endpoint) (w' : World) :
  SetSockOpt (SetMulticastInterfaceOption v) e w = Done (er, e', w') →
  w' = w
  ∧ (er ≠ None → e' = e)
  ∧ (er = None →
     ∃ fa p,
       checkV4MappedLocked e (mkFullAddress 0 (mioInterfaceAddr v) 0) = inl (fa, p)
       ∧ (∀ o, GetSockOpt (GetMulticastInterfaceOption o) e'
               = (GetMulticastInterfaceOption
                    (mkMulticastInterfaceOption (multicastNICID e') (Addr fa)),
                  None))
       ∧ (mioNIC v = 0 → Addr fa = "" → multicastNICID e' = 0)
       ∧ (mioNIC v ≠ 0 →
          multicastNICID e' = mioNIC v ∧ CheckNIC (stk w) (mioNIC v) = true)
       ∧ (mioNIC v = 0 → Addr fa ≠ "" →
          multicastNICID e' = CheckLocalAddress (stk w) 0 p (Addr fa)
          ∧ multicastNICID e' ≠ 0)
       ∧ (multicastNICID e' ≠ 0 → BindNICID (info e) ≠ 0 →
          multicastNICID e' = BindNICID (info e))).
Proof.
  unfold SetSockOpt.
  destruct (checkV4MappedLocked e _) as [[fa p]|er0] eqn:Hc.
  2:{ intros; simplify_eq. by split_and!. }
  destruct (bool_decide (mioNIC v = 0)) eqn:Hn; simpl.
  - apply bool_decide_eq_true in Hn.
    destruct (bool_decide (Addr fa = "")) eqn:Ha; simpl.
    + apply bool_decide_eq_true in Ha. intros; simplify_eq.
      split_and!; try done. intros _. exists fa, p. simpl.
      split_and!; try done. by rewrite Ha.
    + apply bool_decide_eq_false in Ha.
      rewrite (bool_decide_eq_false_2 (mioNIC v ≠ 0)) by (by intros ?).
      destruct (bool_decide (CheckLocalAddress _ _ _ _ = 0)) eqn:Hz.
      { intros; simplify_eq. by split_and!. }
      apply bool_decide_eq_false in Hz.
      destruct (bool_decide (BindNICID (info e) ≠ 0)) eqn:Hb; simpl.
      * destruct (bool_decide (BindNICID (info e) ≠ CheckLocalAddress _ _ _ _)) eqn:Hd.
        { intros; simplify_eq. by split_and!. }
        apply bool_decide_eq_false in Hd. apply dec_stable in Hd.
        intros; simplify_eq. split_and!; try done. intros _.
        exists fa, p. simpl. by split_and!.
      * apply bool_decide_eq_false in Hb. apply dec_stable in Hb.
        intros; simplify_eq. split_and!; try done. intros _.
        exists fa, p. simpl. by split_and!.
  - apply bool_decide_eq_false in Hn.
    rewrite (bool_decide_eq_true_2 (mioNIC v ≠ 0)) by done.
    destruct (CheckNIC (stk w) (mioNIC v)) eqn:Hk; simpl.
    2:{ intros; simplify_eq. by split_and!. }
    destruct (bool_decide (BindNICID (info e) ≠ 0)) eqn:Hb; simpl.
    + destruct (bool_decide (BindNICID (info e) ≠ mioNIC v)) eqn:Hd.
      { intros; simplify_eq. by split_and!. }
      apply bool_decide_eq_false in Hd. apply dec_stable in Hd.
      intros; simplify_eq. split_and!; try done. intros _.
      exists fa, p. simpl. by split_and!.
    + apply bool_decide_eq_false in Hb. apply dec_stable in Hb.
      intros; simplify_eq. split_and!; try done. intros _.
      exists fa, p. simpl. by split_and!.
Qed.

(** X17. Where [connectRoute] asks for a route. It makes one call of
    [FindRoute] for the given destination and protocol. The source
    address it names is never a broadcast or multicast local address of
    the identity: that one is replaced by the empty address, or, for a
    multicast destination with no interface at all, by the address of the
    configured multicast interface. The configured multicast interface
    plays no part for a destination that is not multicast; for one that
    is, and with no NIC given, its NIC is the one asked for. *)
Theorem connectRoute_source_and_interface
    (e : Endpoint) (nic : Z) (a : FullAddress) (p : Z) (w : World) :
  let multicast :=
    IsV4MulticastAddress (Addr a) || IsV6MulticastAddress (Addr a) in
  let loc := LocalAddress (ID (info e)) in
  ∃ nic' la res w',
    connectRoute e nic a p w
    = (match res with inl r => inl (r, nic') | inr er => inr er end, w')
    ∧ trace w'
      = EvFindRoute nic' la (Addr a) p (GetMulticastLoop (ops e)) res :: trace w
    ∧ (isBroadcastOrMulticast w nic p loc = true →
       la = "" ∨ (multicast = true ∧ nic' = 0 ∧ la = multicastAddr e))
    ∧ (isBroadcastOrMulticast w nic p loc = false →
       la = loc ∨ (multicast = true ∧ nic' = 0 ∧ loc = "" ∧ la = multicastAddr e))
    ∧ (multicast = false →
       nic' = nic
       ∧ ∀ n' a',
           connectRoute (set_multicastNICID n' (set_multicastAddr a' e)) nic a p w
           = connectRoute e nic a p w)
    ∧ (multicast = true → nic = 0 → nic' = multicastNICID e)
    ∧ (nic ≠ 0 → nic' = nic).
Proof.
  intros multicast loc.
  assert (Hplain : multicast = false → ∀ n' a',
            connectRoute (set_multicastNICID n' (set_multicastAddr a' e)) nic a p w
            = connectRoute e nic a p w).
  { intros Hm n' a'. unfold connectRoute. simpl. fold multicast. by rewrite Hm. }
  unfold connectRoute at 1. unfold stack_FindRoute.
  fold multicast. fold loc. clearbody multicast loc.
  match goal with
  | |- context [FindRoute (stk w) ?n ?l (Addr a) p _] =>
      exists n, l;
      exists (match FindRoute (stk w) n l (Addr a) p (GetMulticastLoop (ops e)) with
              | inl ri => inl (mkRoute (nextRoute w) ri)
              | inr er => inr er
              end);
      exists (stack_FindRoute n l (Addr a) p (GetMulticastLoop (ops e)) w).2
  end.
  unfold stack_FindRoute. split_and!.
  - destruct (FindRoute _ _ _ _ _ _); reflexivity.
  - destruct (FindRoute _ _ _ _ _ _); reflexivity.
  - intros ->. destruct multicast; simpl; [|by left].
    destruct (bool_decide (nic = 0)) eqn:Hn0; simpl; rewrite ?Hn0; simpl.
    + destruct (bool_decide (multicastNICID e = 0)) eqn:Hz; [|by left].
      apply bool_decide_eq_true in Hz. right. by rewrite Hz.
    + by left.
  - intros ->. destruct multicast; simpl; [|by left].
    destruct (bool_decide (loc = "")) eqn:Hl; simpl; [|by left].
    apply bool_decide_eq_true in Hl.
    destruct (bool_decide (nic = 0)) eqn:Hn0; simpl; rewrite ?Hn0; simpl.
    + destruct (bool_decide (multicastNICID e = 0)) eqn:Hz; [|by left].
      apply bool_decide_eq_true in Hz. right. by rewrite Hz.
    + by left.
  - intros Hm. split; [by rewrite Hm | by apply Hplain].
  - intros -> ->. done.
  - intros Hn. by rewrite (bool_decide_eq_false_2 _ Hn), andb_false_r.
Qed.

(** *** Multicast membership, further *)

Lemma membershipNIC_refs v e w :
  (nextRoute w ≤ nextRoute (membershipNIC v e w).2)%nat
  ∧ ∀ k, refs k (trace (membershipNIC v e w).2) = refs k (trace w).
Proof.
  unfold membershipNIC, stack_FindRoute.
  destruct (Unspecified _); [|done].
  destruct (bool_decide _); [|done].
  destruct (FindRoute _ _ _ _ _ _); simpl; [|done].
  split; [lia|]. intros k. destruct (bool_decide _); lia.
Qed.

Lemma refs_cons_other k ev tr :
  match ev with
  | EvFindRoute _ _ _ _ _ _ | EvAcquire _ | EvRelease _ => False
  | _ => True
  end →
  refs k (ev :: tr) = refs k tr.
Proof. by destruct ev. Qed.

(** The socket options keep the route and every reference count. *)
Lemma SetSockOpt_refs opt e w er e' w' :
  SetSockOpt opt e w = Done (er, e', w') →
  (nextRoute w ≤ nextRoute w')%nat
  ∧ ∀ k, refs k (trace w') = refs k (trace w).
Proof.
  destruct opt as [v|v|v| |name]; simpl.
  - cases; intros; by simplify_eq.
  - destruct (_ && _); [intros; by simplify_eq|].
    pose proof (membershipNIC_refs v e w) as [Hn Hr].
    destruct (membershipNIC v e w) as [nic w1]. simpl in Hn, Hr.
    destruct (bool_decide _); [intros; by simplify_eq|].
    destruct (isMember _ e); [intros; by simplify_eq|].
    unfold stack_JoinGroup. destruct (JoinGroup _ _ _ _) as [[er0|] s].
    + intros; simplify_eq. done.
    + destruct (multicastMemberships e); intros; simplify_eq. done.
  - destruct (_ && _); [intros; by simplify_eq|].
    pose proof (membershipNIC_refs v e w) as [Hn Hr].
    destruct (membershipNIC v e w) as [nic w1]. simpl in Hn, Hr.
    destruct (bool_decide _); [intros; by simplify_eq|].
    destruct (negb _); [intros; by simplify_eq|].
    unfold stack_LeaveGroup. destruct (LeaveGroup _ _ _ _) as [[er0|] s];
      intros; simplify_eq; done.
  - intros; by simplify_eq.
  - intros; by simplify_eq.
Qed.

(** X18. Whom the membership options turn away. A group address that is
    not multicast gets invalid-option-value, with nothing asked of the
    stack; an interface that resolves to no NIC gets unknown-device; and
    when the stack itself refuses to join or to leave, its error is
    returned. In all these cases the endpoint, and with it the membership
    set, is as before. *)
Theorem membership_refusals (v : MembershipOption) (e : Endpoint) (w : World) :
  (IsV4MulticastAddress (moMulticastAddr v)
   || IsV6MulticastAddress (moMulticastAddr v) = false →
   SetSockOpt (AddMembershipOption v) e w = Done (Some ErrInvalidOptionValue, e, w)
   ∧ SetSockOpt (RemoveMembershipOption v) e w
     = Done (Some ErrInvalidOptionValue, e, w))
  ∧ (IsV4MulticastAddress (moMulticastAddr v)
     || IsV6MulticastAddress (moMulticastAddr v) = true →
     ∀ nic w1, membershipNIC v e w = (nic, w1) →
     (nic = 0 →
      SetSockOpt (AddMembershipOption v) e w = Done (Some ErrUnknownDevice, e, w1)
      ∧ SetSockOpt (RemoveMembershipOption v) e w
        = Done (Some ErrUnknownDevice, e, w1))
     ∧ (nic ≠ 0 → ∀ er w2,
          isMember (nic, moMulticastAddr v) e = false →
          stack_JoinGroup (NetProto (info e)) nic (moMulticastAddr v) w1
          = (Some er, w2) →
          SetSockOpt (AddMembershipOption v) e w = Done (Some er, e, w2))
     ∧ (nic ≠ 0 → ∀ er w2,
          isMember (nic, moMulticastAddr v) e = true →
          stack_LeaveGroup (NetProto (info e)) nic (moMulticastAddr v) w1
          = (Some er, w2) →
          SetSockOpt (RemoveMembershipOption v) e w = Done (Some er, e, w2))).
Proof.
  split.
  - intros Hmc. unfold SetSockOpt.
    assert (negb (IsV4MulticastAddress (moMulticastAddr v))
            && negb (IsV6MulticastAddress (moMulticastAddr v)) = true) as ->; [|done].
    destruct (IsV4MulticastAddress _), (IsV6MulticastAddress _); done.
  - intros Hmc nic w1 Hn.
    assert (Hneg : negb (IsV4MulticastAddress (moMulticastAddr v))
                   && negb (IsV6MulticastAddress (moMulticastAddr v)) = false).
    { destruct (IsV4MulticastAddress _), (IsV6MulticastAddress _); done. }
    unfold SetSockOpt. rewrite Hneg, Hn. split_and!.
    + intros ->. done.
    + intros Hz er w2 Hmem Hj. rewrite (bool_decide_eq_false_2 _ Hz), Hmem, Hj. done.
    + intros Hz er w2 Hmem Hl. rewrite (bool_decide_eq_false_2 _ Hz), Hmem. simpl.
      by rewrite Hl.
Qed.

(** X19. How the membership options find the interface, and that they
    keep no route. With an interface address that is not the unspecified
    one, the NIC is the one on which the stack finds that address; with
    none and a NIC given, that NIC; with neither, the NIC of a route to
    the group, or zero when there is no route. The route looked up on the
    way is released at once: no call of [SetSockOpt] changes the
    reference count of any route. *)
Theorem membership_interface_resolution
    (v : MembershipOption) (e : Endpoint) (w : World) :
  (Unspecified (moInterfaceAddr v) = false →
   membershipNIC v e w
   = (CheckLocalAddress (stk w) (moNIC v) (NetProto (info e)) (moInterfaceAddr v), w))
  ∧ (Unspecified (moInterfaceAddr v) = true → moNIC v ≠ 0 →
     membershipNIC v e w = (moNIC v, w))
  ∧ (Unspecified (moInterfaceAddr v) = true → moNIC v = 0 →
     (membershipNIC v e w).1
     = match FindRoute (stk w) 0 "" (moMulticastAddr v) (NetProto (info e)) false with
       | inl ri => riNICID ri
       | inr _ => 0
       end)
  ∧ (∀ opt er e' w',
       SetSockOpt opt e w = Done (er, e', w') →
       route e' = route e ∧ ∀ k, refs k (trace w') = refs k (trace w)).
Proof.
  unfold membershipNIC, stack_FindRoute. split_and!.
  - by intros ->.
  - intros -> Hn. by rewrite bool_decide_eq_false_2.
  - intros -> ->. simpl. by destruct (FindRoute _ _ _ _ _ _).
  - intros opt er e' w' H. split.
    + apply (SetSockOpt_frame _ _ _ _ _ _ H).
    + apply (SetSockOpt_refs _ _ _ _ _ _ H).
Qed.

(** X20. Joining and then leaving restores the set. When an
    [AddMembershipOption] succeeds and the same option, as a
    [RemoveMembershipOption], resolves to the same NIC and is accepted by
    the stack, the membership set is again the one before the join; and
    the joined pair was in the set in between and not before. *)
Theorem join_then_leave_restores
    (v : MembershipOption) (e : Endpoint) (w : World) (e1 : Endpoint)
    (w1 wa wb wc : World) (nic : Z) :
  SetSockOpt (AddMembershipOption v) e w = Done (None, e1, w1) →
  (membershipNIC v e w).1 = nic →
  membershipNIC v e1 wa = (nic, wb) →
  stack_LeaveGroup (NetProto (info e1)) nic (moMulticastAddr v) wb = (None, wc) →
  ∃ e2,
    SetSockOpt (RemoveMembershipOption v) e1 wa = Done (None, e2, wc)
    ∧ multicastMemberships e2 = multicastMemberships e
    ∧ isMember (nic, moMulticastAddr v) e = false
    ∧ isMember (nic, moMulticastAddr v) e1 = true
    ∧ isMember (nic, moMulticastAddr v) e2 = false.
Proof.
  intros Hadd Hnic Hrem Hleave.
  unfold SetSockOpt in Hadd.
  destruct (negb (IsV4MulticastAddress (moMulticastAddr v))
            && negb (IsV6MulticastAddress (moMulticastAddr v))) eqn:Hneg; [done|].
  destruct (membershipNIC v e w) as [nic0 w0]. simpl in Hnic. subst nic0.
  destruct (bool_decide (nic = 0)) eqn:Hz; [done|].
  destruct (isMember (nic, moMulticastAddr v) e) eqn:Hmem; [done|].
  destruct (stack_JoinGroup _ _ _ _) as [[?|] ?]; [done|].
  destruct (multicastMemberships e) as [m|] eqn:Hm; [|done].
  simplify_eq.
  assert (Hnotin : (nic, moMulticastAddr v) ∉ m).
  { unfold isMember in Hmem. rewrite Hm in Hmem.
    by apply bool_decide_eq_false in Hmem. }
  unfold SetSockOpt. rewrite Hneg, Hrem, Hz.
  assert (isMember (nic, moMulticastAddr v)
            (set_multicastMemberships (Some ({[(nic, moMulticastAddr v)]} ∪ m)) e)
          = true) as Hin.
  { unfold isMember. simpl. apply bool_decide_eq_true. set_solver. }
  rewrite Hin. simpl. simpl in Hleave. rewrite Hleave.
  eexists. split; [reflexivity|]. simpl. split_and!; try done.
  - f_equal. apply set_eq. set_solver.
  - unfold isMember. simpl. apply bool_decide_eq_false. set_solver.
Qed.

(** *** The references on the routes *)















(** *** Calls made twice, and options in every state *)

(** X22. A second [Disconnect] does nothing. After a [Disconnect] that
    returned, the state is not Connected and the route field is left as
    it is by every further [Disconnect]: the route is not released a
    second time. *)
Theorem Disconnect_twice (e : Endpoint) (w : World) (e' : Endpoint) (w' : World) :
  Disconnect e w = Done (e', w') →
  State e' ≠ DatagramEndpointStateConnected
  ∧ ∀ w2, Disconnect e' w2 = Done (e', w2).
Proof.
  intros H.
  assert (Hs : State e' ≠ DatagramEndpointStateConnected).
  { revert H. unfold Disconnect.
    destruct (bool_decide (State e ≠ _)) eqn:Hst.
    - apply bool_decide_eq_true in Hst. intros; by simplify_eq.
    - destruct (_ || _); simpl; destruct (route e); intros; by simplify_eq. }
  split; [done|]. intros w2. unfold Disconnect.
  by rewrite bool_decide_eq_true_2.
Qed.

(** X23. The socket options do not look at the state. [SetSockOptInt]
    and [SetSockOpt] give, on an endpoint whose state word is replaced by
    any other, the same result, world and field changes as on the
    endpoint itself. In particular a Closed endpoint still joins a
    group, and since [Close] does nothing on a Closed endpoint, that
    group is not left by a later [Close]. *)
Theorem options_ignore_the_state (s : Z) (e : Endpoint) (w : World) :
  (∀ opt v,
     SetSockOptInt opt v (set_state s e)
     = ((SetSockOptInt opt v e).1, set_state s (SetSockOptInt opt v e).2))
  ∧ (∀ opt,
       SetSockOpt opt (set_state s e) w
       = match SetSockOpt opt e w with
         | Done (er, e', w') => Done (er, set_state s e', w')
         | Panic msg => Panic msg
         end)
  ∧ (∀ v e' w',
       State e = DatagramEndpointStateClosed →
       SetSockOpt (AddMembershipOption v) e w = Done (None, e', w') →
       members e' ≠ [] ∧ Close e' w' = (e', w')).
Proof.
  split_and!.
  - intros opt v. unfold SetSockOptInt. destruct opt; try done.
    by destruct (bool_decide _).
  - intros opt. destruct opt as [v|v|v| |name]; simpl; try done.
    + unfold checkV4MappedLocked. simpl. cases; done.
    + destruct (_ && _); [done|].
      change (membershipNIC v (set_state s e) w) with (membershipNIC v e w).
      destruct (membershipNIC v e w) as [nic w1].
      destruct (bool_decide _); [done|].
      change (isMember (nic, moMulticastAddr v) (set_state s e))
        with (isMember (nic, moMulticastAddr v) e).
      destruct (isMember _ e); [done|].
      destruct (stack_JoinGroup _ _ _ _) as [[?|] ?]; [done|].
      by destruct (multicastMemberships e).
    + destruct (_ && _); [done|].
      change (membershipNIC v (set_state s e) w) with (membershipNIC v e w).
      destruct (membershipNIC v e w) as [nic w1].
      destruct (bool_decide _); [done|].
      change (isMember (nic, moMulticastAddr v) (set_state s e))
        with (isMember (nic, moMulticastAddr v) e).
      destruct (negb _); [done|].
      by destruct (stack_LeaveGroup _ _ _ _) as [[?|] ?].
  - intros v e' w' Hc Hadd.
    destruct (SetSockOpt_frame _ _ _ _ _ _ Hadd) as (_ & _ & _ & Hst & _).
    split.
    + unfold SetSockOpt in Hadd. revert Hadd.
      destruct (_ && _); [done|].
      destruct (membershipNIC v e w) as [nic w1].
      destruct (bool_decide _); [done|].
      destruct (isMember _ e); [done|].
      destruct (stack_JoinGroup _ _ _ _) as [[?|] ?]; [done|].
      destruct (multicastMemberships e) as [m|]; [|done].
      intros; simplify_eq. unfold members. simpl.
      intros Hnil. apply elements_empty_inv in Hnil.
      assert ((nic, moMulticastAddr v) ∈ ({[(nic, moMulticastAddr v)]} ∪ m))
        as Hin by set_solver.
      rewrite Hnil in Hin. set_solver.
    + unfold Close. rewrite Hst, Hc. done.
Qed.

End Properties.

(** ** The properties on the sample stack *)

Example sample_Init_initial :
  Init (net := sample_stack) Sample.ops0 Sample.IPv4 17 zeroEndpoint
  = Done sample_initial.
Proof. reflexivity. Qed.

Example sample_connected_fields :
  State sample_connected = DatagramEndpointStateConnected
  ∧ route sample_connected = Some sample_route
  ∧ ID (info sample_connected) = mkID 0 Sample.local1 0 Sample.peer1
  ∧ BindNICID (info sample_connected) = 0.
Proof. vm_compute. done. Qed.

Example sample_calls_end :
  ∃ e w, run sample_calls sample_initial sample_world = Done (e, w)
    ∧ State e = DatagramEndpointStateClosed
    ∧ route e = None
    ∧ refs 0 (trace w) = 0 ∧ refs 1 (trace w) = 0 ∧ refs 2 (trace w) = 0.
Proof. vm_compute. eexists _, _. split; [reflexivity|]. done. Qed.

(** C1 on [sample_calls]. *)
Lemma route_nonnil_iff_connected_sample :
  (∀ e w, run sample_calls sample_initial sample_world = Done (e, w) →
     (route e ≠ None ↔ State e = DatagramEndpointStateConnected))
  ∧ (no_Init sample_calls →
     ∃ e w, run sample_calls sample_initial sample_world = Done (e, w)).
Proof.
  apply (route_nonnil_iff_connected (net := sample_stack)
           Sample.ops0 Sample.IPv4 17 sample_initial sample_world sample_calls).
  reflexivity.
Defined.

(** C2 on the sample stack: [ConnectAndThen] to [peer1] with a hook that
    refuses. The call returns the hook's error and the endpoint is as
    before, and the route object 0 that [FindRoute] made still has its
    reference and was never released. *)
Lemma ConnectAndThen_hook_error_sample :
  ConnectAndThen (mkFullAddress 0 Sample.peer1 53) Sample.failingHook
    sample_initial sample_world
  = (Some ErrNoRoute, sample_initial,
     mkWorld (net := sample_stack) tt 1
       [EvFindRoute 0 "" Sample.peer1 Sample.IPv4 true (inl sample_route)])
  ∧ releases 0 [EvFindRoute 0 "" Sample.peer1 Sample.IPv4 true (inl sample_route)]
    = releases 0 []
  ∧ refs 0 [EvFindRoute 0 "" Sample.peer1 Sample.IPv4 true (inl sample_route)]
    = 1 + refs 0 [].
Proof.
  apply (ConnectAndThen_hook_error_keeps_route_reference (net := sample_stack)
           (mkFullAddress 0 Sample.peer1 53) Sample.failingHook
           sample_initial sample_world
           (mkFullAddress 0 Sample.peer1 0) Sample.IPv4 sample_route 0
           (mkWorld (net := sample_stack) tt 1 [EvFindRoute 0 "" Sample.peer1 Sample.IPv4 true
                            (inl sample_route)])
           ErrNoRoute).
  - left. reflexivity.
  - reflexivity.
  - reflexivity.
  - reflexivity.
Defined.

(** C3 as stated fails: the connected sample endpoint has no NIC pinning
    and the non-empty local address [local1] that its route gave it, and
    [Disconnect] takes it to Initial with an empty identity, not to Bound
    with [local1]. *)
Lemma Disconnect_nonempty_local_address_not_kept :
  keepsBinding_stated sample_connected
  ∧ (∃ e', Disconnect sample_connected sample_connected_world
           = Done (e', Route_Release sample_route sample_connected_world)
      ∧ State e' = DatagramEndpointStateInitial
      ∧ ID (info e') = zeroID)
  ∧ ¬ Disconnect_claim keepsBinding_stated sample_connected sample_connected_world.
Proof.
  assert (Hk : keepsBinding_stated sample_connected) by (right; by vm_compute).
  split_and!.
  - exact Hk.
  - eexists. split; [vm_compute; reflexivity|]. by vm_compute.
  - intros [_ H].
    destruct (H eq_refl sample_route eq_refl) as (e' & Heq & _ & Hb & _).
    destruct (Hb Hk) as [Hst _].
    vm_compute in Heq. injection Heq as <-. vm_compute in Hst. discriminate.
Qed.

(** C3 as the code has it, on the same endpoint. *)
Lemma Disconnect_keeps_explicit_binding_sample :
  Disconnect_claim keepsBinding sample_connected sample_connected_world.
Proof. apply Disconnect_keeps_explicit_binding. Defined.

(** C4 on the sample stack: after [Init], [Connect] to [peer1] on NIC 5
    and then [Connect] to [peer2] on NIC 6. *)
Lemma Connect_twice_sample :
  ∃ e2 w3,
    Connect (mkFullAddress 6 Sample.peer2 53)
      sample_connected5 sample_connected5_world
    = (None, e2, w3)
    ∧ State e2 = DatagramEndpointStateConnected
    ∧ route e2 = Some sample_route6
    ∧ RemoteAddress (ID (info e2)) = Route_RemoteAddress sample_route6.
Proof.
  pose proof (ConnectAndThen_state_and_pinning (net := sample_stack)
                (mkFullAddress 5 Sample.peer1 53) (λ _ _ _, None)
                sample_initial sample_world) as (_ & _ & _ & _ & H).
  refine (H Sample.ops0 Sample.IPv4 17 sample_initial
            (mkFullAddress 5 Sample.peer1 53)
            sample_connected5 sample_connected5_world
            (mkFullAddress 6 Sample.peer2 53)
            (mkFullAddress 6 Sample.peer2 0) Sample.IPv4
            sample_route6 6
            (connectRoute sample_connected5 6 (mkFullAddress 6 Sample.peer2 0)
               Sample.IPv4 sample_connected5_world).2
            _ _ _ _ _ _).
  - reflexivity.
  - reflexivity.
  - vm_compute. reflexivity.
  - reflexivity.
  - reflexivity.
  - vm_compute. reflexivity.
Defined.

(** C5 on the sample stack: a [Write] on the connected endpoint with no
    destination. The packet leaves on the held route with that route's
    default TTL 64; on a route to the multicast group [group1] the rule
    gives the multicast TTL 1. *)
Lemma Write_selects_TTL_sample :
  (∃ evs,
     trace (mkWorld (net := sample_stack) tt 1
              [EvRelease sample_route;
               EvWritePacket sample_route (mkParams 17 64 0) (mkPkt "payload" None);
               EvAcquire sample_route;
               EvFindRoute 0 "" Sample.peer1 Sample.IPv4 true (inl sample_route)])
     = evs ++ trace sample_connected_world
     ∧ Forall (sent_with_selected_TTL (net := sample_stack)
                 (mkWriteOptions None false) sample_connected evs) evs)
  ∧ selectTTL (net := sample_stack) sample_connected sample_route = 64
  ∧ selectTTL (net := sample_stack) sample_connected
      (mkRoute 1 (mkRouteInfo Sample.IPv4 Sample.local1 Sample.group1
                    64 20 true 1 false)) = 1.
Proof.
  split; [|by vm_compute].
  apply (Write_selects_TTL (net := sample_stack)
           Sample.pktf (mkWriteOptions None false)
           sample_connected sample_connected_world 0 None).
  vm_compute. reflexivity.
Defined.

(** C6 as stated fails: on the endpoint just initialised, the two setters
    accept an option they do not name. *)
Lemma unknown_option_set_not_rejected :
  SetSockOptInt (net := sample_stack) (OtherSockOptInt 99) 7 sample_initial
  = (None, sample_initial)
  ∧ SetSockOpt (OtherSettableOption "TCPInfoOption") sample_initial sample_world
    = Done (None, sample_initial, sample_world)
  ∧ ¬ unknown_options_rejected
        (OtherSockOptInt 99) (OtherSettableOption "TCPInfoOption")
        (OtherGettableOption "TCPInfoOption") 7 sample_initial sample_world.
Proof.
  split_and!; [reflexivity | reflexivity |].
  intros (_ & H & _). vm_compute in H. discriminate.
Qed.

(** C6 as the code has it, on the same options. *)
Lemma unknown_option_get_fails_set_succeeds_sample :
  GetSockOptInt (net := sample_stack) (OtherSockOptInt 99) sample_initial
  = (-1, Some ErrUnknownProtocolOption)
  ∧ GetSockOpt (OtherGettableOption "TCPInfoOption") sample_initial
    = (OtherGettableOption "TCPInfoOption", Some ErrUnknownProtocolOption)
  ∧ SetSockOptInt (net := sample_stack) (OtherSockOptInt 99) 7 sample_initial
    = (None, sample_initial)
  ∧ SetSockOpt (OtherSettableOption "TCPInfoOption") sample_initial sample_world
    = Done (None, sample_initial, sample_world).
Proof.
  apply (unknown_option_get_fails_set_succeeds (net := sample_stack)
           (OtherSockOptInt 99) (OtherSettableOption "TCPInfoOption")
           (OtherGettableOption "TCPInfoOption") 7 sample_initial sample_world).
  - exact I.
  - exact I.
  - exact I.
Defined.

Example sample_joined_by_SetSockOpt :
  SetSockOpt (AddMembershipOption sample_membership) sample_initial sample_world
  = Done (None, sample_joined,
          mkWorld (net := sample_stack) tt 0
            [EvJoinGroup Sample.IPv4 1 Sample.group1]).
Proof. vm_compute. reflexivity. Qed.

(** C7 on the sample stack, for the endpoint that has joined [group1] on
    interface 1 and is asked to join and to leave it again. *)
Lemma membership_join_leave_sample :
  let mem := (1, Sample.group1) in
  let m : gset (Z * string) := {[ (1, Sample.group1) ]} in
  (∀ n a, joins n a (trace sample_world) = joins n a (trace sample_world)
          ∧ leaves n a (trace sample_world) = leaves n a (trace sample_world))
  ∧ (mem ∈ m →
     SetSockOpt (AddMembershipOption sample_membership) sample_joined
       sample_world = Done (Some ErrPortInUse, sample_joined, sample_world))
  ∧ (mem ∉ m →
     SetSockOpt (RemoveMembershipOption sample_membership) sample_joined
       sample_world = Done (Some ErrBadLocalAddress, sample_joined, sample_world))
  ∧ (mem ∉ m → ∀ w2,
       stack_JoinGroup (NetProto (info sample_joined)) 1
         Sample.group1 sample_world = (None, w2) →
       ∃ e', SetSockOpt (AddMembershipOption sample_membership)
               sample_joined sample_world = Done (None, e', w2)
         ∧ ∃ m', multicastMemberships e' = Some m'
           ∧ (∀ x, x ∈ m' ↔ x = mem ∨ x ∈ m)
           ∧ NoDup (members e'))
  ∧ (mem ∈ m → ∀ w2,
       stack_LeaveGroup (NetProto (info sample_joined)) 1
         Sample.group1 sample_world = (None, w2) →
       ∃ e', SetSockOpt (RemoveMembershipOption sample_membership)
               sample_joined sample_world = Done (None, e', w2)
         ∧ ∃ m', multicastMemberships e' = Some m'
           ∧ (∀ x, x ∈ m' ↔ x ∈ m ∧ x ≠ mem)
           ∧ NoDup (members e'))
  ∧ NoDup (members sample_joined).
Proof.
  apply (membership_join_leave (net := sample_stack)
           sample_membership sample_joined sample_world 1 sample_world
           {[ (1, Sample.group1) ]}).
  - reflexivity.
  - reflexivity.
  - lia.
  - reflexivity.
Defined.


Example sample_Close_trace :
  trace (Close sample_open sample_connected_world).2
  = [EvRelease sample_route;
     EvLeaveGroup Sample.IPv4 1 Sample.group1;
     EvFindRoute 0 "" Sample.peer1 Sample.IPv4 true (inl sample_route)].
Proof. vm_compute. reflexivity. Qed.

(** C9 on the sample stack: two of the four states, and the state word 0
    of an endpoint that was never initialised. *)
Lemma Shutdown_by_state_sample :
  Shutdown sample_initial = Done (Some ErrNotConnected, sample_initial)
  ∧ Shutdown sample_connected
    = Done (None, set_writeShutdown true sample_connected)
  ∧ (∃ msg, Shutdown zeroEndpoint = Panic msg).
Proof.
  split_and!.
  - apply (Shutdown_by_state (net := sample_stack) sample_initial).
    left. reflexivity.
  - apply (Shutdown_by_state (net := sample_stack) sample_connected).
    right. by vm_compute.
  - apply (Shutdown_by_state (net := sample_stack) zeroEndpoint).
    unfold state_ok. vm_compute. intros [? | [? | [? | ?]]]; discriminate.
Defined.

(** C10 at 42, at 256 and at -1. *)
Example SetSockOptInt_samples :
  GetSockOptInt (net := sample_stack) TTLOption
    (SetSockOptInt (net := sample_stack) TTLOption 42 sample_initial).2
  = (42, None)
  ∧ GetSockOptInt (net := sample_stack) TTLOption
      (SetSockOptInt (net := sample_stack) TTLOption 256 sample_initial).2
    = (0, None)
  ∧ GetSockOptInt (net := sample_stack) IPv4TOSOption
      (SetSockOptInt (net := sample_stack) IPv6TrafficClassOption (-1)
         sample_initial).2
    = (255, None).
Proof. by vm_compute. Qed.

(** ** The further properties on the sample stack *)

(** X2 on the closed sample endpoint and [sample_revival]. *)
Lemma Closed_is_final_sample :
  let e' := (sample_after sample_revival sample_closed sample_closed_world).1 in
  let w' := (sample_after sample_revival sample_closed sample_closed_world).2 in
  State e' = DatagramEndpointStateClosed
  ∧ info e' = info sample_closed
  ∧ route e' = route sample_closed
  ∧ Write Sample.pktf sample_write_to e' w'
    = Done (0, Some ErrInvalidEndpointState, w').
Proof.
  intros e' w'.
  assert (Hm : multicastMemberships sample_closed ≠ None) by (by vm_compute).
  assert (Hc : State sample_closed = DatagramEndpointStateClosed)
    by (by vm_compute).
  assert (Hr : run sample_revival sample_closed sample_closed_world = Done (e', w'))
    by (by vm_compute).
  destruct (Closed_is_final _ _ _ _ _ Hm Hc Hr)
    as (H1 & H2 & H3 & _ & _ & _ & _ & H8 & _).
  split_and!; [exact H1 | exact H2 | exact H3 |].
  exact (H8 Sample.pktf sample_write_to).
Defined.

(** X3 on the connected sample endpoint after [Shutdown]: disconnecting
    and connecting again does not reopen it. *)
Lemma write_shutdown_is_permanent_sample :
  let l := [OpDisconnect; OpConnect (mkFullAddress 0 Sample.peer2 53)] in
  let e' := (sample_after l sample_shut sample_connected_world).1 in
  let w' := (sample_after l sample_shut sample_connected_world).2 in
  State e' = DatagramEndpointStateConnected
  ∧ writeShutdown e' = true
  ∧ ∃ er, Write Sample.pktf (mkWriteOptions None false) e' w'
          = Done (0, Some er, w')
      ∧ refused_before_routing er.
Proof.
  intros l e' w'.
  assert (Hm : multicastMemberships sample_shut ≠ None) by (by vm_compute).
  assert (Hs : writeShutdown sample_shut = true) by reflexivity.
  assert (Hr : run l sample_shut sample_connected_world = Done (e', w'))
    by (by vm_compute).
  destruct (write_shutdown_is_permanent _ _ _ _ _ Hm Hs Hr) as (H1 & H2).
  split_and!; [by vm_compute | exact H1 |].
  exact (H2 Sample.pktf (mkWriteOptions None false)).
Defined.

(** X4 on the sample stack: the pinning to interface 1 that [Bind] to
    [local1] sets survives [sample_revival]. *)
Lemma NIC_pinning_is_permanent_sample :
  let l1 := [OpBind (mkFullAddress 0 Sample.local1 68)] in
  let e := (sample_after l1 sample_initial sample_world).1 in
  let w := (sample_after l1 sample_initial sample_world).2 in
  let e' := (sample_after sample_revival e w).1 in
  BindNICID (info e) = 1 ∧ BindNICID (info e') = 1.
Proof.
  intros l1 e w e'.
  assert (Hi : Init (net := sample_stack) Sample.ops0 Sample.IPv4 17 zeroEndpoint
               = Done sample_initial) by reflexivity.
  assert (H1 : run l1 sample_initial sample_world = Done (e, w))
    by (by vm_compute).
  assert (H2 : run sample_revival e w
               = Done (e', (sample_after sample_revival e w).2))
    by (by vm_compute).
  destruct (NIC_pinning_is_permanent _ _ _ _ _ _ _ _ _ _ _ Hi H1 H2) as (_ & Hp).
  assert (Hb : BindNICID (info e) = 1) by (by vm_compute).
  split; [exact Hb|]. rewrite Hp; [exact Hb|]. rewrite Hb. lia.
Defined.

(** X5 on the sample stack, after [Bind] to [local1] and [Connect] to
    [peer1]. *)
Lemma reported_addresses_sample :
  let l := [OpBind (mkFullAddress 0 Sample.local1 68);
            OpConnect (mkFullAddress 0 Sample.peer1 53)] in
  let e := (sample_after l sample_initial sample_world).1 in
  GetRemoteAddress e = Done (mkFullAddress 1 Sample.peer1 0, true)
  ∧ GetLocalAddress e = Done (mkFullAddress 1 Sample.local1 0).
Proof.
  intros l e.
  assert (Hi : Init (net := sample_stack) Sample.ops0 Sample.IPv4 17 zeroEndpoint
               = Done sample_initial) by reflexivity.
  assert (Hr : run l sample_initial sample_world
               = Done (e, (sample_after l sample_initial sample_world).2))
    by (by vm_compute).
  destruct (reported_addresses _ _ _ _ _ _ _ _ Hi Hr) as (_ & Hc).
  destruct Hc as (r & Hroute & Hrem & Hgr & Hgl); [by vm_compute|].
  split.
  - rewrite Hgr. by vm_compute.
  - rewrite Hgl. assert (Some r = route e) as Heq by (by rewrite Hroute).
    vm_compute in Heq. injection Heq as ->. by vm_compute.
Defined.

(** X7 on the sample stack: a [Write] to [peer2] on the connected
    endpoint finds route object 1, writes one packet on it and releases
    it. *)
Lemma Write_keeps_reference_counts_sample :
  ∃ w', Write Sample.pktf sample_write_to sample_connected sample_connected_world
        = Done (0, None, w')
    ∧ ∀ k, refs k (trace w') = refs k (trace sample_connected_world).
Proof.
  eexists. split; [by vm_compute|].
  apply (Write_keeps_reference_counts (net := sample_stack)
           Sample.pktf sample_write_to sample_connected sample_connected_world
           0 None).
  by vm_compute.
Defined.

(** X8 on the same [Write]. *)
Lemma Write_sends_what_was_built_sample :
  ∃ w' evs,
    Write Sample.pktf sample_write_to sample_connected sample_connected_world
    = Done (0, None, w')
    ∧ trace w' = evs ++ trace sample_connected_world
    ∧ Forall (written_as_built Sample.pktf sample_connected) evs
    ∧ (length (List.filter is_write evs) ≤ 1)%nat.
Proof.
  eexists.
  assert (Hw : Write Sample.pktf sample_write_to sample_connected
                 sample_connected_world
               = Done (0, None,
                       (sample_after [OpWrite Sample.pktf sample_write_to]
                          sample_connected sample_connected_world).2))
    by (by vm_compute).
  destruct (Write_sends_what_was_built _ _ _ _ _ _ _ Hw) as (evs & H1 & H2 & H3).
  exists evs. split_and!; [exact Hw | exact H1 | exact H2 | exact H3].
Defined.

(** X10 on the sample stack: [Bind] to [local1]. *)
Lemma BindAndThen_binds_sample :
  State sample_bound = DatagramEndpointStateBound
  ∧ ID (info sample_bound) = mkID 0 Sample.local1 0 ""
  ∧ BindNICID (info sample_bound) = 1
  ∧ GetLocalAddress sample_bound = Done (mkFullAddress 1 Sample.local1 0).
Proof.
  assert (Hb : BindAndThen (mkFullAddress 0 Sample.local1 68) (λ _ _, None)
                 sample_initial sample_world = (None, sample_bound))
    by (by vm_compute).
  destruct (BindAndThen_binds _ _ _ _ _ Hb)
    as (a & p & Hc & _ & _ & H1 & H2 & _ & _ & _ & H3 & _ & H4 & _).
  vm_compute in Hc. injection Hc as <- <-.
  assert (Ho : mustBeOwned sample_world (mkFullAddress 0 Sample.local1 0) 2048)
    by (split; by vm_compute).
  destruct (H3 Ho) as [H5 _].
  split_and!; [exact H1 | exact H2 | rewrite H5; by vm_compute |].
  rewrite H4, H5. by vm_compute.
Defined.

(** X11 on the sample stack: a second [Connect], to [peer2], on the
    connected endpoint. *)
Lemma ConnectAndThen_connects_sample :
  let res := ConnectAndThen (mkFullAddress 0 Sample.peer2 53) (λ _ _ _, None)
               sample_connected sample_connected_world in
  res.1.1 = None
  ∧ State res.1.2 = DatagramEndpointStateConnected
  ∧ RemoteAddress (ID (info res.1.2)) = Sample.peer2
  ∧ LocalAddress (ID (info res.1.2)) = Sample.local1
  ∧ ∃ nic la,
      trace res.2
      = [EvRelease sample_route]
        ++ EvFindRoute nic la Sample.peer2 2048 true
             (inl (mkRoute 1 (mkRouteInfo Sample.IPv4 Sample.local1 Sample.peer2
                                64 20 true 1 false)))
        :: trace sample_connected_world.
Proof.
  intros res.
  assert (Hc : ConnectAndThen (mkFullAddress 0 Sample.peer2 53) (λ _ _ _, None)
                 sample_connected sample_connected_world
               = (None, res.1.2, res.2)) by (by vm_compute).
  destruct (ConnectAndThen_connects _ _ _ _ _ _ Hc)
    as (a & p & r & nic & la & Ha & H1 & H2 & H3 & _ & H5 & _ & _ & H8).
  vm_compute in Ha. injection Ha as <- <-.
  assert (Hr : route res.1.2
               = Some (mkRoute 1 (mkRouteInfo Sample.IPv4 Sample.local1
                                    Sample.peer2 64 20 true 1 false)))
    by (by vm_compute).
  rewrite Hr in H2. injection H2 as <-.
  split_and!; [by vm_compute | exact H1 | rewrite H5; by vm_compute
              | rewrite H5; by vm_compute |].
  exists nic, la. exact H8.
Defined.

(** X12 on the sample stack: [Bind] to [local1], [Connect] to [peer1],
    [Disconnect]. *)
Lemma Bind_Connect_Disconnect_sample :
  ∃ e3 r,
    route sample_bound_connected = Some r
    ∧ Disconnect sample_bound_connected sample_bound_connected_world
      = Done (e3, Route_Release r sample_bound_connected_world)
    ∧ State e3 = DatagramEndpointStateBound
    ∧ ID (info e3) = mkID 0 Sample.local1 0 ""
    ∧ BindNICID (info e3) = 1.
Proof.
  assert (Hb : BindAndThen (mkFullAddress 0 Sample.local1 68) (λ _ _, None)
                 sample_initial sample_world = (None, sample_bound))
    by (by vm_compute).
  assert (Hc : ConnectAndThen (mkFullAddress 0 Sample.peer1 53) (λ _ _ _, None)
                 sample_bound sample_world
               = (None, sample_bound_connected, sample_bound_connected_world))
    by (by vm_compute).
  destruct (Bind_Connect_Disconnect _ _ _ _ _ _ _ sample_bound_connected_world
              _ _ _ Hb Hc) as (e3 & r & H1 & H2 & _ & H4 & _ & H6 & _).
  assert (Hk : keepsBinding sample_bound) by (left; by vm_compute).
  destruct (H6 Hk) as [H7 H8].
  exists e3, r. split_and!; [exact H1 | exact H2 | exact H7 | |].
  - rewrite H8. by vm_compute.
  - rewrite H4. by vm_compute.
Defined.

(** X15 on the sample stack: the TTL set to 42 is still read after
    [sample_revival], which sets only the multicast TTL. *)
Lemma integer_option_changes_only_when_set_sample :
  let e := (SetSockOptInt (net := sample_stack) TTLOption 42 sample_initial).2 in
  let e' := (sample_after sample_revival e sample_world).1 in
  GetSockOptInt (net := sample_stack) TTLOption e' = (42, None)
  ∧ GetSockOptInt (net := sample_stack) MulticastTTLOption e' = (9, None).
Proof.
  intros e e'.
  assert (Hm : multicastMemberships e ≠ None) by (by vm_compute).
  assert (Hn : Forall (λ o, ¬ sets_field TTLOption o) sample_revival).
  { unfold sample_revival. repeat constructor; simpl; try tauto. discriminate. }
  assert (Hr : run sample_revival e sample_world
               = Done (e', (sample_after sample_revival e sample_world).2))
    by (by vm_compute).
  rewrite (integer_option_changes_only_when_set _ _ _ _ _ _ Hm Hn Hr).
  split; by vm_compute.
Defined.

(** X16 on the sample stack: the multicast interface given by the address
    [local1] is read back as interface 1 with that address. *)
Lemma multicast_interface_round_trip_sample :
  ∃ e',
    SetSockOpt (SetMulticastInterfaceOption sample_interface) sample_initial
      sample_world = Done (None, e', sample_world)
    ∧ GetSockOpt (GetMulticastInterfaceOption (mkMulticastInterfaceOption 0 "")) e'
      = (GetMulticastInterfaceOption (mkMulticastInterfaceOption 1 Sample.local1),
         None).
Proof.
  eexists.
  assert (Hs : SetSockOpt (SetMulticastInterfaceOption sample_interface)
                 sample_initial sample_world
               = Done (None,
                       set_multicastAddr Sample.local1
                         (set_multicastNICID 1 sample_initial),
                       sample_world)) by (by vm_compute).
  destruct (multicast_interface_round_trip _ _ _ _ _ _ Hs) as (_ & _ & H).
  destruct (H eq_refl) as (fa & p & Hc & Hget & _).
  vm_compute in Hc. injection Hc as <- <-.
  split; [exact Hs|]. rewrite Hget. by vm_compute.
Defined.

(** X20 on the sample stack: joining [group1] on interface 1 and leaving
    it again. *)
Lemma join_then_leave_restores_sample :
  ∃ e2 wc,
    SetSockOpt (RemoveMembershipOption sample_membership) sample_joined
      sample_world = Done (None, e2, wc)
    ∧ multicastMemberships e2 = multicastMemberships sample_initial
    ∧ isMember (1, Sample.group1) sample_joined = true
    ∧ isMember (1, Sample.group1) e2 = false.
Proof.
  assert (Ha : SetSockOpt (AddMembershipOption sample_membership) sample_initial
                 sample_world
               = Done (None, sample_joined,
                       mkWorld (net := sample_stack) tt 0
                         [EvJoinGroup Sample.IPv4 1 Sample.group1]))
    by (by vm_compute).
  assert (Hn : (membershipNIC sample_membership sample_initial sample_world).1 = 1)
    by (by vm_compute).
  assert (Hr : membershipNIC sample_membership sample_joined sample_world
               = (1, sample_world)) by (by vm_compute).
  assert (Hl : stack_LeaveGroup (NetProto (info sample_joined)) 1
                 (moMulticastAddr sample_membership) sample_world
               = (None, mkWorld (net := sample_stack) tt 0
                          [EvLeaveGroup Sample.IPv4 1 Sample.group1]))
    by (by vm_compute).
  destruct (join_then_leave_restores _ _ _ _ _ _ _ _ _ Ha Hn Hr Hl)
    as (e2 & H1 & H2 & _ & H4 & H5).
  exists e2. eexists. split_and!; [exact H1 | exact H2 | exact H4 | exact H5].
Defined.


(** X22 on the connected sample endpoint. *)
Lemma Disconnect_twice_sample :
  ∃ e' w',
    Disconnect sample_connected sample_connected_world = Done (e', w')
    ∧ State e' = DatagramEndpointStateInitial
    ∧ Disconnect e' w' = Done (e', w').
Proof.
  assert (Hd : Disconnect sample_connected sample_connected_world
               = Done (sample_after [OpDisconnect] sample_connected
                         sample_connected_world)) by (by vm_compute).
  destruct (sample_after [OpDisconnect] sample_connected sample_connected_world)
    as [e' w'] eqn:He.
  destruct (Disconnect_twice _ _ _ _ Hd) as (_ & H2).
  exists e', w'. split_and!; [exact Hd | | exact (H2 w')].
  assert (e' = (sample_after [OpDisconnect] sample_connected
                  sample_connected_world).1) as -> by (by rewrite He).
  by vm_compute.
Defined.

(** X6 on the sample stack: the endpoint bound to [local1] is pinned to
    interface 1, and a [Write] to [peer2] through interface 2 is turned
    away with no-route before any route is looked up. *)
Lemma Write_refusals_sample :
  Write Sample.pktf (mkWriteOptions (Some (mkFullAddress 2 Sample.peer2 53)) false)
    sample_bound sample_world
  = Done (0, Some ErrNoRoute, sample_world).
Proof.
  destruct (Write_refusals (net := sample_stack) Sample.pktf
              (mkWriteOptions (Some (mkFullAddress 2 Sample.peer2 53)) false)
              sample_bound sample_world) as (_ & _ & _ & _ & H).
  assert (Hc : State sample_bound ≠ DatagramEndpointStateClosed)
    by (by vm_compute).
  assert (Hs : writeShutdown sample_bound = false) by (by vm_compute).
  apply (H eq_refl Hc Hs (mkFullAddress 2 Sample.peer2 53) eq_refl);
    by vm_compute.
Defined.

(** X9 on the sample stack: [peer1] is on no interface of the stack, so a
    [Bind] to it fails; and a [Bind] on the bound endpoint fails. *)
Lemma BindAndThen_refusals_sample :
  BindAndThen (mkFullAddress 0 Sample.peer1 68) (λ _ _, None)
    sample_initial sample_world = (Some ErrBadLocalAddress, sample_initial)
  ∧ BindAndThen (mkFullAddress 0 Sample.local1 68) (λ _ _, None)
      sample_bound sample_world = (Some ErrInvalidEndpointState, sample_bound).
Proof.
  split.
  - destruct (BindAndThen_refusals (net := sample_stack)
                (mkFullAddress 0 Sample.peer1 68) (λ _ _, None)
                sample_initial sample_world) as (_ & _ & H).
    apply (H eq_refl (mkFullAddress 0 Sample.peer1 0) 2048);
      [reflexivity | split; by vm_compute | by vm_compute].
  - destruct (BindAndThen_refusals (net := sample_stack)
                (mkFullAddress 0 Sample.local1 68) (λ _ _, None)
                sample_initial sample_world) as (_ & H & _).
    apply (H sample_bound); by vm_compute.
Defined.

(** X18 on the sample stack: a group address that is not multicast, and
    an interface address that the stack finds on no NIC. *)
Lemma membership_refusals_sample :
  SetSockOpt (AddMembershipOption (mkMembershipOption 1 "" Sample.peer1))
    sample_initial sample_world
  = Done (Some ErrInvalidOptionValue, sample_initial, sample_world)
  ∧ SetSockOpt (AddMembershipOption
                  (mkMembershipOption 0 Sample.peer1 Sample.group1))
      sample_initial sample_world
    = Done (Some ErrUnknownDevice, sample_initial, sample_world).
Proof.
  split.
  - destruct (membership_refusals (net := sample_stack)
                (mkMembershipOption 1 "" Sample.peer1) sample_initial sample_world)
      as (H & _).
    apply H. by vm_compute.
  - destruct (membership_refusals (net := sample_stack)
                (mkMembershipOption 0 Sample.peer1 Sample.group1)
                sample_initial sample_world) as (_ & H).
    destruct (H eq_refl 0 sample_world) as (H0 & _); [by vm_compute|].
    apply (H0 eq_refl).
Defined.

(** X23 on the closed sample endpoint: it joins [group1], and [Close]
    does not leave the group. *)
Lemma options_ignore_the_state_sample :
  ∃ e' w',
    SetSockOpt (AddMembershipOption sample_membership) sample_closed
      sample_closed_world = Done (None, e', w')
    ∧ members e' ≠ []
    ∧ Close e' w' = (e', w').
Proof.
  assert (Ha : SetSockOpt (AddMembershipOption sample_membership) sample_closed
                 sample_closed_world
               = Done (None,
                       (sample_after [OpSetSockOpt (AddMembershipOption
                                                      sample_membership)]
                          sample_closed sample_closed_world).1,
                       (sample_after [OpSetSockOpt (AddMembershipOption
                                                      sample_membership)]
                          sample_closed sample_closed_world).2))
    by (by vm_compute).
  destruct (options_ignore_the_state (net := sample_stack) 0 sample_closed
              sample_closed_world) as (_ & _ & H).
  destruct (H _ _ _ ltac:(by vm_compute) Ha) as [H1 H2].
  eexists _, _. split_and!; [exact Ha | exact H1 | exact H2].
Defined.
